(** * Dual-backend Task CRUD service

    A shallow embedding of the Express API of the repository and of the
    pages that call it:
    - [api/src/routes/mysql.routes.js]      (module [MySQL]),
    - [api/src/routes/postgresql.routes.js] (module [PostgreSQL]),
    - the [/health] route, [startServer] and the error handler of
      [api/src/index.js] (module [Index]),
    - the scripts of [frontend/pages/mysql.vue] and
      [frontend/pages/postgresql.vue] (module [Page]),
    together with a model of the [tasks] table declared by
    [database/mysql/init.sql] and [database/postgresql/init.sql], on which
    the SQL statements issued by the handlers are executed.

    The handlers are asynchronous functions that [await pool.query(...)]
    inside [try { ... } catch (error) { ... }]; they are embedded in a
    state-and-rejection monad over the connection pool.  The functions of
    the pages [await fetch(...)] on these handlers; they are embedded as
    functions on the state of the page and the pool behind the API. *)

From Stdlib Require Import ZArith String List Ascii DecimalString DecimalNat Lia.
From Stdlib Require Import Sorting.Sorted Sorting.Permutation.
From stdpp Require Import base gmap strings list.
Import ListNotations.

Local Open Scope string_scope.
Local Open Scope Z_scope.
Local Open Scope list_scope.

(** ** JavaScript values *)

(** What [express.json()] can put under a key of [req.body].  Arrays and
    objects are only ever tested for truthiness by the handlers, and so
    are numbers, which are modelled by integers. *)
Inductive value : Type :=
  | VNull
  | VBool (b : bool)
  | VNum (n : Z)
  | VStr (s : string)
  | VObject.

(** A destructured binding [const { title } = req.body] is an
    [option value]: [None] is [undefined]. *)
Definition truthy (x : option value) : bool :=
  match x with
  | None => false
  | Some VNull => false
  | Some (VBool b) => b
  | Some (VNum n) => negb (n =? 0)
  | Some (VStr s) => negb (String.eqb s EmptyString)
  | Some VObject => true
  end.

(** [x || d] where [d] is never [undefined]. *)
Definition js_or (x : option value) (d : value) : value :=
  match x with
  | Some v => if truthy x then v else d
  | None => d
  end.

(** [list.includes(x)] on an array of strings (SameValueZero). *)
Definition includes (l : list string) (x : option value) : bool :=
  match x with
  | Some (VStr s) => existsb (String.eqb s) l
  | _ => false
  end.

(** [list.join(sep)] *)
Definition join (sep : string) (l : list string) : string := String.concat sep l.

(** Template interpolation of a non-negative integer, [`${n}`]. *)
Definition string_of_nat (n : nat) : string := NilZero.string_of_uint (Nat.to_uint n).

Definition nl : string := String "010"%char EmptyString.

(** ** The [tasks] table *)

Record task : Type := mkTask {
  id : Z;
  title : string;
  description : option string;
  status : option string;
  created_at : Z;
  updated_at : Z
}.

Inductive column : Type := Title | Description | Status.

(** [ENUM('pending', 'in_progress', 'completed')] / [task_status] *)
Definition task_status : list string := ["pending"; "in_progress"; "completed"].

(** The table, its [AUTO_INCREMENT] / [SERIAL] counter and whether the
    server can be reached. *)
Record database : Type := mkDatabase {
  tasks : list task;
  next_id : Z;
  online : bool
}.

(** Conversion of a statement parameter to the cell of a column, with the
    column's constraints: [title VARCHAR(255) NOT NULL], [description TEXT],
    [status] of the enumerated type, nullable.  [None]: the statement is
    refused.  Parameters that are neither strings nor [null] are outside the
    request format the routes document, and the model lets the engine
    refuse them. *)
Definition store_cell (c : column) (v : value) : option (option string) :=
  match c, v with
  | Title, VStr s => if (String.length s <=? 255)%nat then Some (Some s) else None
  | Title, _ => None
  | Description, VStr s => Some (Some s)
  | Description, VNull => Some None
  | Description, _ => None
  | Status, VStr s => if existsb (String.eqb s) task_status then Some (Some s) else None
  | Status, VNull => Some None
  | Status, _ => None
  end.

Definition write_cell (c : column) (x : option string) (t : task) : task :=
  match c with
  | Title =>
      mkTask (id t) (default (title t) x) (description t) (status t)
             (created_at t) (updated_at t)
  | Description =>
      mkTask (id t) (title t) x (status t) (created_at t) (updated_at t)
  | Status =>
      mkTask (id t) (title t) (description t) x (created_at t) (updated_at t)
  end.

Definition touch (now : Z) (t : task) : task :=
  mkTask (id t) (title t) (description t) (status t) (created_at t) now.

Definition option_string_eqb (x y : option string) : bool :=
  match x, y with
  | Some a, Some b => String.eqb a b
  | None, None => true
  | _, _ => false
  end.

(** Equality of the columns an [UPDATE] of the routes can assign. *)
Definition same_cells (t u : task) : bool :=
  String.eqb (title t) (title u)
  && option_string_eqb (description t) (description u)
  && option_string_eqb (status t) (status u).

(** [ORDER BY created_at DESC].  SQL leaves the order of rows with equal
    timestamps open; this is one of the orders it allows, the one in
    which such rows keep their table order. *)
Fixpoint insert_desc (t : task) (l : list task) : list task :=
  match l with
  | [] => [t]
  | u :: l' =>
      if created_at u <=? created_at t then t :: l else u :: insert_desc t l'
  end.

Definition order_by_created_at_desc (l : list task) : list task :=
  fold_right insert_desc [] l.

(** ** Statements *)

(** The statements of the routes, with the position (from 0) in the
    parameter array each placeholder refers to. *)
Inductive statement : Type :=
  | SelectAll
  | SelectById (pid : nat)
  | Insert (ptitle pdescription pstatus : nat) (returning : bool)
  | Update (sets : list (column * nat)) (pid : nat) (returning : bool)
  | Delete (pid : nat) (returning : bool).

Fixpoint strip_prefix (p s : string) : option string :=
  match p, s with
  | EmptyString, _ => Some s
  | String a p', String b s' => if Ascii.eqb a b then strip_prefix p' s' else None
  | String _ _, EmptyString => None
  end.

Definition is_digit (a : ascii) : bool :=
  let n := nat_of_ascii a in (48 <=? n)%nat && (n <=? 57)%nat.

(** Leading decimal digits of [s] (at least one when [seen] is false at the
    start), and what follows them. *)
Fixpoint read_digits (s : string) (acc : nat) (seen : bool) : option (nat * string) :=
  match s with
  | String a s' =>
      if is_digit a then read_digits s' (10 * acc + (nat_of_ascii a - 48))%nat true
      else if seen then Some (acc, s) else None
  | EmptyString => if seen then Some (acc, s) else None
  end.

Definition column_name (c : column) : string :=
  match c with
  | Title => "title"
  | Description => "description"
  | Status => "status"
  end.

(** [<column> = <placeholder prefix>] at the head of [s]. *)
Definition read_assignment (placeholder s : string) : option (column * string) :=
  match strip_prefix ("title = " +:+ placeholder) s with
  | Some rest => Some (Title, rest)
  | None =>
      match strip_prefix ("description = " +:+ placeholder) s with
      | Some rest => Some (Description, rest)
      | None =>
          match strip_prefix ("status = " +:+ placeholder) s with
          | Some rest => Some (Status, rest)
          | None => None
          end
      end
  end.

(** The result of a statement before the driver shapes it. *)
Record effect : Type := mkEffect {
  selected : list task;
  affected : nat;
  generated_id : Z
}.

Inductive settled (A : Type) : Type :=
  | Fulfilled (a : A)
  | Rejected (message : string).
Arguments Fulfilled {A} a.
Arguments Rejected {A} message.

(** The two engines. *)
Inductive dialect : Type := Mysql | Postgres.

(** How an engine reads the parameter compared with the integer column
    [id]: PostgreSQL refuses text that is not an integer literal, MySQL
    converts text to a number (its leading digits, 0 when there are
    none).  [None]: the statement is refused; [Some None]: no row can
    match.  The text is read as an unsigned decimal number of any size:
    the 32 bits of the column, beyond which PostgreSQL refuses the
    parameter, and the signs and the white space the engines accept
    around a number are not part of this reading. *)
Definition id_of_param (d : dialect) (v : value) : option (option Z) :=
  match v with
  | VNum n => Some (Some n)
  | VStr s =>
      match d, read_digits s 0 false with
      | Postgres, Some (n, EmptyString) => Some (Some (Z.of_nat n))
      | Postgres, _ => None
      | Mysql, Some (n, _) => Some (Some (Z.of_nat n))
      | Mysql, None => Some (Some 0)
      end
  | VNull => Some None
  | _ => None
  end.

Definition has_id (k : option Z) (t : task) : bool :=
  match k with
  | Some n => id t =? n
  | None => false
  end.

(** The cells a [SET] list assigns, or [None] when a placeholder has no
    parameter or a cell is refused. *)
Fixpoint resolve_sets (sets : list (column * nat)) (values : list value)
  : option (list (column * option string)) :=
  match sets with
  | [] => Some []
  | (c, i) :: sets' =>
      match values !! i with
      | Some v =>
          match store_cell c v, resolve_sets sets' values with
          | Some x, Some rest => Some ((c, x) :: rest)
          | _, _ => None
          end
      | None => None
      end
  end.

Definition apply_sets (cells : list (column * option string)) (t : task) : task :=
  fold_left (fun u cx => write_cell (fst cx) (snd cx) u) cells t.

(** One row under [UPDATE]: MySQL's [ON UPDATE CURRENT_TIMESTAMP] refreshes
    [updated_at] when a column of the row changes value; PostgreSQL's
    [BEFORE UPDATE] trigger [update_updated_at_column] always does. *)
Definition update_row (d : dialect) (cells : list (column * option string))
    (now : Z) (t : task) : task :=
  let u := apply_sets cells t in
  match d with
  | Mysql => if same_cells t u then t else touch now u
  | Postgres => touch now u
  end.

Definition connection_error : string := "connect ECONNREFUSED".
Definition statement_error : string := "statement refused".

(** One statement on the table.  A statement that is refused leaves the
    table and its counter as they were, and a database is reachable or
    not for all the statements of a call. *)
Definition run (d : dialect) (st : statement) (values : list value) (now : Z)
    (db : database) : settled effect * database :=
  if negb (online db) then (Rejected connection_error, db) else
  match st with
  | SelectAll =>
      (Fulfilled (mkEffect (order_by_created_at_desc (tasks db)) 0 0), db)
  | SelectById pid =>
      match values !! pid ≫= id_of_param d with
      | Some k => (Fulfilled (mkEffect (filter (fun t => has_id k t) (tasks db)) 0 0), db)
      | None => (Rejected statement_error, db)
      end
  | Insert pt pd ps returning =>
      match values !! pt ≫= store_cell Title,
            values !! pd ≫= store_cell Description,
            values !! ps ≫= store_cell Status with
      | Some (Some t), Some d', Some s =>
          let row := mkTask (next_id db) t d' s now now in
          (Fulfilled (mkEffect (if returning then [row] else []) 1 (next_id db)),
           mkDatabase (tasks db ++ [row]) (next_id db + 1) (online db))
      | _, _, _ => (Rejected statement_error, db)
      end
  | Update sets pid returning =>
      match resolve_sets sets values, values !! pid ≫= id_of_param d with
      | Some cells, Some k =>
          let hit := filter (fun t => has_id k t) (tasks db) in
          let rows' := map (fun t => if has_id k t then update_row d cells now t else t)
                           (tasks db) in
          (Fulfilled (mkEffect
                        (if returning then filter (fun t => has_id k t) rows' else [])
                        (length hit) 0),
           mkDatabase rows' (next_id db) (online db))
      | _, _ => (Rejected statement_error, db)
      end
  | Delete pid returning =>
      match values !! pid ≫= id_of_param d with
      | Some k =>
          let hit := filter (fun t => has_id k t) (tasks db) in
          (Fulfilled (mkEffect (if returning then hit else []) (length hit) 0),
           mkDatabase (filter (fun t => negb (has_id k t)) (tasks db))
                      (next_id db) (online db))
      | None => (Rejected statement_error, db)
      end
  end.

Arguments run : simpl never.

(** ** The pool and the handlers' monad *)

(** A pool: the database behind it and the calls of [pool.query] so far. *)
Record pool : Type := mkPool {
  store : database;
  issued : list (string * list value)
}.

(** An awaited computation: reads the clock of the request, may reject. *)
Definition Async (A : Type) : Type := Z → pool → settled A * pool.

#[global] Instance async_ret : MRet Async :=
  λ A (a : A) (now : Z) (p : pool), (Fulfilled a, p).

#[global] Instance async_bind : MBind Async :=
  λ A B (k : A → Async B) (m : Async A) (now : Z) (p : pool),
    match m now p with
    | (Fulfilled a, p') => k a now p'
    | (Rejected e, p') => (Rejected e, p')
    end.

(** ** Responses *)

#[warnings="-register-all"] Inductive json : Type :=
  | JNull
  | JBool (b : bool)
  | JNum (n : Z)
  | JStr (s : string)
  | JTask (t : task)
  | JTasks (ts : list task)
  | JObject (fields : list (string * json)).

Record response : Type := mkResponse {
  statusCode : Z;
  body : list (string * json)
}.

(** [res.status(code).json({...})]: a property whose value is [undefined]
    is not serialised. *)
Definition res_json (code : Z) (props : list (string * option json)) : response :=
  mkResponse code (omap (fun kv => pair (fst kv) <$> snd kv) props).

Definition handler : Type := Z → pool → response * pool.

(** [try { ... } catch (error) { ... error.message ... }] *)
Definition try_catch (m : Async response) (on_error : string → response) : handler :=
  λ now p,
    match m now p with
    | (Fulfilled r, p') => (r, p')
    | (Rejected e, p') => (on_error e, p')
    end.

Definition fields (r : response) : list string := map fst (body r).

Definition syntax_error : string := "syntax error".

(** ** [api/src/routes/mysql.routes.js] *)

Module MySQL.

(** *** The driver: [mysql2/promise]

    [pool.query(sql, values)] substitutes the values for the [?] of the
    text from left to right, and resolves to [[rows, fields]] for a
    [SELECT] and to [[header, undefined]] for the other statements. *)

Fixpoint parse_sets (fuel i : nat) (s : string)
  : option (list (column * nat) * nat) :=
  match fuel with
  | O => None
  | S fuel' =>
      match read_assignment "?" s with
      | Some (c, rest) =>
          match strip_prefix ", " rest with
          | Some rest' =>
              match parse_sets fuel' (S i) rest' with
              | Some (sets, pid) => Some ((c, i) :: sets, pid)
              | None => None
              end
          | None =>
              if String.eqb rest " WHERE id = ?" then Some ([(c, i)], S i) else None
          end
      | None => None
      end
  end.

Definition parse (sql : string) : option statement :=
  if String.eqb sql "SELECT * FROM tasks ORDER BY created_at DESC" then
    Some SelectAll
  else if String.eqb sql "SELECT * FROM tasks WHERE id = ?" then
    Some (SelectById 0)
  else if String.eqb sql
            "INSERT INTO tasks (title, description, status) VALUES (?, ?, ?)" then
    Some (Insert 0 1 2 false)
  else if String.eqb sql "DELETE FROM tasks WHERE id = ?" then
    Some (Delete 0 false)
  else
    match strip_prefix "UPDATE tasks SET " sql with
    | Some rest =>
        match parse_sets (String.length rest) 0 rest with
        | Some (sets, pid) => Some (Update sets pid false)
        | None => None
        end
    | None => None
    end.

(** The first component of what [pool.query] resolves to. *)
Inductive result : Type :=
  | Rows (rows : list task)
  | Header (insertId : Z) (affectedRows : Z).

Definition shape (st : statement) (e : effect) : result :=
  match st with
  | SelectAll | SelectById _ => Rows (selected e)
  | _ => Header (generated_id e) (Z.of_nat (affected e))
  end.

Definition query (sql : string) (values : list value) : Async result :=
  λ now p,
    let log := issued p ++ [(sql, values)] in
    match parse sql with
    | None => (Rejected syntax_error, mkPool (store p) log)
    | Some st =>
        match run Mysql st values now (store p) with
        | (Fulfilled e, db') => (Fulfilled (shape st e), mkPool db' log)
        | (Rejected m, db') => (Rejected m, mkPool db' log)
        end
    end.

(** Property reads on the resolved value; [None] is [undefined]. *)
Definition length_of (r : result) : option Z :=
  match r with
  | Rows rows => Some (Z.of_nat (length rows))
  | Header _ _ => None
  end.

Definition first_of (r : result) : option json :=
  match r with
  | Rows (t :: _) => Some (JTask t)
  | _ => None
  end.

Definition insertId_of (r : result) : option value :=
  match r with
  | Header i _ => Some (VNum i)
  | Rows _ => None
  end.

Definition affectedRows_of (r : result) : option Z :=
  match r with
  | Header _ n => Some n
  | Rows _ => None
  end.

Definition json_of (r : result) : json :=
  match r with
  | Rows rows => JTasks rows
  | Header i n => JObject [("affectedRows", JNum n); ("insertId", JNum i)]
  end.

(** [testConnection()] of [config/mysql.js]: [true] when a connection can
    be taken from the pool, [false] when taking it fails; it never throws. *)
Definition testConnection (p : pool) : bool := online (store p).

Definition validStatuses : list string := ["pending"; "in_progress"; "completed"].

Definition invalid_status : response :=
  res_json 400
    [("success", Some (JBool false));
     ("error", Some (JStr ("Invalid status. Must be one of: "
                           +:+ join ", " validStatuses)))].

Definition failed (what : string) (message : string) : response :=
  res_json 500
    [("success", Some (JBool false));
     ("error", Some (JStr what));
     ("message", Some (JStr message))].

Definition not_found : response :=
  res_json 404
    [("success", Some (JBool false)); ("error", Some (JStr "Task not found"))].

(** [router.get('/tasks', ...)] *)
Definition get_tasks : handler :=
  try_catch
    (rows ← query "SELECT * FROM tasks ORDER BY created_at DESC" [];
     mret (res_json 200
             [("success", Some (JBool true));
              ("data", Some (json_of rows));
              ("count", JNum <$> length_of rows)]))
    (failed "Failed to fetch tasks").

(** [router.get('/tasks/:id', ...)] *)
Definition get_task (id : string) : handler :=
  try_catch
    (rows ← query "SELECT * FROM tasks WHERE id = ?" [VStr id];
     if bool_decide (length_of rows = Some 0) then mret not_found
     else
       mret (res_json 200
               [("success", Some (JBool true)); ("data", first_of rows)]))
    (failed "Failed to fetch task").

(** [router.post('/tasks', ...)] *)
Definition post_task (req_body : gmap string value) : handler :=
  try_catch
    (let title := req_body !! "title" in
     let description := req_body !! "description" in
     let status := req_body !! "status" in
     if negb (truthy title) then
       mret (res_json 400
               [("success", Some (JBool false));
                ("error", Some (JStr "Title is required"))])
     else if truthy status && negb (includes validStatuses status) then
       mret invalid_status
     else
       result ← query
         "INSERT INTO tasks (title, description, status) VALUES (?, ?, ?)"
         [default VNull title; js_or description VNull; js_or status (VStr "pending")];
       newTask ← query "SELECT * FROM tasks WHERE id = ?"
         [default VNull (insertId_of result)];
       mret (res_json 201
               [("success", Some (JBool true));
                ("data", first_of newTask);
                ("message", Some (JStr "Task created successfully"))]))
    (failed "Failed to create task").

(** [router.put('/tasks/:id', ...)] *)
Definition put_task (id : string) (req_body : gmap string value) : handler :=
  try_catch
    (let title := req_body !! "title" in
     let description := req_body !! "description" in
     let status := req_body !! "status" in
     if truthy status && negb (includes validStatuses status) then
       mret invalid_status
     else
       let updates : list string := [] in
       let values : list value := [] in
       let '(updates, values) :=
         match title with
         | Some v => (updates ++ ["title = ?"], values ++ [v])
         | None => (updates, values)
         end in
       let '(updates, values) :=
         match description with
         | Some v => (updates ++ ["description = ?"], values ++ [v])
         | None => (updates, values)
         end in
       let '(updates, values) :=
         match status with
         | Some v => (updates ++ ["status = ?"], values ++ [v])
         | None => (updates, values)
         end in
       if (length updates =? 0)%nat then
         mret (res_json 400
                 [("success", Some (JBool false));
                  ("error", Some (JStr "No fields to update"))])
       else
         let values := values ++ [VStr id] in
         result ← query
           ("UPDATE tasks SET " +:+ join ", " updates +:+ " WHERE id = ?") values;
         if bool_decide (affectedRows_of result = Some 0) then mret not_found
         else
           updatedTask ← query "SELECT * FROM tasks WHERE id = ?" [VStr id];
           mret (res_json 200
                   [("success", Some (JBool true));
                    ("data", first_of updatedTask);
                    ("message", Some (JStr "Task updated successfully"))]))
    (failed "Failed to update task").

(** [router.delete('/tasks/:id', ...)] *)
Definition delete_task (id : string) : handler :=
  try_catch
    (result ← query "DELETE FROM tasks WHERE id = ?" [VStr id];
     if bool_decide (affectedRows_of result = Some 0) then mret not_found
     else
       mret (res_json 200
               [("success", Some (JBool true));
                ("message", Some (JStr "Task deleted successfully"))]))
    (failed "Failed to delete task").

End MySQL.

(** ** [api/src/routes/postgresql.routes.js] *)

Module PostgreSQL.

(** *** The driver: [pg]

    [pool.query(text, values)] sends the text with its numbered
    placeholders [$1], [$2], ... and resolves to an object with the
    [rows] the statement returned. *)

Definition placeholder (k : nat) : option nat :=
  match k with
  | O => None
  | S i => Some i
  end.

Definition insert_text : string :=
  "INSERT INTO tasks (title, description, status) " +:+ nl +:+
  "       VALUES ($1, $2, $3) " +:+ nl +:+
  "       RETURNING *".

Definition update_text (sets index : string) : string :=
  "UPDATE tasks " +:+ nl +:+
  "       SET " +:+ sets +:+ " " +:+ nl +:+
  "       WHERE id = $" +:+ index +:+ nl +:+
  "       RETURNING *".

Fixpoint parse_sets (fuel : nat) (s : string)
  : option (list (column * nat) * nat) :=
  match fuel with
  | O => None
  | S fuel' =>
      '(c, rest) ← read_assignment "$" s;
      '(k, rest) ← read_digits rest 0%nat false;
      i ← placeholder k;
      match strip_prefix ", " rest with
      | Some rest' =>
          '(sets, pid) ← parse_sets fuel' rest';
          Some ((c, i) :: sets, pid)
      | None =>
          rest' ← strip_prefix (" " +:+ nl +:+ "       WHERE id = $") rest;
          '(n, tail) ← read_digits rest' 0%nat false;
          j ← placeholder n;
          if String.eqb tail (nl +:+ "       RETURNING *") then Some ([(c, i)], j)
          else None
      end
  end.

Definition parse (sql : string) : option statement :=
  if String.eqb sql "SELECT * FROM tasks ORDER BY created_at DESC" then
    Some SelectAll
  else if String.eqb sql "SELECT * FROM tasks WHERE id = $1" then
    Some (SelectById 0)
  else if String.eqb sql insert_text then
    Some (Insert 0 1 2 true)
  else if String.eqb sql "DELETE FROM tasks WHERE id = $1 RETURNING *" then
    Some (Delete 0 true)
  else
    rest ← strip_prefix ("UPDATE tasks " +:+ nl +:+ "       SET ") sql;
    '(sets, pid) ← parse_sets (String.length rest) rest;
    Some (Update sets pid true).

Record result : Type := mkResult {
  rows : list task;
  rowCount : nat
}.

Definition shape (st : statement) (e : effect) : result :=
  match st with
  | SelectAll | SelectById _ => mkResult (selected e) (length (selected e))
  | _ => mkResult (selected e) (affected e)
  end.

Definition query (sql : string) (values : list value) : Async result :=
  λ now p,
    let log := issued p ++ [(sql, values)] in
    match parse sql with
    | None => (Rejected syntax_error, mkPool (store p) log)
    | Some st =>
        match run Postgres st values now (store p) with
        | (Fulfilled e, db') => (Fulfilled (shape st e), mkPool db' log)
        | (Rejected m, db') => (Rejected m, mkPool db' log)
        end
    end.

(** [result.rows[0]] *)
Definition first_of (rows : list task) : option json := JTask <$> head rows.

(** [testConnection()] of [config/postgresql.js]: [true] when a client
    can be taken from the pool and answers [SELECT NOW()], [false] when
    either fails; it never throws. *)
Definition testConnection (p : pool) : bool := online (store p).

Definition validStatuses : list string := ["pending"; "in_progress"; "completed"].

Definition invalid_status : response :=
  res_json 400
    [("success", Some (JBool false));
     ("error", Some (JStr ("Invalid status. Must be one of: "
                           +:+ join ", " validStatuses)))].

Definition failed (what : string) (message : string) : response :=
  res_json 500
    [("success", Some (JBool false));
     ("error", Some (JStr what));
     ("message", Some (JStr message))].

Definition not_found : response :=
  res_json 404
    [("success", Some (JBool false)); ("error", Some (JStr "Task not found"))].

(** [router.get('/tasks', ...)] *)
Definition get_tasks : handler :=
  try_catch
    (result ← query "SELECT * FROM tasks ORDER BY created_at DESC" [];
     mret (res_json 200
             [("success", Some (JBool true));
              ("data", Some (JTasks (rows result)));
              ("count", Some (JNum (Z.of_nat (length (rows result)))))]))
    (failed "Failed to fetch tasks").

(** [router.get('/tasks/:id', ...)] *)
Definition get_task (id : string) : handler :=
  try_catch
    (result ← query "SELECT * FROM tasks WHERE id = $1" [VStr id];
     if (length (rows result) =? 0)%nat then mret not_found
     else
       mret (res_json 200
               [("success", Some (JBool true)); ("data", first_of (rows result))]))
    (failed "Failed to fetch task").

(** [router.post('/tasks', ...)] *)
Definition post_task (req_body : gmap string value) : handler :=
  try_catch
    (let title := req_body !! "title" in
     let description := req_body !! "description" in
     let status := req_body !! "status" in
     if negb (truthy title) then
       mret (res_json 400
               [("success", Some (JBool false));
                ("error", Some (JStr "Title is required"))])
     else if truthy status && negb (includes validStatuses status) then
       mret invalid_status
     else
       result ← query insert_text
         [default VNull title; js_or description VNull; js_or status (VStr "pending")];
       mret (res_json 201
               [("success", Some (JBool true));
                ("data", first_of (rows result));
                ("message", Some (JStr "Task created successfully"))]))
    (failed "Failed to create task").

(** [router.put('/tasks/:id', ...)] *)
Definition put_task (id : string) (req_body : gmap string value) : handler :=
  try_catch
    (let title := req_body !! "title" in
     let description := req_body !! "description" in
     let status := req_body !! "status" in
     if truthy status && negb (includes validStatuses status) then
       mret invalid_status
     else
       let updates : list string := [] in
       let values : list value := [] in
       let parameterIndex : nat := 1%nat in
       let '(updates, values, parameterIndex) :=
         match title with
         | Some v =>
             (updates ++ ["title = $" +:+ string_of_nat parameterIndex],
              values ++ [v], S parameterIndex)
         | None => (updates, values, parameterIndex)
         end in
       let '(updates, values, parameterIndex) :=
         match description with
         | Some v =>
             (updates ++ ["description = $" +:+ string_of_nat parameterIndex],
              values ++ [v], S parameterIndex)
         | None => (updates, values, parameterIndex)
         end in
       let '(updates, values, parameterIndex) :=
         match status with
         | Some v =>
             (updates ++ ["status = $" +:+ string_of_nat parameterIndex],
              values ++ [v], S parameterIndex)
         | None => (updates, values, parameterIndex)
         end in
       if (length updates =? 0)%nat then
         mret (res_json 400
                 [("success", Some (JBool false));
                  ("error", Some (JStr "No fields to update"))])
       else
         let values := values ++ [VStr id] in
         result ← query
           (update_text (join ", " updates) (string_of_nat parameterIndex)) values;
         if (length (rows result) =? 0)%nat then mret not_found
         else
           mret (res_json 200
                   [("success", Some (JBool true));
                    ("data", first_of (rows result));
                    ("message", Some (JStr "Task updated successfully"))]))
    (failed "Failed to update task").

(** [router.delete('/tasks/:id', ...)] *)
Definition delete_task (id : string) : handler :=
  try_catch
    (result ← query "DELETE FROM tasks WHERE id = $1 RETURNING *" [VStr id];
     if (length (rows result) =? 0)%nat then mret not_found
     else
       mret (res_json 200
               [("success", Some (JBool true));
                ("message", Some (JStr "Task deleted successfully"));
                ("deletedTask", first_of (rows result))]))
    (failed "Failed to delete task").

End PostgreSQL.

(** ** [api/src/index.js]: the [/health] route, the start of the server,
    the error handler *)

Module Index.

Definition report (connected : bool) : json :=
  JStr (if connected then "connected" else "disconnected").

(** [process.env.NODE_ENV || 'development'] *)
Definition environment (NODE_ENV : option string) : string :=
  match NODE_ENV with
  | Some s => if String.eqb s EmptyString then "development" else s
  | None => "development"
  end.

(** [app.get('/health', ...)] as deployed: in production only PostgreSQL is
    required.  Both probes return a boolean and never throw, so the
    [catch] clause around them is not entered.  [timestamp] is
    [new Date().toISOString()]. *)
Definition get_health (NODE_ENV : option string) (timestamp : string)
    (mysqlDb postgresDb : pool) : response :=
  let mysqlStatus := MySQL.testConnection mysqlDb in
  let postgresStatus := PostgreSQL.testConnection postgresDb in
  let isProduction := bool_decide (NODE_ENV = Some "production") in
  let isHealthy :=
    if isProduction then postgresStatus else mysqlStatus && postgresStatus in
  res_json (if isHealthy then 200 else 503)
    [("status", Some (JStr (if isHealthy then "healthy" else "unhealthy")));
     ("timestamp", Some (JStr timestamp));
     ("environment", Some (JStr (environment NODE_ENV)));
     ("databases",
      Some (JObject [("mysql", report mysqlStatus);
                     ("postgresql", report postgresStatus)]));
     ("note",
      Some (if isProduction then
              JStr "MySQL not available in production (free tier limitation)"
            else JNull))].

(** The first form of the route, before the production mode was
    introduced: both databases are required whatever the environment. *)
Definition get_health_both (timestamp : string) (mysqlDb postgresDb : pool)
  : response :=
  let mysqlStatus := MySQL.testConnection mysqlDb in
  let postgresStatus := PostgreSQL.testConnection postgresDb in
  let isHealthy := mysqlStatus && postgresStatus in
  res_json (if isHealthy then 200 else 503)
    [("status", Some (JStr (if isHealthy then "healthy" else "unhealthy")));
     ("timestamp", Some (JStr timestamp));
     ("databases",
      Some (JObject [("mysql", report mysqlStatus);
                     ("postgresql", report postgresStatus)]))].

(** What becomes of the process when [startServer()] returns. *)
Inductive startup : Type :=
  | Listening
  | Exited (code : Z).

(** [startServer()] of the deployed form: both probes run; a failed
    PostgreSQL probe throws inside the [try], and the [catch] ends the
    process with code 1; a failed MySQL probe is only logged.  Console
    output is left out. *)
Definition startServer (NODE_ENV : option string) (mysqlDb postgresDb : pool)
  : startup :=
  let mysqlConnected := MySQL.testConnection mysqlDb in
  let postgresConnected := PostgreSQL.testConnection postgresDb in
  if negb postgresConnected then Exited 1 else Listening.

(** The error object the global error handler receives. *)
Record error : Type := mkError {
  err_status : option Z;
  err_message : string;
  err_stack : string
}.

(** [app.use((err, req, res, next) => ...)]: [err.status || 500], and the
    diagnostic fields only when [NODE_ENV] is [development].

    The answer is described for the error statuses, 400 to 599.  With any
    other number under [err.status] what is sent is not the handler's to
    decide: Node refuses a status code outside 100 to 999 ([res.status]
    then makes the handler throw, and Express answers with a page of its
    own), and it sends some of the other codes without a body.  There the
    model is silent: [None]. *)
Definition error_handler (NODE_ENV : option string) (err : error)
  : option response :=
  let development := bool_decide (NODE_ENV = Some "development") in
  let code :=
    match err_status err with
    | Some n => if n =? 0 then 500 else n
    | None => 500
    end in
  if (400 <=? code) && (code <=? 599) then
    Some (res_json code
            [("success", Some (JBool false));
             ("error", Some (JStr "Internal server error"));
             ("message",
              if development then Some (JStr (err_message err)) else None);
             ("stack",
              if development then Some (JStr (err_stack err)) else None)])
  else None.

End Index.

(** ** Vocabulary of the specification *)

(** The property [k] of a response body. *)
Fixpoint property (k : string) (props : list (string * json)) : option json :=
  match props with
  | [] => None
  | (k', v) :: rest => if String.eqb k k' then Some v else property k rest
  end.

Inductive backend : Type := MySQLBackend | PostgreSQLBackend.

(** The probes the operating mode requires. *)
Definition required (NODE_ENV : option string) : list backend :=
  if bool_decide (NODE_ENV = Some "production") then [PostgreSQLBackend]
  else [MySQLBackend; PostgreSQLBackend].

Definition probe (mysqlDb postgresDb : pool) (b : backend) : bool :=
  match b with
  | MySQLBackend => MySQL.testConnection mysqlDb
  | PostgreSQLBackend => PostgreSQL.testConnection postgresDb
  end.

(** A status value the data model allows. *)
Definition enumerated (s : option string) : Prop :=
  s = Some "pending" ∨ s = Some "in_progress" ∨ s = Some "completed".

(** [t] may stand before [u] in a list ordered by [created_at] descending. *)
Definition newest_first (t u : task) : Prop := created_at u <= created_at t.

(** [b] occurs before [a] in [l]. *)
Definition before (b a : task) (l : list task) : Prop :=
  ∃ l1 l2 l3, l = l1 ++ b :: l2 ++ a :: l3.

(** Every id of the table was handed out by the counter. *)
Definition well_formed (db : database) : Prop :=
  Forall (λ t, id t < next_id db) (tasks db).





(** The fields a PUT body supplies, in the order the routes read them. *)
Definition supplied (req_body : gmap string value) : list (column * value) :=
  omap (λ c, pair c <$> req_body !! column_name c) [Title; Description; Status].

(** The position of each supplied value in the parameter array. *)
Definition positions (l : list (column * value)) : list (column * nat) :=
  imap (λ i cv, (cv.1, i)) l.



(** What an UPDATE that assigns [cols] at time [now] may do to a row. *)
Definition kept (cols : list column) (now : Z) (t t' : task) : Prop :=
  id t' = id t
  ∧ created_at t' = created_at t
  ∧ (¬ In Title cols → title t' = title t)
  ∧ (¬ In Description cols → description t' = description t)
  ∧ (¬ In Status cols → status t' = status t)
  ∧ (t' = t ∨ updated_at t' = now).


(** What an UPDATE with the assignments [sets] and the parameters [values]
    may do to the status of a row: keep it, or store one of the cells
    assigned to [status]. *)
Definition status_kept (sets : list (column * nat)) (values : list value)
    (t t' : task) : Prop :=
  status t' = status t
  ∨ ∃ i v, In (Status, i) sets ∧ values !! i = Some v
           ∧ store_cell Status v = Some (status t').

(** The [id] segment of the path is an integer literal. *)
Definition integer_id (id : string) (n : nat) : Prop :=
  read_digits id 0 false = Some (n, EmptyString).

(** The requests that write to the table. *)
Inductive request : Type :=
  | Post (req_body : gmap string value)
  | Put (id : string) (req_body : gmap string value).

Definition route (d : dialect) (r : request) : handler :=
  match d, r with
  | Mysql, Post b => MySQL.post_task b
  | Mysql, Put i b => MySQL.put_task i b
  | Postgres, Post b => PostgreSQL.post_task b
  | Postgres, Put i b => PostgreSQL.put_task i b
  end.

(** Serving requests one after the other, each at its own time. *)
Fixpoint serve (d : dialect) (rs : list (request * Z)) (p : pool) : pool :=
  match rs with
  | [] => p
  | (r, now) :: rs' => serve d rs' (route d r now p).2
  end.

Definition statuses_enumerated (db : database) : Prop :=
  Forall (λ t, enumerated (status t)) (tasks db).

(** A PUT whose body carries [status: null]. *)
Definition nulls_status (r : request) : Prop :=
  match r with
  | Put _ b => b !! "status" = Some VNull
  | Post _ => False
  end.

(** Every request the task routes serve. *)
Inductive call : Type :=
  | ListTasks
  | GetTask (id : string)
  | PostTask (req_body : gmap string value)
  | PutTask (id : string) (req_body : gmap string value)
  | DeleteTask (id : string).

Definition answer (d : dialect) (c : call) : handler :=
  match d, c with
  | Mysql, ListTasks => MySQL.get_tasks
  | Mysql, GetTask i => MySQL.get_task i
  | Mysql, PostTask b => MySQL.post_task b
  | Mysql, PutTask i b => MySQL.put_task i b
  | Mysql, DeleteTask i => MySQL.delete_task i
  | Postgres, ListTasks => PostgreSQL.get_tasks
  | Postgres, GetTask i => PostgreSQL.get_task i
  | Postgres, PostTask b => PostgreSQL.post_task b
  | Postgres, PutTask i b => PostgreSQL.put_task i b
  | Postgres, DeleteTask i => PostgreSQL.delete_task i
  end.

(** Answering calls one after the other, each at its own time. *)
Fixpoint replay (d : dialect) (cs : list (call * Z)) (p : pool) : pool :=
  match cs with
  | [] => p
  | (c, now) :: cs' => replay d cs' (answer d c now p).2
  end.

(** No two rows share an id, and every id was handed out by the counter. *)
Definition sound_ids (db : database) : Prop :=
  NoDup (map id (tasks db)) ∧ well_formed db.



(** The table after the statements [sts], run one after the other at the
    time [now] of the request. *)
Definition run_all (d : dialect) (now : Z) (sts : list (statement * list value))
    (db : database) : database :=
  fold_left (λ db sv, (run d sv.1 sv.2 now db).2) sts db.

(** A computation on the pool that reaches the table only by statements
    the engine runs at the time of the request. *)
Definition through_engine {A : Type} (d : dialect) (m : Z → pool → A * pool)
  : Prop :=
  ∀ now p, ∃ sts, store (m now p).2 = run_all d now sts (store p).

(** Rows are stamped in order, and none after [now]. *)
Definition stamped_by (now : Z) (db : database) : Prop :=
  Forall (λ t, created_at t <= updated_at t ∧ updated_at t <= now) (tasks db).


(** The cell of a row under a column. *)
Definition cell (c : column) (t : task) : option string :=
  match c with
  | Title => Some (title t)
  | Description => description t
  | Status => status t
  end.

(** [n] fits the column [id], a signed 32-bit [INT] in the MySQL schema
    and a [SERIAL] in the PostgreSQL one. *)
Definition fits_integer (n : nat) : Prop := Z.of_nat n <= 2147483647.

(** No two rows were created at the same time. *)
Definition distinct_times (db : database) : Prop :=
  NoDup (map created_at (tasks db)).

(** [l] is an answer that [SELECT * FROM tasks ORDER BY created_at DESC]
    may give on [db]: every row, the later created first, rows created at
    the same time in any order. *)
Definition lists (db : database) (l : list task) : Prop :=
  Permutation (tasks db) l ∧ StronglySorted newest_first l.


(** The answer of a list route that lists [l]. *)
Definition listing (l : list task) : response :=
  mkResponse 200 [("success", JBool true);
                  ("data", JTasks l);
                  ("count", JNum (Z.of_nat (length l)))].

(** ** [frontend/pages/mysql.vue] and [frontend/pages/postgresql.vue]

    The two pages have the same script but for the router they call,
    which is the parameter [d] here, and for the text [createTask] reports
    when it fails. *)

Module Page.

(** [newTask.value]: the fields of the form that creates a task. *)
Record form : Type := mkForm {
  form_title : string;
  form_description : string;
  form_status : string
}.

(** The reactive state of the page.  [tasks] is [tasks.value], where an
    entry [None] is an [undefined] element of the array; [editForm] is
    [None] for [{}], and otherwise the copy [{ ...task }] with the edits of
    the form; [alerts] collects the texts passed to [alert()]. *)
Record state : Type := mkState {
  tasks : list (option task);
  loading : bool;
  error : option string;
  newTask : form;
  editingId : option Z;
  editForm : option task;
  creating : bool;
  alerts : list string
}.

(** [response.ok] *)
Definition ok (r : response) : bool :=
  (200 <=? statusCode r) && (statusCode r <=? 299).

(** [await fetch(...)] on a route of the API, answered at the server's
    time [now]; with [net = false] the request does not reach the server
    and the promise is rejected. *)
Definition fetch (net : bool) (d : dialect) (c : call) (now : Z) (p : pool)
  : option response * pool :=
  if net then let '(r, p') := answer d c now p in (Some r, p') else (None, p).

(** [JSON.stringify(newTask.value)] as the route reads it. *)
Definition json_of_form (f : form) : gmap string value :=
  <["title" := VStr (form_title f)]>
    (<["description" := VStr (form_description f)]>
       {[ "status" := VStr (form_status f) ]}).

Definition nullable (x : option string) : value :=
  match x with
  | Some s => VStr s
  | None => VNull
  end.

(** [JSON.stringify(editForm.value)] as the route reads it; the two
    timestamps are carried as the numbers of the model. *)
Definition json_of_edit (e : option task) : gmap string value :=
  match e with
  | None => ∅
  | Some t =>
      <["id" := VNum (id t)]>
        (<["title" := VStr (title t)]>
           (<["description" := nullable (description t)]>
              (<["status" := nullable (status t)]>
                 (<["created_at" := VNum (created_at t)]>
                    {[ "updated_at" := VNum (updated_at t) ]}))))
  end.

(** The characters [String.prototype.trim] removes, the WhiteSpace and
    the LineTerminator of ECMAScript, each as the bytes of its UTF-8
    encoding (a string of the model is the UTF-8 text of the JavaScript
    string): U+0009 to U+000D, U+0020, U+00A0, U+1680, U+2000 to U+200A,
    U+2028, U+2029, U+202F, U+205F, U+3000 and U+FEFF. *)
Definition white_space : list string :=
  map (λ bytes, string_of_list_ascii (map ascii_of_nat bytes))
      ([[9]; [10]; [11]; [12]; [13]; [32]; [194; 160]; [225; 154; 128]]
       ++ map (λ b, [226; 128; b]) (seq 128 11)
       ++ [[226; 128; 168]; [226; 128; 169]; [226; 128; 175];
           [226; 129; 159]; [227; 128; 128]; [239; 187; 191]])%nat.

(** [s] is made of white space only, read with at most [fuel]
    characters. *)
Fixpoint blank_within (fuel : nat) (s : string) : bool :=
  match s, fuel with
  | EmptyString, _ => true
  | _, O => false
  | _, S fuel' =>
      existsb (λ w, match strip_prefix w s with
                    | Some rest => blank_within fuel' rest
                    | None => false
                    end)
              white_space
  end.

(** [!s.trim()]: nothing is left of [s] once its white space is trimmed.
    No character takes less than one byte, so the length of [s] is fuel
    enough. *)
Definition blank (s : string) : bool := blank_within (String.length s) s.

(** [`${id}`] for the number [n]. *)
Definition path_of_id (n : Z) : string :=
  if n <? 0 then "-" +:+ string_of_nat (Z.to_nat (- n))
  else string_of_nat (Z.to_nat n).

(** [result.data] of an answer that carries one task. *)
Definition data_task (r : response) : option task :=
  match property "data" (body r) with
  | Some (JTask t) => Some t
  | _ => None
  end.

(** [result.data || []] of an answer that carries a list. *)
Definition data_tasks (r : response) : list (option task) :=
  match property "data" (body r) with
  | Some (JTasks rows) => map Some rows
  | _ => []
  end.

(** [tasks.value.findIndex(t => t.id === n)]: [None] when reading [t.id]
    of an [undefined] element throws, [Some None] for [-1]. *)
Fixpoint findIndex (n : Z) (l : list (option task)) : option (option nat) :=
  match l with
  | [] => Some None
  | None :: _ => None
  | Some t :: l' =>
      if id t =? n then Some (Some 0%nat)
      else match findIndex n l' with
           | Some (Some i) => Some (Some (S i))
           | r => r
           end
  end.

(** [tasks.value.filter(t => t.id !== n)]: [None] when reading [t.id] of
    an [undefined] element throws. *)
Fixpoint filter_out (n : Z) (l : list (option task)) : option (list (option task)) :=
  match l with
  | [] => Some []
  | None :: _ => None
  | Some t :: l' =>
      match filter_out n l' with
      | Some rest => Some (if id t =? n then rest else Some t :: rest)
      | None => None
      end
  end.

(** [`HTTP error! status: ${response.status}`] *)
Definition http_error (r : response) : string :=
  "HTTP error! status: " +:+ string_of_nat (Z.to_nat (statusCode r)).

(** The message of the error a rejected [fetch] throws. *)
Definition network_error : string := "Failed to fetch".

(** [s || d] on strings. *)
Definition or_text (s d : string) : string :=
  if String.eqb s EmptyString then d else s.

(** What [createTask] puts in [error.value] when it fails.  The MySQL
    page shows a fixed text.  The PostgreSQL page shows [err.message]:
    for an answer that is not ok, [errorData.error] (the routes put a
    string there) or else the status line. *)
Definition create_error (d : dialect) (response : option response) : string :=
  match d with
  | Mysql => "Failed to create task"
  | Postgres =>
      let message :=
        match response with
        | Some r =>
            match property "error" (body r) with
            | Some (JStr s) => or_text s (http_error r)
            | _ => http_error r
            end
        | None => network_error
        end in
      or_text message "Failed to create task"
  end.

(** [alert(text)] *)
Definition alert (text : string) (st : state) : state :=
  mkState (tasks st) (loading st) (error st) (newTask st) (editingId st)
          (editForm st) (creating st) (alerts st ++ [text]).

(** [loadTasks()] *)
Definition loadTasks (net : bool) (d : dialect) (now : Z) (w : state * pool)
  : state * pool :=
  let '(st, p) := w in
  let '(response, p') := fetch net d ListTasks now p in
  let caught :=
    mkState (tasks st) false
            (Some "Failed to load tasks. Make sure the API server is running.")
            (newTask st) (editingId st) (editForm st) (creating st) (alerts st) in
  match response with
  | Some r =>
      if negb (ok r) then (caught, p')
      else
        (mkState (data_tasks r) false None (newTask st) (editingId st)
                 (editForm st) (creating st) (alerts st), p')
  | None => (caught, p')
  end.

(** [createTask()] *)
Definition createTask (net : bool) (d : dialect) (now : Z) (w : state * pool)
  : state * pool :=
  let '(st, p) := w in
  if blank (form_title (newTask st)) then
    (alert "Please enter a task title" st, p)
  else
    let '(response, p') :=
      fetch net d (PostTask (json_of_form (newTask st))) now p in
    let caught :=
      mkState (tasks st) (loading st) (Some (create_error d response))
              (newTask st) (editingId st) (editForm st) false (alerts st) in
    match response with
    | Some r =>
        if negb (ok r) then (caught, p')
        else
          (alert "Task created successfully!"
             (mkState (data_task r :: tasks st) (loading st) None
                      (mkForm EmptyString EmptyString "pending")
                      (editingId st) (editForm st) false (alerts st)), p')
    | None => (caught, p')
    end.

(** [startEdit(task)] *)
Definition startEdit (t : task) (st : state) : state :=
  mkState (tasks st) (loading st) (error st) (newTask st) (Some (id t)) (Some t)
          (creating st) (alerts st).

(** [cancelEdit()] *)
Definition cancelEdit (st : state) : state :=
  mkState (tasks st) (loading st) (error st) (newTask st) None None
          (creating st) (alerts st).

(** [updateTask(id)] *)
Definition updateTask (net : bool) (d : dialect) (n : Z) (now : Z)
    (w : state * pool) : state * pool :=
  let '(st, p) := w in
  let '(response, p') :=
    fetch net d (PutTask (path_of_id n) (json_of_edit (editForm st))) now p in
  let caught :=
    mkState (tasks st) (loading st) (Some "Failed to update task")
            (newTask st) (editingId st) (editForm st) (creating st) (alerts st) in
  match response with
  | Some r =>
      if negb (ok r) then (caught, p')
      else
        match findIndex n (tasks st) with
        | Some index =>
            let tasks' :=
              match index with
              | Some i => <[i := data_task r]> (tasks st)
              | None => tasks st
              end in
            (alert "Task updated successfully!"
               (cancelEdit
                  (mkState tasks' (loading st) (error st) (newTask st)
                           (editingId st) (editForm st) (creating st)
                           (alerts st))), p')
        | None => (caught, p')
        end
  | None => (caught, p')
  end.

(** [deleteTask(id)]; [confirmed] is the answer to [confirm()]. *)
Definition deleteTask (confirmed net : bool) (d : dialect) (n : Z) (now : Z)
    (w : state * pool) : state * pool :=
  let '(st, p) := w in
  if negb confirmed then w
  else
    let '(response, p') := fetch net d (DeleteTask (path_of_id n)) now p in
    let caught :=
      mkState (tasks st) (loading st) (Some "Failed to delete task")
              (newTask st) (editingId st) (editForm st) (creating st) (alerts st) in
    match response with
    | Some r =>
        if negb (ok r) then (caught, p')
        else
          match filter_out n (tasks st) with
          | Some kept =>
              (alert "Task deleted successfully!"
                 (mkState kept (loading st) (error st) (newTask st)
                          (editingId st) (editForm st) (creating st)
                          (alerts st)), p')
          | None => (caught, p')
          end
    | None => (caught, p')
    end.

End Page.

(** What the user does on a page. *)
Inductive action : Type :=
  | Load
  | Fill (f : Page.form)
  | Create
  | StartEdit (t : task)
  | Change (title : string) (description status : option string)
  | CancelEdit
  | Save (n : Z)
  | Remove (n : Z) (confirmed : bool).

(** One action, with whether its request reaches the server and the
    server's time when it does. *)
Definition perform (d : dialect) (a : action) (net : bool) (now : Z)
    (w : Page.state * pool) : Page.state * pool :=
  match a with
  | Load => Page.loadTasks net d now w
  | Fill f =>
      (Page.mkState (Page.tasks w.1) (Page.loading w.1) (Page.error w.1) f
                    (Page.editingId w.1) (Page.editForm w.1) (Page.creating w.1)
                    (Page.alerts w.1), w.2)
  | Create => Page.createTask net d now w
  | StartEdit t => (Page.startEdit t w.1, w.2)
  | Change x y z =>
      (Page.mkState (Page.tasks w.1) (Page.loading w.1) (Page.error w.1)
                    (Page.newTask w.1) (Page.editingId w.1)
                    ((λ t, mkTask (id t) x y z (created_at t) (updated_at t))
                       <$> Page.editForm w.1)
                    (Page.creating w.1) (Page.alerts w.1), w.2)
  | CancelEdit => (Page.cancelEdit w.1, w.2)
  | Save n => Page.updateTask net d n now w
  | Remove n confirmed => Page.deleteTask confirmed net d n now w
  end.

(** A session: the actions of one user, one after the other. *)
Fixpoint session (d : dialect) (l : list (action * bool * Z))
    (w : Page.state * pool) : Page.state * pool :=
  match l with
  | [] => w
  | (a, net, now) :: l' => session d l' (perform d a net now w)
  end.

(** The page shows what the list route would answer with. *)
Definition shows (st : Page.state) (p : pool) : Prop :=
  Page.tasks st = map Some (order_by_created_at_desc (tasks (store p))).

(** The server's clock moves on between two requests, starting after
    [now]; and the ids the actions name are ids the integer column can
    hold. *)
Fixpoint paced (now : Z) (l : list (action * bool * Z)) : Prop :=
  match l with
  | [] => True
  | (a, _, n) :: l' =>
      now < n
      ∧ match a with
        | Save k | Remove k _ => 0 <= k <= 2147483647
        | _ => True
        end
      ∧ paced n l'
  end.

(** ** Sample data *)

Definition buy_milk : task := mkTask 1 "Buy milk" None (Some "pending") 100 100.
Definition walk_dog : task :=
  mkTask 2 "Walk dog" (Some "park") (Some "in_progress") 200 200.
Definition sample_db : database := mkDatabase [buy_milk; walk_dog] 3 true.
Definition sample_pool : pool := mkPool sample_db [].
Definition offline_pool : pool := mkPool (mkDatabase [buy_milk; walk_dog] 3 false) [].

Definition bogus_status : gmap string value :=
  <["title" := VStr "Task"]> {[ "status" := VStr "invalid_status" ]}.

Definition empty_status : gmap string value :=
  <["title" := VStr "Task"]> {[ "status" := VStr EmptyString ]}.

Definition task_3 : task := mkTask 3 "Task" None (Some "pending") 300 300.

Definition null_status : gmap string value := {[ "status" := VNull ]}.

Definition complete_it : gmap string value := {[ "status" := VStr "completed" ]}.

Definition same_title : gmap string value := {[ "title" := VStr "Buy milk" ]}.

(** A page that shows the sample table, its form holding a blank title. *)
Definition sample_page : Page.state :=
  Page.mkState [Some walk_dog; Some buy_milk] false None
               (Page.mkForm " " EmptyString "pending") None None false [].

Definition empty_title : gmap string value := {[ "title" := VStr EmptyString ]}.

(** Two tasks created one after the other at the same time. *)
Definition title_a : gmap string value := {[ "title" := VStr "A" ]}.
Definition title_b : gmap string value := {[ "title" := VStr "B" ]}.
Definition task_a : task := mkTask 3 "A" None (Some "pending") 300 300.
Definition task_b : task := mkTask 4 "B" None (Some "pending") 300 300.

(** ** Requests that are refused before the pool is used *)

(** C5: a PUT whose body has none of [title], [description], [status] is
    answered 400 "No fields to update" by both handlers, and the pool is
    left as it was: no query is issued and the table is unchanged. *)
Theorem put_without_fields (id : string) (req_body : gmap string value)
    (now : Z) (p : pool) :
  req_body !! "title" = None →
  req_body !! "description" = None →
  req_body !! "status" = None →
  MySQL.put_task id req_body now p
    = (mkResponse 400 [("success", JBool false);
                       ("error", JStr "No fields to update")], p)
  ∧ PostgreSQL.put_task id req_body now p
    = (mkResponse 400 [("success", JBool false);
                       ("error", JStr "No fields to update")], p).
Proof.
  intros Ht Hd Hs.
  unfold MySQL.put_task, PostgreSQL.put_task, try_catch.
  rewrite Ht, Hd, Hs. split; reflexivity.
Qed.

Lemma put_without_fields_witness :
  (∅ : gmap string value) !! "title" = None
  ∧ (∅ : gmap string value) !! "description" = None
  ∧ (∅ : gmap string value) !! "status" = None
  ∧ MySQL.put_task "1" ∅ 300 sample_pool
    = (mkResponse 400 [("success", JBool false);
                       ("error", JStr "No fields to update")], sample_pool)
  ∧ PostgreSQL.put_task "1" ∅ 300 sample_pool
    = (mkResponse 400 [("success", JBool false);
                       ("error", JStr "No fields to update")], sample_pool).
Proof.
  split; [reflexivity|]. split; [reflexivity|]. split; [reflexivity|].
  apply (put_without_fields "1" ∅ 300 sample_pool); reflexivity.
Defined.

(** C10: a POST whose [title] is falsy (the empty string, [null], [0],
    [false]) is answered 400 "Title is required" by both handlers,
    exactly as a POST without [title], and the pool is left as it was. *)
Theorem post_falsy_title (req_body absent : gmap string value)
    (now : Z) (p : pool) :
  truthy (req_body !! "title") = false →
  absent !! "title" = None →
  MySQL.post_task req_body now p
    = (mkResponse 400 [("success", JBool false);
                       ("error", JStr "Title is required")], p)
  ∧ PostgreSQL.post_task req_body now p
    = (mkResponse 400 [("success", JBool false);
                       ("error", JStr "Title is required")], p)
  ∧ MySQL.post_task req_body now p = MySQL.post_task absent now p
  ∧ PostgreSQL.post_task req_body now p = PostgreSQL.post_task absent now p.
Proof.
  intros Hf Ha.
  unfold MySQL.post_task, PostgreSQL.post_task, try_catch.
  rewrite Hf, Ha. repeat split; reflexivity.
Qed.

Lemma post_falsy_title_witness :
  truthy (({[ "title" := VStr EmptyString ]} : gmap string value) !! "title")
  = false
  ∧ (∅ : gmap string value) !! "title" = None
  ∧ MySQL.post_task {[ "title" := VStr EmptyString ]} 300 sample_pool
    = (mkResponse 400 [("success", JBool false);
                       ("error", JStr "Title is required")], sample_pool)
  ∧ PostgreSQL.post_task {[ "title" := VStr EmptyString ]} 300 sample_pool
    = (mkResponse 400 [("success", JBool false);
                       ("error", JStr "Title is required")], sample_pool)
  ∧ MySQL.post_task {[ "title" := VStr EmptyString ]} 300 sample_pool
    = MySQL.post_task ∅ 300 sample_pool
  ∧ PostgreSQL.post_task {[ "title" := VStr EmptyString ]} 300 sample_pool
    = PostgreSQL.post_task ∅ 300 sample_pool.
Proof.
  split; [reflexivity|]. split; [reflexivity|].
  apply (post_falsy_title {[ "title" := VStr EmptyString ]} ∅ 300 sample_pool);
    reflexivity.
Defined.

(** ** The health check *)

Lemma required_probes (NODE_ENV : option string) (mysqlDb postgresDb : pool) :
  forallb (probe mysqlDb postgresDb) (required NODE_ENV)
  = if bool_decide (NODE_ENV = Some "production")
    then PostgreSQL.testConnection postgresDb
    else MySQL.testConnection mysqlDb && PostgreSQL.testConnection postgresDb.
Proof.
  unfold required. case_bool_decide; simpl.
  - apply andb_true_r.
  - now rewrite andb_true_r.
Qed.

(** C9: [GET /health] answers 200 exactly when every probe the operating
    mode requires succeeds (PostgreSQL alone when [NODE_ENV] is
    [production], MySQL and PostgreSQL otherwise) and 503 otherwise; the
    body reports each backend on its own as connected or disconnected. *)
Theorem health_verdict (NODE_ENV : option string) (timestamp : string)
    (mysqlDb postgresDb : pool) :
  let r := Index.get_health NODE_ENV timestamp mysqlDb postgresDb in
  (statusCode r = 200 ↔
     ∀ b, In b (required NODE_ENV) → probe mysqlDb postgresDb b = true)
  ∧ (statusCode r ≠ 200 → statusCode r = 503)
  ∧ property "databases" (body r)
    = Some (JObject
              [("mysql",
                JStr (if probe mysqlDb postgresDb MySQLBackend
                      then "connected" else "disconnected"));
               ("postgresql",
                JStr (if probe mysqlDb postgresDb PostgreSQLBackend
                      then "connected" else "disconnected"))]).
Proof.
  intros r. subst r. unfold Index.get_health.
  pose proof (required_probes NODE_ENV mysqlDb postgresDb) as Hreq.
  set (healthy := if bool_decide (NODE_ENV = Some "production")
                  then PostgreSQL.testConnection postgresDb
                  else MySQL.testConnection mysqlDb
                       && PostgreSQL.testConnection postgresDb) in *.
  split; [|split].
  - rewrite <- List.forallb_forall, Hreq.
    destruct healthy; simpl; split; intros H; done.
  - destruct healthy; simpl; intros H; [done | reflexivity].
  - reflexivity.
Qed.

(** ** Reading a task by its id *)

Lemma mysql_parse_select_by_id :
  MySQL.parse "SELECT * FROM tasks WHERE id = ?" = Some (SelectById 0).
Proof. reflexivity. Qed.

Lemma postgres_parse_select_by_id :
  PostgreSQL.parse "SELECT * FROM tasks WHERE id = $1" = Some (SelectById 0).
Proof. reflexivity. Qed.

(** Whatever the [id] segment of the path, the MySQL route passes it to
    [pool.query] and answers 200, 404 or 500. *)
Lemma mysql_get_task_queries (id : string) (now : Z) (p : pool) :
  In (statusCode (MySQL.get_task id now p).1) [200; 404; 500]
  ∧ issued (MySQL.get_task id now p).2
    = issued p ++ [("SELECT * FROM tasks WHERE id = ?", [VStr id])].
Proof.
  unfold MySQL.get_task, try_catch, mbind, async_bind, MySQL.query.
  rewrite mysql_parse_select_by_id. unfold run.
  change ([VStr id] !! 0%nat ≫= id_of_param Mysql) with (id_of_param Mysql (VStr id)).
  destruct (online (store p)), (id_of_param Mysql (VStr id)) as [k|];
    simpl; auto.
  destruct (bool_decide _); simpl; auto.
Qed.

Lemma postgres_get_task_queries (id : string) (now : Z) (p : pool) :
  In (statusCode (PostgreSQL.get_task id now p).1) [200; 404; 500]
  ∧ issued (PostgreSQL.get_task id now p).2
    = issued p ++ [("SELECT * FROM tasks WHERE id = $1", [VStr id])].
Proof.
  unfold PostgreSQL.get_task, try_catch, mbind, async_bind, PostgreSQL.query.
  rewrite postgres_parse_select_by_id. unfold run.
  change ([VStr id] !! 0%nat ≫= id_of_param Postgres)
    with (id_of_param Postgres (VStr id)).
  destruct (online (store p)), (id_of_param Postgres (VStr id)) as [k|];
    simpl; auto.
  destruct (length _ =? 0)%nat; simpl; auto.
Qed.

(** C2 (not met by the routes): neither route checks that [id] is an
    integer.  For every [id] the handler calls [pool.query] with it and
    never answers 400; [GET /tasks/invalid] is answered 404 by the MySQL
    route and 500 by the PostgreSQL route, after one query each. *)
Theorem get_task_skips_id_validation (id : string) (now : Z) (p : pool) :
  (statusCode (MySQL.get_task id now p).1 ≠ 400
   ∧ issued (MySQL.get_task id now p).2
     = issued p ++ [("SELECT * FROM tasks WHERE id = ?", [VStr id])])
  ∧ (statusCode (PostgreSQL.get_task id now p).1 ≠ 400
     ∧ issued (PostgreSQL.get_task id now p).2
       = issued p ++ [("SELECT * FROM tasks WHERE id = $1", [VStr id])])
  ∧ MySQL.get_task "invalid" 300 sample_pool
    = (MySQL.not_found,
       mkPool sample_db [("SELECT * FROM tasks WHERE id = ?", [VStr "invalid"])])
  ∧ PostgreSQL.get_task "invalid" 300 sample_pool
    = (PostgreSQL.failed "Failed to fetch task" statement_error,
       mkPool sample_db [("SELECT * FROM tasks WHERE id = $1", [VStr "invalid"])]).
Proof.
  destruct (mysql_get_task_queries id now p) as [Hm Hmq].
  destruct (postgres_get_task_queries id now p) as [Hp Hpq].
  repeat split; try assumption; try reflexivity.
  - intros E. rewrite E in Hm. simpl in Hm. intuition discriminate.
  - intros E. rewrite E in Hp. simpl in Hp. intuition discriminate.
Qed.

(** ** Deleting a task *)

(** C3 (not met by the routes): the two routes answer a successful
    [DELETE /tasks/:id] with bodies of different shapes.  On the same
    table and the same request both answer 200; the MySQL body has the
    properties [success] and [message], the PostgreSQL body has a third
    one, [deletedTask]. *)
Theorem delete_bodies_differ :
  statusCode (MySQL.delete_task "1" 300 sample_pool).1 = 200
  ∧ statusCode (PostgreSQL.delete_task "1" 300 sample_pool).1 = 200
  ∧ store (MySQL.delete_task "1" 300 sample_pool).2
    = store (PostgreSQL.delete_task "1" 300 sample_pool).2
  ∧ fields (MySQL.delete_task "1" 300 sample_pool).1 = ["success"; "message"]
  ∧ fields (PostgreSQL.delete_task "1" 300 sample_pool).1
    = ["success"; "message"; "deletedTask"]
  ∧ property "deletedTask" (body (PostgreSQL.delete_task "1" 300 sample_pool).1)
    = Some (JTask buy_milk)
  ∧ fields (MySQL.delete_task "1" 300 sample_pool).1
    ≠ fields (PostgreSQL.delete_task "1" 300 sample_pool).1.
Proof.
  repeat split; try reflexivity.
  intros E. discriminate E.
Qed.

(** ** Status validation *)

(** [validStatuses.includes(status)] holds exactly for the three strings. *)
Lemma includes_enumeration (x : option value) :
  includes task_status x = true ↔ ∃ s, In s task_status ∧ x = Some (VStr s).
Proof.
  unfold includes. split.
  - destruct x as [[| | |s|]|]; try discriminate.
    intros H. apply existsb_exists in H as (s' & Hin & Heq).
    apply String.eqb_eq in Heq. subst s'. eauto.
  - intros (s & Hin & ->). apply existsb_exists. exists s.
    split; [assumption | apply String.eqb_refl].
Qed.

(** C6, as the routes implement it: a POST whose [status] is truthy and
    is not one of the three strings is answered 400 by both handlers, and
    the pool is left as it was (no INSERT is issued, the table keeps its
    rows); the error names the allowed values when the title is truthy,
    otherwise the body is the one of a missing title. *)
Theorem post_invalid_status (req_body : gmap string value) (now : Z) (p : pool) :
  truthy (req_body !! "status") = true →
  includes task_status (req_body !! "status") = false →
  (statusCode (MySQL.post_task req_body now p).1 = 400
   ∧ (MySQL.post_task req_body now p).2 = p
   ∧ (truthy (req_body !! "title") = true →
      body (MySQL.post_task req_body now p).1
      = [("success", JBool false);
         ("error",
          JStr "Invalid status. Must be one of: pending, in_progress, completed")]))
  ∧ (statusCode (PostgreSQL.post_task req_body now p).1 = 400
     ∧ (PostgreSQL.post_task req_body now p).2 = p
     ∧ (truthy (req_body !! "title") = true →
        body (PostgreSQL.post_task req_body now p).1
        = [("success", JBool false);
           ("error",
            JStr "Invalid status. Must be one of: pending, in_progress, completed")])).
Proof.
  intros Ht Hi.
  unfold MySQL.post_task, PostgreSQL.post_task, try_catch.
  change MySQL.validStatuses with task_status.
  change PostgreSQL.validStatuses with task_status.
  rewrite Ht, Hi.
  destruct (truthy (req_body !! "title")); simpl; repeat split; intros; done.
Qed.

Lemma post_invalid_status_witness :
  truthy (bogus_status !! "status") = true
  ∧ includes task_status (bogus_status !! "status") = false
  ∧ statusCode (MySQL.post_task bogus_status 300 sample_pool).1 = 400
  ∧ statusCode (PostgreSQL.post_task bogus_status 300 sample_pool).1 = 400.
Proof.
  split; [reflexivity|]. split; [reflexivity|].
  pose proof (post_invalid_status bogus_status 300 sample_pool
                eq_refl eq_refl) as [[Hm _] [Hp _]].
  split; assumption.
Defined.

(** C6 as stated fails: the empty string is a status value outside the
    enumeration, yet a POST carrying it is answered 201 and a row is
    inserted by both routes; and a POST with an invalid status and no
    title is refused with the message of the title. *)
Lemma post_empty_status_inserts :
  empty_status !! "status" = Some (VStr EmptyString)
  ∧ ¬ In EmptyString task_status
  ∧ statusCode (MySQL.post_task empty_status 300 sample_pool).1 = 201
  ∧ statusCode (PostgreSQL.post_task empty_status 300 sample_pool).1 = 201
  ∧ tasks (store (MySQL.post_task empty_status 300 sample_pool).2)
    = [buy_milk; walk_dog; task_3]
  ∧ tasks (store (PostgreSQL.post_task empty_status 300 sample_pool).2)
    = [buy_milk; walk_dog; task_3]
  ∧ ¬ (statusCode (PostgreSQL.post_task empty_status 300 sample_pool).1 = 400
       ∧ length (tasks (store (PostgreSQL.post_task empty_status 300 sample_pool).2))
         = length (tasks (store sample_pool)))
  ∧ property "error"
      (body (PostgreSQL.post_task {[ "status" := VStr "invalid_status" ]}
               300 sample_pool).1)
    = Some (JStr "Title is required").
Proof.
  repeat split; try reflexivity.
  - simpl. intuition discriminate.
  - intros [H _]. discriminate H.
Qed.

(** ** Status values that reach the table *)

(** C1 (not met by the routes): [null] is falsy, so the PUT routes skip
    the validation of [status], and it is not [undefined], so they put
    [status] in the SET list.  [PUT /tasks/1] with [{"status": null}] is
    answered 200 by both routes, after an UPDATE that leaves task 1 with
    no status at all. *)
Theorem put_null_status_is_written :
  statusCode (MySQL.put_task "1" null_status 300 sample_pool).1 = 200
  ∧ issued (MySQL.put_task "1" null_status 300 sample_pool).2
    = [("UPDATE tasks SET status = ? WHERE id = ?", [VNull; VStr "1"]);
       ("SELECT * FROM tasks WHERE id = ?", [VStr "1"])]
  ∧ tasks (store (MySQL.put_task "1" null_status 300 sample_pool).2)
    = [mkTask 1 "Buy milk" None None 100 300; walk_dog]
  ∧ statusCode (PostgreSQL.put_task "1" null_status 300 sample_pool).1 = 200
  ∧ issued (PostgreSQL.put_task "1" null_status 300 sample_pool).2
    = [(PostgreSQL.update_text "status = $1" "2", [VNull; VStr "1"])]
  ∧ tasks (store (PostgreSQL.put_task "1" null_status 300 sample_pool).2)
    = [mkTask 1 "Buy milk" None None 100 300; walk_dog]
  ∧ ¬ enumerated (status (mkTask 1 "Buy milk" None None 100 300))
  ∧ statuses_enumerated (store sample_pool)
  ∧ ¬ statuses_enumerated
        (store (serve Mysql [(Put "1" null_status, 300)] sample_pool))
  ∧ ¬ statuses_enumerated
        (store (serve Postgres [(Put "1" null_status, 300)] sample_pool)).
Proof.
  assert (N : ¬ enumerated None) by (unfold enumerated; intuition discriminate).
  repeat split; try reflexivity; try exact N.
  - unfold statuses_enumerated. simpl.
    constructor; [left; reflexivity|].
    constructor; [right; left; reflexivity|]. constructor.
  - intros H. apply Forall_cons in H as [H _]. exact (N H).
  - intros H. apply Forall_cons in H as [H _]. exact (N H).
Qed.

(** ** Listing the tasks *)

Lemma insert_desc_permutation (t : task) (l : list task) :
  Permutation (t :: l) (insert_desc t l).
Proof.
  induction l as [|u l IH]; simpl.
  - apply Permutation_refl.
  - destruct (created_at u <=? created_at t).
    + apply Permutation_refl.
    + eapply Permutation_trans; [apply perm_swap|].
      apply perm_skip, IH.
Qed.

Lemma order_by_permutation (l : list task) :
  Permutation l (order_by_created_at_desc l).
Proof.
  induction l as [|t l IH]; simpl.
  - apply Permutation_refl.
  - eapply Permutation_trans; [apply perm_skip, IH|].
    apply insert_desc_permutation.
Qed.

Lemma insert_desc_sorted (t : task) (l : list task) :
  StronglySorted newest_first l → StronglySorted newest_first (insert_desc t l).
Proof.
  induction 1 as [|u l Hs IH Hall]; simpl.
  - repeat constructor.
  - destruct (created_at u <=? created_at t) eqn:E.
    + apply Z.leb_le in E. constructor; [constructor; assumption|].
      constructor; [exact E|].
      eapply List.Forall_impl; [|exact Hall].
      unfold newest_first. intros w Hw. lia.
    + apply Z.leb_gt in E. constructor; [exact IH|].
      eapply Permutation_Forall; [apply insert_desc_permutation|].
      constructor; [|exact Hall]. unfold newest_first. lia.
Qed.

Lemma order_by_sorted (l : list task) :
  StronglySorted newest_first (order_by_created_at_desc l).
Proof.
  induction l as [|t l IH]; simpl.
  - constructor.
  - apply insert_desc_sorted, IH.
Qed.

Lemma sorted_before (l : list task) (a b : task) :
  StronglySorted newest_first l →
  In a l → In b l → created_at a < created_at b → before b a l.
Proof.
  induction 1 as [|x l Hs IH Hall]; intros Ha Hb Hlt; [destruct Ha|].
  rewrite List.Forall_forall in Hall. unfold newest_first in Hall.
  destruct Ha as [->|Ha].
  - destruct Hb as [->|Hb]; [lia|]. specialize (Hall _ Hb). lia.
  - destruct Hb as [->|Hb].
    + apply in_split in Ha as (l2 & l3 & ->). now exists [], l2, l3.
    + destruct (IH Ha Hb Hlt) as (l1 & l2 & l3 & ->). now exists (x :: l1), l2, l3.
Qed.

Lemma mysql_parse_select_all :
  MySQL.parse "SELECT * FROM tasks ORDER BY created_at DESC" = Some SelectAll.
Proof. reflexivity. Qed.

Lemma postgres_parse_select_all :
  PostgreSQL.parse "SELECT * FROM tasks ORDER BY created_at DESC" = Some SelectAll.
Proof. reflexivity. Qed.

(** C8, as the routes implement it: while the database can be reached,
    both list routes answer 200 with every task of the table, ordered by
    [created_at] descending, and their number; the list is empty when the
    table is, and a task whose [created_at] is later than another one's
    comes before it.  The table is not changed. *)
Theorem list_newest_first (now : Z) (p : pool) :
  online (store p) = true →
  let listed := order_by_created_at_desc (tasks (store p)) in
  let answer :=
    mkResponse 200 [("success", JBool true);
                    ("data", JTasks listed);
                    ("count", JNum (Z.of_nat (length listed)))] in
  (MySQL.get_tasks now p).1 = answer
  ∧ (PostgreSQL.get_tasks now p).1 = answer
  ∧ store (MySQL.get_tasks now p).2 = store p
  ∧ store (PostgreSQL.get_tasks now p).2 = store p
  ∧ Permutation (tasks (store p)) listed
  ∧ StronglySorted newest_first listed
  ∧ (tasks (store p) = [] → listed = [])
  ∧ (∀ a b, In a (tasks (store p)) → In b (tasks (store p)) →
            created_at a < created_at b → before b a listed).
Proof.
  intros Hon listed answer.
  unfold MySQL.get_tasks, PostgreSQL.get_tasks, try_catch, mbind, async_bind,
    MySQL.query, PostgreSQL.query.
  rewrite mysql_parse_select_all, postgres_parse_select_all.
  unfold run. rewrite Hon. simpl.
  repeat split.
  - apply order_by_permutation.
  - apply order_by_sorted.
  - subst listed. now intros ->.
  - intros a b Ha Hb Hlt. apply sorted_before; [apply order_by_sorted| | |exact Hlt].
    + eapply Permutation_in; [apply order_by_permutation|exact Ha].
    + eapply Permutation_in; [apply order_by_permutation|exact Hb].
Qed.

Lemma list_newest_first_witness :
  online (store sample_pool) = true
  ∧ (MySQL.get_tasks 300 sample_pool).1
    = mkResponse 200 [("success", JBool true);
                      ("data", JTasks [walk_dog; buy_milk]);
                      ("count", JNum 2)]
  ∧ before walk_dog buy_milk
      (order_by_created_at_desc (tasks (store sample_pool))).
Proof.
  split; [reflexivity|].
  pose proof (list_newest_first 300 sample_pool eq_refl) as H.
  destruct H as (Hm & _ & _ & _ & _ & _ & _ & Hb).
  split; [exact Hm|].
  apply Hb; simpl; [left; reflexivity | right; left; reflexivity | reflexivity].
Defined.

(** C8 as stated fails on two tasks created within one tick of the clock:
    the one created after the other does not come before it.  [task_a] is
    created by a first POST and [task_b] by a second one, both at time
    300; they carry the same [created_at], the order by [created_at]
    descending allows either of them first, and both list routes answer
    with [task_a], the one created first, before [task_b]. *)
Theorem list_same_tick_order :
  (MySQL.post_task title_a 300 sample_pool).1
  = mkResponse 201 [("success", JBool true);
                    ("data", JTask task_a);
                    ("message", JStr "Task created successfully")]
  ∧ (MySQL.post_task title_b 300 (MySQL.post_task title_a 300 sample_pool).2).1
    = mkResponse 201 [("success", JBool true);
                      ("data", JTask task_b);
                      ("message", JStr "Task created successfully")]
  ∧ tasks (store (MySQL.post_task title_b 300
                    (MySQL.post_task title_a 300 sample_pool).2).2)
    = [buy_milk; walk_dog; task_a; task_b]
  ∧ (MySQL.get_tasks 400
       (MySQL.post_task title_b 300
          (MySQL.post_task title_a 300 sample_pool).2).2).1
    = mkResponse 200 [("success", JBool true);
                      ("data", JTasks [task_a; task_b; walk_dog; buy_milk]);
                      ("count", JNum 4)]
  ∧ (PostgreSQL.get_tasks 400
       (PostgreSQL.post_task title_b 300
          (PostgreSQL.post_task title_a 300 sample_pool).2).2).1
    = mkResponse 200 [("success", JBool true);
                      ("data", JTasks [task_a; task_b; walk_dog; buy_milk]);
                      ("count", JNum 4)]
  ∧ ¬ before task_b task_a [task_a; task_b; walk_dog; buy_milk]
  ∧ created_at task_a = created_at task_b
  ∧ StronglySorted newest_first [task_a; task_b; walk_dog; buy_milk]
  ∧ StronglySorted newest_first [task_b; task_a; walk_dog; buy_milk].
Proof.
  split; [reflexivity|]. split; [reflexivity|]. split; [reflexivity|].
  split; [reflexivity|]. split; [reflexivity|]. split.
  { intros (l1 & l2 & l3 & E).
    assert (Hin : In task_a (l2 ++ task_a :: l3))
      by (apply in_or_app; right; left; reflexivity).
    destruct l1 as [|x l1]; simpl in E.
    - assert (E1 : id task_a = id task_b) by congruence. discriminate E1.
    - assert (E2 : [task_b; walk_dog; buy_milk]
                   = l1 ++ task_b :: l2 ++ task_a :: l3) by congruence.
      assert (H : In (id task_a) (map id [task_b; walk_dog; buy_milk])).
      { rewrite E2. apply in_map, in_or_app. right. right. exact Hin. }
      destruct H as [H | [H | [H | []]]]; discriminate H. }
  split; [reflexivity|].
  split; repeat constructor; unfold newest_first; simpl; lia.
Qed.

(** ** Creating a task *)

Lemma mysql_parse_insert :
  MySQL.parse "INSERT INTO tasks (title, description, status) VALUES (?, ?, ?)"
  = Some (Insert 0 1 2 false).
Proof. reflexivity. Qed.

Lemma postgres_parse_insert :
  PostgreSQL.parse PostgreSQL.insert_text = Some (Insert 0 1 2 true).
Proof. reflexivity. Qed.




Lemma fresh_id_unused (db : database) :
  well_formed db →
  filter (λ t, has_id (Some (next_id db)) t) (tasks db) = [].
Proof.
  unfold well_formed. induction 1 as [|t l Ht _ IH]; [reflexivity|].
  rewrite filter_cons. simpl in *.
  destruct (decide _) as [Heq|_]; [|exact IH].
  apply Is_true_true in Heq. apply Z.eqb_eq in Heq. lia.
Qed.


Lemma run_select_by_number (d : dialect) (n : Z) (now : Z) (db : database) :
  online db = true →
  run d (SelectById 0) [VNum n] now db
  = (Fulfilled (mkEffect (filter (λ t, has_id (Some n) t) (tasks db)) 0 0), db).
Proof. intros Hon. unfold run. now rewrite Hon. Qed.



(** ** Updating a task *)

Lemma kept_refl (cols : list column) (now : Z) (t : task) : kept cols now t t.
Proof. unfold kept. intuition. Qed.

Lemma apply_sets_keeps (cells : list (column * option string)) (t : task) :
  let u := apply_sets cells t in
  id u = id t ∧ created_at u = created_at t ∧ updated_at u = updated_at t
  ∧ (¬ In Title (map fst cells) → title u = title t)
  ∧ (¬ In Description (map fst cells) → description u = description t)
  ∧ (¬ In Status (map fst cells) → status u = status t).
Proof.
  unfold apply_sets. revert t.
  induction cells as [|[c x] cells IH]; intros t; simpl.
  - intuition.
  - destruct (IH (write_cell c x t)) as (Hi & Hc & Hu & Ht & Hd & Hs).
    repeat split.
    + rewrite Hi. now destruct c.
    + rewrite Hc. now destruct c.
    + rewrite Hu. now destruct c.
    + intros H. rewrite Ht by (intros ?; apply H; now right).
      destruct c; try reflexivity. exfalso. apply H. now left.
    + intros H. rewrite Hd by (intros ?; apply H; now right).
      destruct c; try reflexivity. exfalso. apply H. now left.
    + intros H. rewrite Hs by (intros ?; apply H; now right).
      destruct c; try reflexivity. exfalso. apply H. now left.
Qed.


Lemma update_row_kept (d : dialect) (cells : list (column * option string))
    (now : Z) (t : task) :
  kept (map fst cells) now t (update_row d cells now t).
Proof.
  destruct (apply_sets_keeps cells t) as (Hi & Hc & Hu & Ht & Hd & Hs).
  assert (K : kept (map fst cells) now t (touch now (apply_sets cells t))).
  { unfold kept, touch. simpl. intuition. }
  unfold update_row. destruct d; [|exact K].
  destruct (same_cells _ _); [apply kept_refl | exact K].
Qed.


Lemma run_select_store (d : dialect) (pid : nat) (values : list value)
    (now : Z) (db : database) :
  (run d (SelectById pid) values now db).2 = db.
Proof.
  unfold run. destruct (online db); simpl; [|reflexivity].
  destruct (values !! pid ≫= id_of_param d); reflexivity.
Qed.



(** Case analysis on the fields of a PUT body, up to the UPDATE. *)
Ltac put_cases req_body :=
  cbv zeta;
  destruct (truthy (req_body !! "status") && negb _);
  [|destruct (req_body !! "title") eqn:?,
             (req_body !! "description") eqn:?,
             (req_body !! "status") eqn:?];
  simpl.













(** ** The statuses of the table, request after request *)

Lemma store_status_enumerated (v : value) (x : option string) :
  store_cell Status v = Some x → v ≠ VNull → enumerated x.
Proof.
  destruct v as [| | |s|]; unfold store_cell; try discriminate; [congruence|].
  destruct (existsb (String.eqb s) task_status) eqn:E; [|discriminate].
  intros [= <-] _. apply existsb_exists in E as (s' & Hin & Heq).
  apply String.eqb_eq in Heq. subst s'. unfold enumerated.
  simpl in Hin. intuition congruence.
Qed.

Lemma apply_sets_status (cells : list (column * option string)) (t : task) :
  status (apply_sets cells t) = status t
  ∨ In (Status, status (apply_sets cells t)) cells.
Proof.
  unfold apply_sets. revert t.
  induction cells as [|[c x] cells IH]; intros t; simpl; [now left|].
  destruct (IH (write_cell c x t)) as [E|Hin]; [|now right; right].
  rewrite E. destruct c; simpl; auto.
Qed.

Lemma resolve_sets_in (sets : list (column * nat)) (values : list value)
    (cells : list (column * option string)) (c : column) (x : option string) :
  resolve_sets sets values = Some cells →
  In (c, x) cells →
  ∃ i v, In (c, i) sets ∧ values !! i = Some v ∧ store_cell c v = Some x.
Proof.
  revert cells. induction sets as [|[c' i] sets IH]; intros cells; simpl.
  - intros [= <-] [].
  - destruct (values !! i) as [v|] eqn:Ev; [|discriminate].
    destruct (store_cell c' v) as [y|] eqn:Ey; [|discriminate].
    destruct (resolve_sets sets values) as [rest|]; [|discriminate].
    intros [= <-] [[= -> ->]|Hin].
    + exists i, v. auto.
    + destruct (IH rest eq_refl Hin) as (j & w & Hj & Hw & Hs).
      exists j, w. auto.
Qed.

Lemma run_update_status (d : dialect) (sets : list (column * nat)) (pid : nat)
    (returning : bool) (values : list value) (now : Z) (db : database) :
  Forall2 (status_kept sets values) (tasks db)
          (tasks (run d (Update sets pid returning) values now db).2).
Proof.
  assert (R : Forall2 (status_kept sets values) (tasks db) (tasks db)).
  { apply Forall_Forall2_diag, Forall_forall. intros. now left. }
  unfold run. destruct (online db); simpl; [|exact R].
  destruct (resolve_sets sets values) as [cells|] eqn:E; [|exact R].
  destruct (values !! pid ≫= id_of_param d) as [k|]; [|exact R].
  simpl. apply Forall2_fmap_r, Forall_Forall2_diag, Forall_forall.
  intros t _.
  change (status_kept sets values t
            (if has_id k t then update_row d cells now t else t)).
  destruct (has_id k t); [|now left].
  assert (K : status_kept sets values t (touch now (apply_sets cells t))).
  { destruct (apply_sets_status cells t) as [Es|Hin]; [now left|].
    right. exact (resolve_sets_in _ _ _ _ _ E Hin). }
  unfold update_row. destruct d; [|exact K].
  destruct (same_cells _ _); [now left | exact K].
Qed.

Lemma run_insert_status (d : dialect) (returning : bool) (vt vd vs : value)
    (now : Z) (db : database) :
  vs ≠ VNull →
  statuses_enumerated db →
  statuses_enumerated (run d (Insert 0 1 2 returning) [vt; vd; vs] now db).2.
Proof.
  intros Hnull Hinv. unfold run. destruct (online db); cbn [negb]; [|exact Hinv].
  change ([vt; vd; vs] !! 0%nat ≫= store_cell Title) with (store_cell Title vt).
  change ([vt; vd; vs] !! 1%nat ≫= store_cell Description)
    with (store_cell Description vd).
  change ([vt; vd; vs] !! 2%nat ≫= store_cell Status) with (store_cell Status vs).
  destruct (store_cell Title vt) as [[t|]|]; try exact Hinv.
  destruct (store_cell Description vd) as [x|]; try exact Hinv.
  destruct (store_cell Status vs) as [y|] eqn:E; try exact Hinv.
  unfold statuses_enumerated. simpl. apply Forall_app. split; [exact Hinv|].
  constructor; [|constructor]. simpl. eapply store_status_enumerated; eassumption.
Qed.

Lemma status_kept_enumerated (sets : list (column * nat)) (values : list value)
    (l l' : list task) :
  (∀ i v, In (Status, i) sets → values !! i = Some v → v ≠ VNull) →
  Forall (λ t, enumerated (status t)) l →
  Forall2 (status_kept sets values) l l' →
  Forall (λ t, enumerated (status t)) l'.
Proof.
  intros Hv Hl H. induction H as [|t t' l l' Hk _ IH]; [constructor|].
  apply Forall_cons in Hl as [Ht Hl]. constructor; [|apply IH, Hl].
  destruct Hk as [-> | (i & v & Hi & Hval & Hs)]; [exact Ht|].
  eapply store_status_enumerated; [exact Hs | eapply Hv; eassumption].
Qed.

Lemma js_or_not_null (x : option value) (s : string) : js_or x (VStr s) ≠ VNull.
Proof. destruct x as [[| | | |]|]; simpl; try discriminate; now destruct (_ : bool). Qed.

Ltac settle_status enumerated_after :=
  eapply enumerated_after; [|eassumption|eassumption];
  let i := fresh "i" in
  let v := fresh "v" in
  let Hin := fresh "Hin" in
  let Hv := fresh "Hv" in
  intros i v Hin Hv; simpl in Hin;
  repeat (destruct Hin as [Hin|Hin]; [simplify_eq; simpl in Hv; congruence|]);
  destruct Hin.

Lemma mysql_put_statuses (id : string) (req_body : gmap string value)
    (now : Z) (p : pool) :
  req_body !! "status" ≠ Some VNull →
  statuses_enumerated (store p) →
  statuses_enumerated (store (MySQL.put_task id req_body now p).2).
Proof.
  unfold statuses_enumerated. intros Hnull Hinv.
  unfold MySQL.put_task, try_catch, mbind, async_bind, MySQL.query.
  put_cases req_body; try exact Hinv.
  all: match goal with
       | |- context [run Mysql (Update ?sets ?pid ?r) ?vs ?n ?db] =>
           pose proof (run_update_status Mysql sets pid r vs n db) as K;
           destruct (run Mysql (Update sets pid r) vs n db)
             as [[e|m] db']; simpl in *; [|settle_status status_kept_enumerated]
       end.
  all: destruct (bool_decide _); simpl; [settle_status status_kept_enumerated|].
  all: match goal with
       | |- context [run Mysql (SelectById ?i) ?vs ?n ?db] =>
           pose proof (run_select_store Mysql i vs n db) as S;
           destruct (run Mysql (SelectById i) vs n db)
             as [[e'|m'] db'']; simpl in *; subst db'';
           settle_status status_kept_enumerated
       end.
Qed.

Lemma postgres_put_statuses (id : string) (req_body : gmap string value)
    (now : Z) (p : pool) :
  req_body !! "status" ≠ Some VNull →
  statuses_enumerated (store p) →
  statuses_enumerated (store (PostgreSQL.put_task id req_body now p).2).
Proof.
  unfold statuses_enumerated. intros Hnull Hinv.
  unfold PostgreSQL.put_task, try_catch, mbind, async_bind, PostgreSQL.query.
  put_cases req_body; try exact Hinv.
  all: match goal with
       | |- context [run Postgres (Update ?sets ?pid ?r) ?vs ?n ?db] =>
           pose proof (run_update_status Postgres sets pid r vs n db) as K;
           destruct (run Postgres (Update sets pid r) vs n db)
             as [[e|m] db']; simpl in *; [|settle_status status_kept_enumerated]
       end.
  all: destruct (length _ =? 0)%nat; simpl; settle_status status_kept_enumerated.
Qed.

Lemma mysql_post_statuses (req_body : gmap string value) (now : Z) (p : pool) :
  statuses_enumerated (store p) →
  statuses_enumerated (store (MySQL.post_task req_body now p).2).
Proof.
  intros Hinv.
  unfold MySQL.post_task, try_catch, mbind, async_bind, MySQL.query.
  cbv zeta. destruct (truthy (req_body !! "title")); simpl; [|exact Hinv].
  destruct (truthy (req_body !! "status") && negb _); simpl; [exact Hinv|].
  match goal with
  | |- context [run Mysql (Insert 0 1 2 ?r) [?vt; ?vd; ?vs] ?n ?db] =>
      pose proof (run_insert_status Mysql r vt vd vs n db
                    (js_or_not_null _ _) Hinv) as K;
      destruct (run Mysql (Insert 0 1 2 r) [vt; vd; vs] n db)
        as [[e|m] db']; simpl in *; [|exact K]
  end.
  match goal with
  | |- context [run Mysql (SelectById ?i) ?vs ?n ?db] =>
      pose proof (run_select_store Mysql i vs n db) as S;
      destruct (run Mysql (SelectById i) vs n db)
        as [[e'|m'] db'']; simpl in *; subst db''; exact K
  end.
Qed.

Lemma postgres_post_statuses (req_body : gmap string value) (now : Z) (p : pool) :
  statuses_enumerated (store p) →
  statuses_enumerated (store (PostgreSQL.post_task req_body now p).2).
Proof.
  intros Hinv.
  unfold PostgreSQL.post_task, try_catch, mbind, async_bind, PostgreSQL.query.
  cbv zeta. destruct (truthy (req_body !! "title")); simpl; [|exact Hinv].
  destruct (truthy (req_body !! "status") && negb _); simpl; [exact Hinv|].
  match goal with
  | |- context [run Postgres (Insert 0 1 2 ?r) [?vt; ?vd; ?vs] ?n ?db] =>
      pose proof (run_insert_status Postgres r vt vd vs n db
                    (js_or_not_null _ _) Hinv) as K;
      destruct (run Postgres (Insert 0 1 2 r) [vt; vd; vs] n db)
        as [[e|m] db']; simpl in *; exact K
  end.
Qed.

(** Over any sequence of POST and PUT requests none of which is a PUT
    with [status: null], every status of the table stays one of the three
    values: the [null] of a PUT is the only way out of the enumeration. *)
Lemma statuses_stay_enumerated (d : dialect) (rs : list (request * Z)) (p : pool) :
  Forall (λ rn, ¬ nulls_status rn.1) rs →
  statuses_enumerated (store p) →
  statuses_enumerated (store (serve d rs p)).
Proof.
  intros Hrs. revert p.
  induction Hrs as [|[r now] rs Hr _ IH]; intros p Hinv; simpl; [exact Hinv|].
  apply IH. destruct d, r as [b|i b]; simpl in *.
  - now apply mysql_post_statuses.
  - now apply mysql_put_statuses.
  - now apply postgres_post_statuses.
  - now apply postgres_put_statuses.
Qed.

(** ** The two forms of the health route *)

(** X19: the first form of the health route requires both databases in
    every environment: it answers 200 exactly when both probes succeed,
    gives the verdict of the deployed form outside production, and
    reports the two databases in the same way. *)
Lemma health_both_verdict (NODE_ENV : option string) (timestamp : string)
    (mysqlDb postgresDb : pool) :
  (statusCode (Index.get_health_both timestamp mysqlDb postgresDb) = 200 ↔
     MySQL.testConnection mysqlDb = true
     ∧ PostgreSQL.testConnection postgresDb = true)
  ∧ (NODE_ENV ≠ Some "production" →
     statusCode (Index.get_health_both timestamp mysqlDb postgresDb)
     = statusCode (Index.get_health NODE_ENV timestamp mysqlDb postgresDb))
  ∧ property "databases" (body (Index.get_health_both timestamp mysqlDb postgresDb))
    = property "databases"
        (body (Index.get_health NODE_ENV timestamp mysqlDb postgresDb)).
Proof.
  unfold Index.get_health_both, Index.get_health. split; [|split].
  - destruct (MySQL.testConnection mysqlDb), (PostgreSQL.testConnection postgresDb);
      simpl; intuition discriminate.
  - intros Hne. rewrite bool_decide_eq_false_2 by exact Hne. reflexivity.
  - reflexivity.
Qed.

Lemma health_in_production :
  statusCode (Index.get_health (Some "production") "t" offline_pool sample_pool)
  = 200
  ∧ statusCode (Index.get_health_both "t" offline_pool sample_pool) = 503.
Proof. split; reflexivity. Qed.

(** ** The two DELETE routes on every request *)

Lemma mysql_parse_delete :
  MySQL.parse "DELETE FROM tasks WHERE id = ?" = Some (Delete 0 false).
Proof. reflexivity. Qed.

Lemma postgres_parse_delete :
  PostgreSQL.parse "DELETE FROM tasks WHERE id = $1 RETURNING *"
  = Some (Delete 0 true).
Proof. reflexivity. Qed.

(** For an integer [id] the two routes agree on the status code and on the
    table they leave, and whenever they answer 200 the PostgreSQL body
    has the property [deletedTask] that the MySQL body lacks. *)
Lemma delete_routes_compared (id : string) (n : nat) (now : Z) (p : pool) :
  integer_id id n →
  statusCode (MySQL.delete_task id now p).1
  = statusCode (PostgreSQL.delete_task id now p).1
  ∧ store (MySQL.delete_task id now p).2 = store (PostgreSQL.delete_task id now p).2
  ∧ (statusCode (MySQL.delete_task id now p).1 = 200 →
     fields (MySQL.delete_task id now p).1 = ["success"; "message"]
     ∧ fields (PostgreSQL.delete_task id now p).1
       = ["success"; "message"; "deletedTask"]).
Proof.
  intros Hid.
  unfold MySQL.delete_task, PostgreSQL.delete_task, try_catch, mbind, async_bind,
    MySQL.query, PostgreSQL.query.
  rewrite mysql_parse_delete, postgres_parse_delete. unfold run.
  change ([VStr id] !! 0%nat ≫= id_of_param Mysql) with (id_of_param Mysql (VStr id)).
  change ([VStr id] !! 0%nat ≫= id_of_param Postgres)
    with (id_of_param Postgres (VStr id)).
  unfold integer_id in Hid. unfold id_of_param. rewrite Hid.
  destruct (online (store p)); simpl; [|repeat split; discriminate].
  destruct (filter _ (tasks (store p))) as [|t l]; simpl.
  - repeat split; discriminate.
  - repeat split; reflexivity.
Qed.

(** ** The scenario of the specification, end to end *)

(** POST [{title: "Buy milk"}], GET it, PUT [{status: "completed"}],
    DELETE it, GET it again, on the PostgreSQL routes. *)
Example scenario :
  let posted := PostgreSQL.post_task {[ "title" := VStr "Buy milk" ]} 300 sample_pool in
  let fetched := PostgreSQL.get_task "3" 310 posted.2 in
  let updated := PostgreSQL.put_task "3" complete_it 400 fetched.2 in
  let deleted := PostgreSQL.delete_task "3" 500 updated.2 in
  let gone := PostgreSQL.get_task "3" 510 deleted.2 in
  statusCode posted.1 = 201
  ∧ property "data" (body posted.1)
    = Some (JTask (mkTask 3 "Buy milk" None (Some "pending") 300 300))
  ∧ statusCode fetched.1 = 200
  ∧ property "data" (body fetched.1) = property "data" (body posted.1)
  ∧ statusCode updated.1 = 200
  ∧ property "data" (body updated.1)
    = Some (JTask (mkTask 3 "Buy milk" None (Some "completed") 300 400))
  ∧ statusCode deleted.1 = 200
  ∧ statusCode gone.1 = 404
  ∧ tasks (store gone.2) = tasks (store sample_pool).
Proof. repeat split; reflexivity. Qed.

(** ** The two sets of routes, side by side *)

Lemma id_of_param_integer (d : dialect) (id : string) (n : nat) :
  integer_id id n → id_of_param d (VStr id) = Some (Some (Z.of_nat n)).
Proof. unfold integer_id, id_of_param. intros ->. now destruct d. Qed.

(** The list routes give the same answer. *)
Lemma get_tasks_agree (now : Z) (p : pool) :
  (MySQL.get_tasks now p).1 = (PostgreSQL.get_tasks now p).1.
Proof.
  unfold MySQL.get_tasks, PostgreSQL.get_tasks, try_catch, mbind, async_bind,
    MySQL.query, PostgreSQL.query.
  rewrite mysql_parse_select_all, postgres_parse_select_all. unfold run.
  destruct (online (store p)); reflexivity.
Qed.

(** For an integer [id] the two routes that read a task give the same
    answer. *)
Lemma get_task_agree (id : string) (n : nat) (now : Z) (p : pool) :
  integer_id id n →
  (MySQL.get_task id now p).1 = (PostgreSQL.get_task id now p).1.
Proof.
  intros Hid.
  unfold MySQL.get_task, PostgreSQL.get_task, try_catch, mbind, async_bind,
    MySQL.query, PostgreSQL.query.
  rewrite mysql_parse_select_by_id, postgres_parse_select_by_id. unfold run.
  change ([VStr id] !! 0%nat ≫= id_of_param Mysql) with (id_of_param Mysql (VStr id)).
  change ([VStr id] !! 0%nat ≫= id_of_param Postgres)
    with (id_of_param Postgres (VStr id)).
  rewrite !(id_of_param_integer _ _ _ Hid).
  destruct (online (store p)); simpl; [|reflexivity].
  destruct (filter _ (tasks (store p))) as [|t l]; reflexivity.
Qed.

(** An INSERT does the same on both engines; only PostgreSQL returns the
    row. *)
Lemma run_insert_compared (values : list value) (now : Z) (db : database) :
  (∃ m, run Mysql (Insert 0 1 2 false) values now db = (Rejected m, db)
        ∧ run Postgres (Insert 0 1 2 true) values now db = (Rejected m, db))
  ∨ (∃ row,
       online db = true ∧ id row = next_id db
       ∧ run Mysql (Insert 0 1 2 false) values now db
         = (Fulfilled (mkEffect [] 1 (next_id db)),
            mkDatabase (tasks db ++ [row]) (next_id db + 1) (online db))
       ∧ run Postgres (Insert 0 1 2 true) values now db
         = (Fulfilled (mkEffect [row] 1 (next_id db)),
            mkDatabase (tasks db ++ [row]) (next_id db + 1) (online db))).
Proof.
  unfold run. destruct (online db); cbn [negb]; [|left; eauto].
  destruct (values !! 0%nat ≫= store_cell Title) as [[t|]|]; [|left; eauto..].
  destruct (values !! 1%nat ≫= store_cell Description) as [x|]; [|left; eauto].
  destruct (values !! 2%nat ≫= store_cell Status) as [y|]; [|left; eauto].
  right. exists (mkTask (next_id db) t x y now now). repeat split; reflexivity.
Qed.

(** On a well-formed table the two routes that create a task give the
    same answer and leave the same table. *)
Lemma post_task_agree (req_body : gmap string value) (now : Z) (p : pool) :
  well_formed (store p) →
  (MySQL.post_task req_body now p).1 = (PostgreSQL.post_task req_body now p).1
  ∧ store (MySQL.post_task req_body now p).2
    = store (PostgreSQL.post_task req_body now p).2.
Proof.
  intros Hwf. pose proof (fresh_id_unused _ Hwf) as Hfresh. simpl in Hfresh.
  unfold MySQL.post_task, PostgreSQL.post_task, try_catch, mbind, async_bind,
    MySQL.query, PostgreSQL.query.
  change MySQL.validStatuses with task_status.
  change PostgreSQL.validStatuses with task_status.
  rewrite mysql_parse_insert, postgres_parse_insert, mysql_parse_select_by_id.
  cbv zeta. destruct (truthy (req_body !! "title")); simpl; [|now split].
  destruct (truthy (req_body !! "status") && negb _); simpl; [now split|].
  match goal with
  | |- context [run Mysql (Insert 0 1 2 false) ?vs ?n ?db] =>
      destruct (run_insert_compared vs n db)
        as [(m & -> & ->) | (row & Hon & Hid & -> & ->)]
  end; simpl; [now split|].
  rewrite run_select_by_number by exact Hon. simpl.
  rewrite filter_app, Hfresh.
  rewrite filter_cons_True by (simpl; apply Is_true_true, Z.eqb_eq, Hid).
  now split.
Qed.

Lemma update_row_id (d : dialect) (cells : list (column * option string))
    (now : Z) (k : option Z) (t : task) :
  has_id k (update_row d cells now t) = has_id k t.
Proof.
  destruct (update_row_kept d cells now t) as (Hid & _).
  unfold has_id. now rewrite Hid.
Qed.

Lemma filter_updated (d : dialect) (cells : list (column * option string))
    (now : Z) (k : option Z) (l : list task) :
  length (filter (λ t, has_id k t)
            (map (λ t, if has_id k t then update_row d cells now t else t) l))
  = length (filter (λ t, has_id k t) l).
Proof.
  induction l as [|t l IH]; [reflexivity|].
  cbn [map]. rewrite !filter_cons.
  destruct (has_id k t) eqn:E.
  - rewrite update_row_id, E. simpl. now rewrite IH.
  - rewrite E. simpl. exact IH.
Qed.

Lemma run_select_by_id (d : dialect) (v : value) (k : option Z) (now : Z)
    (db : database) :
  online db = true →
  id_of_param d v = Some k →
  run d (SelectById 0) [v] now db
  = (Fulfilled (mkEffect (filter (λ t, has_id k t) (tasks db)) 0 0), db).
Proof.
  intros Hon Hk. unfold run. rewrite Hon.
  change ([v] !! 0%nat ≫= id_of_param d) with (id_of_param d v).
  now rewrite Hk.
Qed.

(** An UPDATE is refused by both engines or by none; PostgreSQL returns as
    many rows as MySQL reports, and as many as a SELECT by the same id
    finds afterwards. *)
Lemma run_update_compared (sets : list (column * nat)) (pid : nat)
    (values : list value) (now : Z) (db : database) (k : option Z) :
  values !! pid ≫= id_of_param Mysql = Some k →
  values !! pid ≫= id_of_param Postgres = Some k →
  (∃ m, run Mysql (Update sets pid false) values now db = (Rejected m, db)
        ∧ run Postgres (Update sets pid true) values now db = (Rejected m, db))
  ∨ (∃ e1 db1 e2 db2,
       run Mysql (Update sets pid false) values now db = (Fulfilled e1, db1)
       ∧ run Postgres (Update sets pid true) values now db = (Fulfilled e2, db2)
       ∧ online db1 = true
       ∧ length (selected e2) = affected e1
       ∧ length (filter (λ t, has_id k t) (tasks db1)) = affected e1).
Proof.
  intros Hm Hp. unfold run. rewrite Hm, Hp.
  destruct (online db); cbn [negb]; [|left; eauto].
  destruct (resolve_sets sets values) as [cells|]; [|left; eauto].
  right. do 4 eexists. split; [reflexivity|]. split; [reflexivity|].
  cbn [online tasks selected affected]. split; [reflexivity|].
  split; apply filter_updated.
Qed.

(** For an integer [id] the two routes that update a task answer with the
    same status code and bodies of the same shape. *)
Lemma put_task_agree (id : string) (n : nat) (req_body : gmap string value)
    (now : Z) (p : pool) :
  integer_id id n →
  statusCode (MySQL.put_task id req_body now p).1
  = statusCode (PostgreSQL.put_task id req_body now p).1
  ∧ fields (MySQL.put_task id req_body now p).1
    = fields (PostgreSQL.put_task id req_body now p).1.
Proof.
  intros Hid.
  pose proof (id_of_param_integer Mysql id n Hid) as Hm.
  pose proof (id_of_param_integer Postgres id n Hid) as Hp.
  unfold MySQL.put_task, PostgreSQL.put_task, try_catch, mbind, async_bind,
    MySQL.query, PostgreSQL.query.
  change MySQL.validStatuses with task_status.
  change PostgreSQL.validStatuses with task_status.
  put_cases req_body; try (split; reflexivity).
  all: match goal with
       | |- context [run Mysql (Update ?sets ?pid false) ?vs ?nw ?db] =>
           destruct (run_update_compared sets pid vs nw db _ Hm Hp)
             as [(m & -> & ->)
                | (e1 & db1 & e2 & db2 & -> & -> & Hon & H2 & H1)]
       end; simpl; [split; reflexivity|].
  all: destruct (affected e1) as [|a];
    [rewrite bool_decide_eq_true_2 by reflexivity
    |rewrite bool_decide_eq_false_2 by (simpl; discriminate)]; simpl.
  all: destruct (selected e2) as [|t2 l2]; try discriminate H2; simpl.
  all: try (split; reflexivity).
  all: rewrite (run_select_by_id Mysql (VStr id) _ now db1 Hon Hm); simpl.
  all: destruct (filter _ (tasks db1)) as [|t1 l1]; try discriminate H1.
  all: split; reflexivity.
Qed.

(** ** The engine, statement by statement *)

Lemma run_offline (d : dialect) (st : statement) (values : list value)
    (now : Z) (db : database) :
  online db = false → run d st values now db = (Rejected connection_error, db).
Proof. intros H. unfold run. now rewrite H. Qed.

Lemma run_delete (d : dialect) (returning : bool) (v : value) (k : option Z)
    (now : Z) (db : database) :
  online db = true →
  id_of_param d v = Some k →
  run d (Delete 0 returning) [v] now db
  = (Fulfilled
       (mkEffect (if returning then filter (λ t, has_id k t) (tasks db) else [])
                 (length (filter (λ t, has_id k t) (tasks db))) 0),
     mkDatabase (filter (λ t, negb (has_id k t)) (tasks db))
                (next_id db) (online db)).
Proof.
  intros Hon Hk. unfold run. rewrite Hon.
  change ([v] !! 0%nat ≫= id_of_param d) with (id_of_param d v).
  now rewrite Hk.
Qed.

Lemma filter_id_absent (n : Z) (l : list task) :
  (∀ t, In t l → id t ≠ n) →
  filter (λ t, has_id (Some n) t) l = []
  ∧ filter (λ t, negb (has_id (Some n) t)) l = l.
Proof.
  induction l as [|u l IH]; intros H; [split; reflexivity|].
  assert (Hu : (id u =? n) = false) by (apply Z.eqb_neq, H; now left).
  destruct IH as [IH1 IH2]; [intros t Ht; apply H; now right|].
  rewrite filter_cons_False by (simpl; rewrite Hu; intros []).
  rewrite filter_cons_True by (simpl; rewrite Hu; exact I).
  now rewrite IH1, IH2.
Qed.

Lemma filter_id_present (t : task) (l : list task) :
  NoDup (map id l) → In t l →
  filter (λ u, has_id (Some (id t)) u) l = [t].
Proof.
  induction l as [|u l IH]; intros Hnd Hin; [destruct Hin|].
  apply NoDup_cons in Hnd as [Hnotin Hnd].
  destruct Hin as [->|Hin].
  - rewrite filter_cons_True by (simpl; rewrite Z.eqb_refl; exact I).
    f_equal. apply (filter_id_absent (id t) l). intros w Hw E.
    apply Hnotin. rewrite <- E. apply list_elem_of_In, in_map, Hw.
  - assert (Hne : (id u =? id t) = false).
    { apply Z.eqb_neq. intros E. apply Hnotin. rewrite E.
      apply list_elem_of_In, in_map, Hin. }
    rewrite filter_cons_False by (simpl; rewrite Hne; intros []).
    now apply IH.
Qed.

Lemma database_eta (db : database) :
  mkDatabase (tasks db) (next_id db) (online db) = db.
Proof. now destruct db. Qed.

Lemma pool_eta (p : pool) : mkPool (store p) (issued p) = p.
Proof. now destruct p. Qed.

(** ** Reading and deleting by an integer id, on a reachable database *)

Lemma mysql_get_task_online (id : string) (n : nat) (now : Z) (p : pool) :
  online (store p) = true →
  integer_id id n →
  MySQL.get_task id now p
  = (match filter (λ t, has_id (Some (Z.of_nat n)) t) (tasks (store p)) with
     | [] => MySQL.not_found
     | t :: _ => mkResponse 200 [("success", JBool true); ("data", JTask t)]
     end,
     mkPool (store p)
            (issued p ++ [("SELECT * FROM tasks WHERE id = ?", [VStr id])])).
Proof.
  intros Hon Hid.
  unfold MySQL.get_task, try_catch, mbind, async_bind, MySQL.query.
  rewrite mysql_parse_select_by_id.
  rewrite (run_select_by_id Mysql _ _ now _ Hon (id_of_param_integer _ _ _ Hid)).
  simpl. destruct (filter _ (tasks (store p))) as [|t l]; [reflexivity|].
  rewrite bool_decide_eq_false_2 by (simpl; discriminate). reflexivity.
Qed.

Lemma postgres_get_task_online (id : string) (n : nat) (now : Z) (p : pool) :
  online (store p) = true →
  integer_id id n →
  PostgreSQL.get_task id now p
  = (match filter (λ t, has_id (Some (Z.of_nat n)) t) (tasks (store p)) with
     | [] => PostgreSQL.not_found
     | t :: _ => mkResponse 200 [("success", JBool true); ("data", JTask t)]
     end,
     mkPool (store p)
            (issued p ++ [("SELECT * FROM tasks WHERE id = $1", [VStr id])])).
Proof.
  intros Hon Hid.
  unfold PostgreSQL.get_task, try_catch, mbind, async_bind, PostgreSQL.query.
  rewrite postgres_parse_select_by_id.
  rewrite (run_select_by_id Postgres _ _ now _ Hon (id_of_param_integer _ _ _ Hid)).
  simpl. destruct (filter _ (tasks (store p))) as [|t l]; reflexivity.
Qed.

Lemma mysql_delete_task_online (id : string) (n : nat) (now : Z) (p : pool) :
  online (store p) = true →
  integer_id id n →
  MySQL.delete_task id now p
  = (match filter (λ t, has_id (Some (Z.of_nat n)) t) (tasks (store p)) with
     | [] => MySQL.not_found
     | _ :: _ =>
         mkResponse 200 [("success", JBool true);
                         ("message", JStr "Task deleted successfully")]
     end,
     mkPool (mkDatabase
               (filter (λ t, negb (has_id (Some (Z.of_nat n)) t)) (tasks (store p)))
               (next_id (store p)) (online (store p)))
            (issued p ++ [("DELETE FROM tasks WHERE id = ?", [VStr id])])).
Proof.
  intros Hon Hid.
  unfold MySQL.delete_task, try_catch, mbind, async_bind, MySQL.query.
  rewrite mysql_parse_delete.
  rewrite (run_delete Mysql _ _ _ now _ Hon (id_of_param_integer _ _ _ Hid)).
  simpl. destruct (filter _ (tasks (store p))) as [|t l]; [reflexivity|].
  rewrite bool_decide_eq_false_2 by (simpl; discriminate). reflexivity.
Qed.

Lemma postgres_delete_task_online (id : string) (n : nat) (now : Z) (p : pool) :
  online (store p) = true →
  integer_id id n →
  PostgreSQL.delete_task id now p
  = (match filter (λ t, has_id (Some (Z.of_nat n)) t) (tasks (store p)) with
     | [] => PostgreSQL.not_found
     | t :: _ =>
         mkResponse 200 [("success", JBool true);
                         ("message", JStr "Task deleted successfully");
                         ("deletedTask", JTask t)]
     end,
     mkPool (mkDatabase
               (filter (λ t, negb (has_id (Some (Z.of_nat n)) t)) (tasks (store p)))
               (next_id (store p)) (online (store p)))
            (issued p
             ++ [("DELETE FROM tasks WHERE id = $1 RETURNING *", [VStr id])])).
Proof.
  intros Hon Hid.
  unfold PostgreSQL.delete_task, try_catch, mbind, async_bind, PostgreSQL.query.
  rewrite postgres_parse_delete.
  rewrite (run_delete Postgres _ _ _ now _ Hon (id_of_param_integer _ _ _ Hid)).
  simpl. destruct (filter _ (tasks (store p))) as [|t l]; reflexivity.
Qed.

Lemma filter_split_length (k : option Z) (l : list task) :
  (length (filter (λ t, has_id k t) l)
   + length (filter (λ t, negb (has_id k t)) l))%nat = length l.
Proof.
  induction l as [|t l IH]; [reflexivity|].
  destruct (has_id k t) eqn:E.
  - rewrite filter_cons_True by (rewrite E; exact I).
    rewrite (filter_cons_False (λ t, negb (has_id k t)))
      by (simpl; rewrite E; intros []).
    simpl. lia.
  - rewrite filter_cons_False by (rewrite E; intros []).
    rewrite (filter_cons_True (λ t, negb (has_id k t)))
      by (simpl; rewrite E; exact I).
    simpl. lia.
Qed.

(** X1: on a reachable database whose ids are unique, GET with the id of a
    stored task is answered 200 with that task by both routes, and the
    table is left as it is. *)
Theorem get_task_finds (i : string) (n : nat) (t : task) (now : Z) (p : pool) :
  online (store p) = true →
  integer_id i n →
  NoDup (map id (tasks (store p))) →
  In t (tasks (store p)) →
  id t = Z.of_nat n →
  (MySQL.get_task i now p).1
  = mkResponse 200 [("success", JBool true); ("data", JTask t)]
  ∧ (PostgreSQL.get_task i now p).1
    = mkResponse 200 [("success", JBool true); ("data", JTask t)]
  ∧ store (MySQL.get_task i now p).2 = store p
  ∧ store (PostgreSQL.get_task i now p).2 = store p.
Proof.
  intros Hon Hid Hnd Hin Ht.
  rewrite (mysql_get_task_online _ _ _ _ Hon Hid),
    (postgres_get_task_online _ _ _ _ Hon Hid).
  rewrite <- Ht, (filter_id_present t _ Hnd Hin). now repeat split.
Qed.

(** X2: on a reachable database, GET with an integer id that the integer
    column can hold and that no task has is answered 404 "Task not found"
    by both routes. *)
Theorem get_task_misses (i : string) (n : nat) (now : Z) (p : pool) :
  online (store p) = true →
  integer_id i n →
  fits_integer n →
  (∀ t, In t (tasks (store p)) → id t ≠ Z.of_nat n) →
  (MySQL.get_task i now p).1
  = mkResponse 404 [("success", JBool false); ("error", JStr "Task not found")]
  ∧ (PostgreSQL.get_task i now p).1
    = mkResponse 404 [("success", JBool false); ("error", JStr "Task not found")].
Proof.
  intros Hon Hid _ Hno.
  rewrite (mysql_get_task_online _ _ _ _ Hon Hid),
    (postgres_get_task_online _ _ _ _ Hon Hid).
  destruct (filter_id_absent _ _ Hno) as [-> _]. now split.
Qed.

(** X3: on a reachable database whose ids are unique, DELETE with the id
    of a stored task is answered 200 by both routes; the table loses
    exactly that row (one row less, every other row kept), and a GET with
    the same id is answered 404 afterwards. *)
Theorem delete_task_removes (i : string) (n : nat) (t : task) (now later : Z)
    (p : pool) :
  online (store p) = true →
  integer_id i n →
  NoDup (map id (tasks (store p))) →
  In t (tasks (store p)) →
  id t = Z.of_nat n →
  let after_m := (MySQL.delete_task i now p).2 in
  let after_p := (PostgreSQL.delete_task i now p).2 in
  statusCode (MySQL.delete_task i now p).1 = 200
  ∧ statusCode (PostgreSQL.delete_task i now p).1 = 200
  ∧ store after_m = store after_p
  ∧ S (length (tasks (store after_m))) = length (tasks (store p))
  ∧ (∀ u, In u (tasks (store after_m)) ↔
          In u (tasks (store p)) ∧ id u ≠ Z.of_nat n)
  ∧ statusCode (MySQL.get_task i later after_m).1 = 404
  ∧ statusCode (PostgreSQL.get_task i later after_p).1 = 404.
Proof.
  intros Hon Hid Hnd Hin Ht after_m after_p. subst after_m after_p.
  rewrite (mysql_delete_task_online _ _ _ _ Hon Hid),
    (postgres_delete_task_online _ _ _ _ Hon Hid).
  pose proof (filter_split_length (Some (Z.of_nat n)) (tasks (store p))) as Hlen.
  assert (Hmem : ∀ u, In u (filter (λ t, negb (has_id (Some (Z.of_nat n)) t))
                              (tasks (store p)))
                      ↔ In u (tasks (store p)) ∧ id u ≠ Z.of_nat n).
  { intros u. rewrite <- !list_elem_of_In, list_elem_of_filter. simpl.
    destruct (Z.eqb_spec (id u) (Z.of_nat n)); simpl; intuition. }
  assert (Hf : filter (λ t, has_id (Some (Z.of_nat n)) t) (tasks (store p)) = [t]).
  { rewrite <- Ht. now apply filter_id_present. }
  assert (Hnone : ∀ u, In u (filter (λ t, negb (has_id (Some (Z.of_nat n)) t))
                               (tasks (store p)))
                       → id u ≠ Z.of_nat n).
  { intros u Hu. now apply Hmem in Hu. }
  rewrite Hf in *. cbn [snd fst store tasks length Nat.add] in Hlen |- *.
  split; [reflexivity|]. split; [reflexivity|]. split; [reflexivity|].
  split; [lia|]. split; [exact Hmem|].
  rewrite (mysql_get_task_online i n later); [|exact Hon|exact Hid].
  rewrite (postgres_get_task_online i n later); [|exact Hon|exact Hid].
  cbn [snd fst store tasks].
  destruct (filter_id_absent _ _ Hnone) as [-> _]. now split.
Qed.

(** X4: on a reachable database, DELETE with an integer id that the
    integer column can hold and that no task has is answered 404 by both
    routes and leaves the table as it is. *)
Theorem delete_task_misses (i : string) (n : nat) (now : Z) (p : pool) :
  online (store p) = true →
  integer_id i n →
  fits_integer n →
  (∀ t, In t (tasks (store p)) → id t ≠ Z.of_nat n) →
  (MySQL.delete_task i now p).1
  = mkResponse 404 [("success", JBool false); ("error", JStr "Task not found")]
  ∧ (PostgreSQL.delete_task i now p).1
    = mkResponse 404 [("success", JBool false); ("error", JStr "Task not found")]
  ∧ store (MySQL.delete_task i now p).2 = store p
  ∧ store (PostgreSQL.delete_task i now p).2 = store p.
Proof.
  intros Hon Hid _ Hno.
  rewrite (mysql_delete_task_online _ _ _ _ Hon Hid),
    (postgres_delete_task_online _ _ _ _ Hon Hid).
  destruct (filter_id_absent _ _ Hno) as [-> ->]. simpl.
  now rewrite database_eta.
Qed.

(** ** Creating, then reading or deleting *)

Lemma run_insert_cases (d : dialect) (returning : bool) (values : list value)
    (now : Z) (db : database) :
  (∃ m, run d (Insert 0 1 2 returning) values now db = (Rejected m, db))
  ∨ (∃ row,
       online db = true ∧ id row = next_id db
       ∧ created_at row = now ∧ updated_at row = now
       ∧ run d (Insert 0 1 2 returning) values now db
         = (Fulfilled (mkEffect (if returning then [row] else []) 1 (next_id db)),
            mkDatabase (tasks db ++ [row]) (next_id db + 1) (online db))).
Proof.
  unfold run. destruct (online db); cbn [negb]; [|left; eauto].
  destruct (values !! 0%nat ≫= store_cell Title) as [[t|]|]; [|left; eauto..].
  destruct (values !! 1%nat ≫= store_cell Description) as [x|]; [|left; eauto].
  destruct (values !! 2%nat ≫= store_cell Status) as [y|]; [|left; eauto].
  right. exists (mkTask (next_id db) t x y now now). repeat split; reflexivity.
Qed.

Lemma mysql_post_task_cases (req_body : gmap string value) (now : Z) (p : pool) :
  well_formed (store p) →
  (In (statusCode (MySQL.post_task req_body now p).1) [400; 500]
   ∧ store (MySQL.post_task req_body now p).2 = store p)
  ∨ (∃ row,
       online (store p) = true ∧ id row = next_id (store p)
       ∧ created_at row = now ∧ updated_at row = now
       ∧ (MySQL.post_task req_body now p).1
         = mkResponse 201 [("success", JBool true);
                           ("data", JTask row);
                           ("message", JStr "Task created successfully")]
       ∧ store (MySQL.post_task req_body now p).2
         = mkDatabase (tasks (store p) ++ [row]) (next_id (store p) + 1)
                      (online (store p))).
Proof.
  intros Hwf. pose proof (fresh_id_unused _ Hwf) as Hfresh. simpl in Hfresh.
  unfold MySQL.post_task, try_catch, mbind, async_bind, MySQL.query.
  rewrite mysql_parse_insert, mysql_parse_select_by_id.
  cbv zeta. destruct (truthy (req_body !! "title")); simpl; [|left; auto].
  destruct (truthy (req_body !! "status") && negb _); simpl; [left; auto|].
  match goal with
  | |- context [run Mysql (Insert 0 1 2 false) ?vs ?n ?db] =>
      destruct (run_insert_cases Mysql false vs n db)
        as [(m & ->) | (row & Hon & Hid & Hc & Hu & ->)]
  end; simpl; [left; auto|].
  rewrite run_select_by_number by exact Hon. simpl.
  rewrite filter_app, Hfresh.
  rewrite filter_cons_True by (simpl; apply Is_true_true, Z.eqb_eq, Hid).
  right. exists row. now repeat split.
Qed.

Lemma postgres_post_task_cases (req_body : gmap string value) (now : Z) (p : pool) :
  (In (statusCode (PostgreSQL.post_task req_body now p).1) [400; 500]
   ∧ store (PostgreSQL.post_task req_body now p).2 = store p)
  ∨ (∃ row,
       online (store p) = true ∧ id row = next_id (store p)
       ∧ created_at row = now ∧ updated_at row = now
       ∧ (PostgreSQL.post_task req_body now p).1
         = mkResponse 201 [("success", JBool true);
                           ("data", JTask row);
                           ("message", JStr "Task created successfully")]
       ∧ store (PostgreSQL.post_task req_body now p).2
         = mkDatabase (tasks (store p) ++ [row]) (next_id (store p) + 1)
                      (online (store p))).
Proof.
  unfold PostgreSQL.post_task, try_catch, mbind, async_bind, PostgreSQL.query.
  rewrite postgres_parse_insert.
  cbv zeta. destruct (truthy (req_body !! "title")); simpl; [|left; auto].
  destruct (truthy (req_body !! "status") && negb _); simpl; [left; auto|].
  match goal with
  | |- context [run Postgres (Insert 0 1 2 true) ?vs ?n ?db] =>
      destruct (run_insert_cases Postgres true vs n db)
        as [(m & ->) | (row & Hon & Hid & Hc & Hu & ->)]
  end; simpl; [left; auto|].
  right. exists row. now repeat split.
Qed.

Lemma answer_post_cases (d : dialect) (req_body : gmap string value)
    (now : Z) (p : pool) :
  well_formed (store p) →
  (In (statusCode (answer d (PostTask req_body) now p).1) [400; 500]
   ∧ store (answer d (PostTask req_body) now p).2 = store p)
  ∨ (∃ row,
       online (store p) = true ∧ id row = next_id (store p)
       ∧ created_at row = now ∧ updated_at row = now
       ∧ (answer d (PostTask req_body) now p).1
         = mkResponse 201 [("success", JBool true);
                           ("data", JTask row);
                           ("message", JStr "Task created successfully")]
       ∧ store (answer d (PostTask req_body) now p).2
         = mkDatabase (tasks (store p) ++ [row]) (next_id (store p) + 1)
                      (online (store p))).
Proof.
  intros Hwf. destruct d; simpl.
  - now apply mysql_post_task_cases.
  - apply postgres_post_task_cases.
Qed.

Lemma post_task_refused (d : dialect) (req_body : gmap string value) (now : Z)
    (p : pool) :
  statusCode (answer d (PostTask req_body) now p).1 = 400 →
  (answer d (PostTask req_body) now p).2 = p.
Proof.
  destruct d; cbn [answer].
  - unfold MySQL.post_task, try_catch, mbind, async_bind, MySQL.query.
    rewrite mysql_parse_insert, mysql_parse_select_by_id.
    cbv zeta. destruct (truthy (req_body !! "title")); simpl; [|reflexivity].
    destruct (truthy (req_body !! "status") && negb _); simpl; [reflexivity|].
    match goal with
    | |- context [run Mysql (Insert 0 1 2 false) ?vs ?n ?db] =>
        destruct (run_insert_cases Mysql false vs n db)
          as [(m & ->) | (row & Hon & _ & _ & _ & ->)]
    end; simpl; [discriminate|].
    rewrite run_select_by_number by exact Hon. simpl. discriminate.
  - unfold PostgreSQL.post_task, try_catch, mbind, async_bind, PostgreSQL.query.
    rewrite postgres_parse_insert.
    cbv zeta. destruct (truthy (req_body !! "title")); simpl; [|reflexivity].
    destruct (truthy (req_body !! "status") && negb _); simpl; [reflexivity|].
    match goal with
    | |- context [run Postgres (Insert 0 1 2 true) ?vs ?n ?db] =>
        destruct (run_insert_cases Postgres true vs n db)
          as [(m & ->) | (row & Hon & _ & _ & _ & ->)]
    end; simpl; discriminate.
Qed.

(** X5: on a table whose ids all come from the counter, a POST that is
    answered 201 has appended exactly one row, the one it returns as
    [data], with the next id of the counter and the time of the statement
    as [created_at] and [updated_at]; the rows that were there are as they
    were.  A POST that is answered 400 has sent nothing to the database. *)
Theorem post_task_appends_one_row (d : dialect) (req_body : gmap string value)
    (now : Z) (p : pool) :
  well_formed (store p) →
  let r := (answer d (PostTask req_body) now p).1 in
  let after := (answer d (PostTask req_body) now p).2 in
  (statusCode r = 201 →
   ∃ row, property "data" (body r) = Some (JTask row)
          ∧ tasks (store after) = tasks (store p) ++ [row]
          ∧ id row = next_id (store p)
          ∧ created_at row = now
          ∧ updated_at row = now
          ∧ next_id (store after) = next_id (store p) + 1)
  ∧ (statusCode r = 400 → after = p).
Proof.
  intros Hwf r after. subst r after. split.
  - intros H201.
    destruct (answer_post_cases d req_body now p Hwf)
      as [[Hin _] | (row & Hon & Hid & Hc & Hu & Hr & Hs)].
    { rewrite H201 in Hin. destruct Hin as [? | [? | []]]; discriminate. }
    exists row. rewrite Hr, Hs. now repeat split.
  - apply post_task_refused.
Qed.

Lemma sample_ids_distinct : NoDup (map id (tasks (store sample_pool))).
Proof.
  simpl. apply NoDup_cons. split; [|apply NoDup_singleton].
  intros H. apply list_elem_of_singleton in H. discriminate.
Qed.

Lemma sample_ids_fresh : well_formed (store sample_pool).
Proof. repeat constructor. Qed.

Lemma get_task_finds_witness :
  online (store sample_pool) = true
  ∧ integer_id "1" 1
  ∧ NoDup (map id (tasks (store sample_pool)))
  ∧ In buy_milk (tasks (store sample_pool))
  ∧ id buy_milk = Z.of_nat 1
  ∧ (MySQL.get_task "1" 300 sample_pool).1
    = mkResponse 200 [("success", JBool true); ("data", JTask buy_milk)]
  ∧ (PostgreSQL.get_task "1" 300 sample_pool).1
    = mkResponse 200 [("success", JBool true); ("data", JTask buy_milk)].
Proof.
  split; [reflexivity|]. split; [reflexivity|].
  split; [exact sample_ids_distinct|].
  split; [left; reflexivity|]. split; [reflexivity|].
  pose proof (get_task_finds "1" 1 buy_milk 300 sample_pool eq_refl eq_refl
                sample_ids_distinct (or_introl eq_refl) eq_refl) as (Hm & Hp & _).
  split; [exact Hm | exact Hp].
Defined.

Lemma get_task_misses_witness :
  online (store sample_pool) = true
  ∧ integer_id "7" 7
  ∧ fits_integer 7
  ∧ (∀ t, In t (tasks (store sample_pool)) → id t ≠ Z.of_nat 7)
  ∧ (MySQL.get_task "7" 300 sample_pool).1
    = mkResponse 404 [("success", JBool false); ("error", JStr "Task not found")].
Proof.
  assert (Hf : fits_integer 7) by (unfold fits_integer; lia).
  assert (Hno : ∀ t, In t (tasks (store sample_pool)) → id t ≠ Z.of_nat 7).
  { simpl. intros t [<- | [<- | []]]; discriminate. }
  split; [reflexivity|]. split; [reflexivity|]. split; [exact Hf|].
  split; [exact Hno|].
  exact (proj1 (get_task_misses "7" 7 300 sample_pool eq_refl eq_refl Hf Hno)).
Defined.

Lemma delete_task_removes_witness :
  online (store sample_pool) = true
  ∧ integer_id "1" 1
  ∧ NoDup (map id (tasks (store sample_pool)))
  ∧ In buy_milk (tasks (store sample_pool))
  ∧ id buy_milk = Z.of_nat 1
  ∧ statusCode (MySQL.delete_task "1" 300 sample_pool).1 = 200
  ∧ statusCode
      (MySQL.get_task "1" 400 (MySQL.delete_task "1" 300 sample_pool).2).1 = 404.
Proof.
  split; [reflexivity|]. split; [reflexivity|].
  split; [exact sample_ids_distinct|].
  split; [left; reflexivity|]. split; [reflexivity|].
  pose proof (delete_task_removes "1" 1 buy_milk 300 400 sample_pool eq_refl
                eq_refl sample_ids_distinct (or_introl eq_refl) eq_refl)
    as (Hm & _ & _ & _ & _ & Hg & _).
  split; [exact Hm | exact Hg].
Defined.

Lemma delete_task_misses_witness :
  online (store sample_pool) = true
  ∧ integer_id "7" 7
  ∧ fits_integer 7
  ∧ (∀ t, In t (tasks (store sample_pool)) → id t ≠ Z.of_nat 7)
  ∧ (PostgreSQL.delete_task "7" 300 sample_pool).1
    = mkResponse 404 [("success", JBool false); ("error", JStr "Task not found")]
  ∧ store (PostgreSQL.delete_task "7" 300 sample_pool).2 = store sample_pool.
Proof.
  assert (Hf : fits_integer 7) by (unfold fits_integer; lia).
  assert (Hno : ∀ t, In t (tasks (store sample_pool)) → id t ≠ Z.of_nat 7).
  { simpl. intros t [<- | [<- | []]]; discriminate. }
  split; [reflexivity|]. split; [reflexivity|]. split; [exact Hf|].
  split; [exact Hno|].
  destruct (delete_task_misses "7" 7 300 sample_pool eq_refl eq_refl Hf Hno)
    as (_ & Hp & _ & Hs).
  split; [exact Hp | exact Hs].
Defined.

Lemma post_task_appends_one_row_witness :
  well_formed (store sample_pool)
  ∧ statusCode (answer Postgres (PostTask same_title) 300 sample_pool).1 = 201
  ∧ ∃ row,
      tasks (store (answer Postgres (PostTask same_title) 300 sample_pool).2)
      = [buy_milk; walk_dog; row]
      ∧ id row = 3 ∧ created_at row = 300.
Proof.
  split; [exact sample_ids_fresh|]. split; [reflexivity|].
  destruct (proj1 (post_task_appends_one_row Postgres same_title 300 sample_pool
                     sample_ids_fresh) eq_refl)
    as (row & _ & Ht & Hi & Hc & _).
  exists row. split; [exact Ht|]. split; [exact Hi | exact Hc].
Defined.

Lemma well_formed_fresh (db : database) :
  well_formed db → ∀ t, In t (tasks db) → id t ≠ next_id db.
Proof.
  unfold well_formed. rewrite List.Forall_forall. intros H t Ht.
  specialize (H t Ht). lia.
Qed.

Lemma filter_appended (n : Z) (l : list task) (row : task) :
  (∀ t, In t l → id t ≠ n) → id row = n →
  filter (λ t, has_id (Some n) t) (l ++ [row]) = [row]
  ∧ filter (λ t, negb (has_id (Some n) t)) (l ++ [row]) = l.
Proof.
  intros Hl Hrow. destruct (filter_id_absent _ _ Hl) as [H1 H2].
  rewrite !filter_app, H1, H2.
  rewrite filter_cons_True by (simpl; apply Is_true_true, Z.eqb_eq, Hrow).
  rewrite filter_cons_False.
  - split; [reflexivity | apply app_nil_r].
  - simpl. apply Z.eqb_eq in Hrow. rewrite Hrow. intros [].
Qed.

(** X6: a task that POST has created is there to GET: when POST is
    answered 201, a later GET with the id the counter stood at returns,
    with 200, the very task the POST returned. *)
Theorem post_then_get (d : dialect) (req_body : gmap string value) (id : string)
    (n : nat) (now later : Z) (p : pool) :
  well_formed (store p) →
  integer_id id n →
  Z.of_nat n = next_id (store p) →
  statusCode (answer d (PostTask req_body) now p).1 = 201 →
  ∃ row,
    property "data" (body (answer d (PostTask req_body) now p).1)
    = Some (JTask row)
    ∧ (answer d (GetTask id) later (answer d (PostTask req_body) now p).2).1
      = mkResponse 200 [("success", JBool true); ("data", JTask row)].
Proof.
  intros Hwf Hid Hn H201.
  destruct (answer_post_cases d req_body now p Hwf)
    as [[Hin _] | (row & Hon & Hrow & _ & _ & Hr & Hs)].
  { rewrite H201 in Hin. destruct Hin as [? | [? | []]]; discriminate. }
  exists row. rewrite Hr. split; [reflexivity|].
  destruct (answer d (PostTask req_body) now p) as [r q].
  cbn [fst snd] in *.
  assert (Hq : online (store q) = true) by (rewrite Hs; exact Hon).
  assert (Hf : filter (λ t, has_id (Some (Z.of_nat n)) t) (tasks (store q))
               = [row]).
  { rewrite Hs, Hn. cbn [tasks].
    apply filter_appended; [apply well_formed_fresh, Hwf | exact Hrow]. }
  destruct d; cbn [answer].
  - rewrite (mysql_get_task_online _ _ _ _ Hq Hid), Hf. reflexivity.
  - rewrite (postgres_get_task_online _ _ _ _ Hq Hid), Hf. reflexivity.
Qed.

Lemma post_then_get_witness :
  well_formed (store sample_pool)
  ∧ integer_id "3" 3
  ∧ Z.of_nat 3 = next_id (store sample_pool)
  ∧ statusCode (answer Mysql (PostTask same_title) 300 sample_pool).1 = 201
  ∧ ∃ row,
      (answer Mysql (GetTask "3") 400
         (answer Mysql (PostTask same_title) 300 sample_pool).2).1
      = mkResponse 200 [("success", JBool true); ("data", JTask row)].
Proof.
  split; [exact sample_ids_fresh|]. split; [reflexivity|].
  split; [reflexivity|]. split; [reflexivity|].
  destruct (post_then_get Mysql same_title "3" 3 300 400 sample_pool
              sample_ids_fresh eq_refl eq_refl eq_refl) as (row & _ & H).
  exists row. exact H.
Defined.

(** X7: deleting the task a POST has just created undoes the POST on the
    rows: after POST answered 201 and DELETE with the new id, the table
    holds the rows it held before (the id counter keeps its advance), and
    the DELETE is answered 200. *)
Theorem post_then_delete (d : dialect) (req_body : gmap string value)
    (id : string) (n : nat) (now later : Z) (p : pool) :
  well_formed (store p) →
  integer_id id n →
  Z.of_nat n = next_id (store p) →
  statusCode (answer d (PostTask req_body) now p).1 = 201 →
  let created := (answer d (PostTask req_body) now p).2 in
  statusCode (answer d (DeleteTask id) later created).1 = 200
  ∧ tasks (store (answer d (DeleteTask id) later created).2) = tasks (store p)
  ∧ next_id (store (answer d (DeleteTask id) later created).2)
    = next_id (store p) + 1.
Proof.
  intros Hwf Hid Hn H201 created. subst created.
  destruct (answer_post_cases d req_body now p Hwf)
    as [[Hin _] | (row & Hon & Hrow & _ & _ & Hr & Hs)].
  { rewrite H201 in Hin. destruct Hin as [? | [? | []]]; discriminate. }
  destruct (answer d (PostTask req_body) now p) as [r q].
  cbn [fst snd] in *.
  assert (Hq : online (store q) = true) by (rewrite Hs; exact Hon).
  destruct (filter_appended (Z.of_nat n) (tasks (store p)) row)
    as [Hhit' Hrest'];
    [rewrite Hn; apply well_formed_fresh, Hwf | congruence |].
  assert (Hhit : filter (λ t, has_id (Some (Z.of_nat n)) t) (tasks (store q))
                 = [row]) by (rewrite Hs; exact Hhit').
  assert (Hrest : filter (λ t, negb (has_id (Some (Z.of_nat n)) t))
                    (tasks (store q)) = tasks (store p))
    by (rewrite Hs; exact Hrest').
  destruct d; cbn [answer].
  - rewrite (mysql_delete_task_online _ _ _ _ Hq Hid), Hhit, Hrest.
    cbn [fst snd store tasks next_id statusCode]. rewrite Hs.
    repeat split; reflexivity.
  - rewrite (postgres_delete_task_online _ _ _ _ Hq Hid), Hhit, Hrest.
    cbn [fst snd store tasks next_id statusCode]. rewrite Hs.
    repeat split; reflexivity.
Qed.

Lemma post_then_delete_witness :
  well_formed (store sample_pool)
  ∧ integer_id "3" 3
  ∧ Z.of_nat 3 = next_id (store sample_pool)
  ∧ statusCode (answer Postgres (PostTask same_title) 300 sample_pool).1 = 201
  ∧ tasks (store (answer Postgres (DeleteTask "3") 400
                    (answer Postgres (PostTask same_title) 300 sample_pool).2).2)
    = tasks (store sample_pool).
Proof.
  split; [exact sample_ids_fresh|]. split; [reflexivity|].
  split; [reflexivity|]. split; [reflexivity|].
  destruct (post_then_delete Postgres same_title "3" 3 300 400 sample_pool
              sample_ids_fresh eq_refl eq_refl eq_refl) as (_ & H & _).
  exact H.
Defined.

(** ** The routes reach the table through the engine only *)

Lemma run_all_app (d : dialect) (now : Z) (sts sts' : list (statement * list value))
    (db : database) :
  run_all d now (sts ++ sts') db = run_all d now sts' (run_all d now sts db).
Proof. unfold run_all. apply fold_left_app. Qed.

Lemma through_ret {A : Type} (d : dialect) (a : A) :
  through_engine d (mret a : Async A).
Proof. intros now p. exists []. reflexivity. Qed.

Lemma through_bind {A B : Type} (d : dialect) (m : Async A) (k : A → Async B) :
  through_engine d m → (∀ a, through_engine d (k a)) →
  through_engine d (m ≫= k).
Proof.
  intros Hm Hk now p. destruct (Hm now p) as [sts Hs].
  unfold mbind, async_bind. destruct (m now p) as [[a|e] q]; simpl in *.
  - destruct (Hk a now q) as [sts' Hs']. exists (sts ++ sts').
    now rewrite run_all_app, <- Hs.
  - now exists sts.
Qed.

Lemma through_try_catch (d : dialect) (m : Async response)
    (on_error : string → response) :
  through_engine d m → through_engine d (try_catch m on_error).
Proof.
  intros Hm now p. destruct (Hm now p) as [sts Hs]. exists sts.
  unfold try_catch. now destruct (m now p) as [[r|e] q].
Qed.

Lemma mysql_query_through (sql : string) (values : list value) :
  through_engine Mysql (MySQL.query sql values).
Proof.
  intros now p. unfold MySQL.query.
  destruct (MySQL.parse sql) as [st|]; [|now exists []].
  exists [(st, values)]. simpl.
  now destruct (run Mysql st values now (store p)) as [[e|m] db'].
Qed.

Lemma postgres_query_through (sql : string) (values : list value) :
  through_engine Postgres (PostgreSQL.query sql values).
Proof.
  intros now p. unfold PostgreSQL.query.
  destruct (PostgreSQL.parse sql) as [st|]; [|now exists []].
  exists [(st, values)]. simpl.
  now destruct (run Postgres st values now (store p)) as [[e|m] db'].
Qed.

(** Follow the shape of a handler: [try], the awaited queries, the
    branches. *)
Ltac through query_through :=
  repeat first
    [ apply through_try_catch
    | apply through_ret
    | apply query_through
    | apply through_bind; [|intros ?]
    | match goal with
      | |- through_engine _ (if ?c then _ else _) => destruct c
      end ].

Lemma answer_through (d : dialect) (c : call) : through_engine d (answer d c).
Proof.
  destruct d, c as [|i|b|i b|i]; cbn [answer].
  - unfold MySQL.get_tasks. through mysql_query_through.
  - unfold MySQL.get_task. through mysql_query_through.
  - unfold MySQL.post_task. cbv zeta. through mysql_query_through.
  - unfold MySQL.put_task. cbv zeta.
    destruct (b !! "title"), (b !! "description"), (b !! "status");
      through mysql_query_through.
  - unfold MySQL.delete_task. through mysql_query_through.
  - unfold PostgreSQL.get_tasks. through postgres_query_through.
  - unfold PostgreSQL.get_task. through postgres_query_through.
  - unfold PostgreSQL.post_task. cbv zeta. through postgres_query_through.
  - unfold PostgreSQL.put_task. cbv zeta.
    destruct (b !! "title"), (b !! "description"), (b !! "status");
      through postgres_query_through.
  - unfold PostgreSQL.delete_task. through postgres_query_through.
Qed.

(** ** What every statement keeps *)

(** The rows after a statement, case by case. *)
Lemma run_rows (d : dialect) (st : statement) (values : list value) (now : Z)
    (db : database) :
  (run d st values now db).2 = db
  ∨ (∃ row, id row = next_id db ∧ created_at row = now
            ∧ updated_at row = now
            ∧ (run d st values now db).2
              = mkDatabase (tasks db ++ [row]) (next_id db + 1) (online db))
  ∨ (∃ cells k,
       (run d st values now db).2
       = mkDatabase (map (λ t, if has_id k t then update_row d cells now t else t)
                         (tasks db))
                    (next_id db) (online db))
  ∨ (∃ k, (run d st values now db).2
          = mkDatabase (filter (λ t, negb (has_id k t)) (tasks db))
                       (next_id db) (online db)).
Proof.
  unfold run. destruct (online db); cbn [negb]; [|now left].
  destruct st as [|pid|pt pd ps r|sets pid r|pid r].
  - now left.
  - destruct (values !! pid ≫= id_of_param d); now left.
  - destruct (values !! pt ≫= store_cell Title) as [[t|]|]; [|now left..].
    destruct (values !! pd ≫= store_cell Description) as [x|]; [|now left].
    destruct (values !! ps ≫= store_cell Status) as [y|]; [|now left].
    right; left. exists (mkTask (next_id db) t x y now now).
    repeat split; reflexivity.
  - destruct (resolve_sets sets values) as [cells|]; [|now left].
    destruct (values !! pid ≫= id_of_param d) as [k|]; [|now left].
    right; right; left. now exists cells, k.
  - destruct (values !! pid ≫= id_of_param d) as [k|]; [|now left].
    right; right; right. now exists k.
Qed.

Lemma update_row_stamps (d : dialect) (cells : list (column * option string))
    (now : Z) (t : task) :
  let u := update_row d cells now t in
  id u = id t ∧ created_at u = created_at t
  ∧ (updated_at u = updated_at t ∨ updated_at u = now).
Proof.
  destruct (update_row_kept d cells now t) as (Hi & Hc & _ & _ & _ & [-> | Hu]);
    simpl; auto.
Qed.

Lemma map_ids_updated (d : dialect) (cells : list (column * option string))
    (now : Z) (k : option Z) (l : list task) :
  map id (map (λ t, if has_id k t then update_row d cells now t else t) l)
  = map id l.
Proof.
  rewrite map_map. apply map_ext. intros t.
  destruct (has_id k t); [apply update_row_stamps | reflexivity].
Qed.

Lemma NoDup_ids_filter (f : task → bool) (l : list task) :
  NoDup (map id l) → NoDup (map id (filter (λ t, f t) l)).
Proof.
  induction l as [|t l IH]; intros H; [constructor|].
  apply NoDup_cons in H as [Hnot Hnd]. specialize (IH Hnd).
  destruct (f t) eqn:E.
  - rewrite filter_cons_True by (rewrite E; exact I).
    cbn [map]. apply NoDup_cons. split; [|exact IH].
    intros Hin. apply Hnot.
    apply list_elem_of_fmap in Hin as (u & Hu & Hin).
    apply list_elem_of_filter in Hin as [_ Hin].
    apply list_elem_of_fmap. now exists u.
  - rewrite filter_cons_False by (rewrite E; intros []). exact IH.
Qed.

Lemma run_sound_ids (d : dialect) (st : statement) (values : list value)
    (now : Z) (db : database) :
  sound_ids db → sound_ids (run d st values now db).2.
Proof.
  intros [Hnd Hwf]. unfold sound_ids, well_formed in *.
  destruct (run_rows d st values now db)
    as [-> | [(row & Hid & _ & _ & ->) | [(cells & k & ->) | (k & ->)]]];
    cbn [tasks next_id].
  - now split.
  - split.
    + rewrite map_app. cbn [map]. apply NoDup_app. split; [exact Hnd|].
      split; [|apply NoDup_singleton].
      intros x Hx Hrow. apply list_elem_of_singleton in Hrow. subst x.
      apply list_elem_of_fmap in Hx as (t & Ht & Hin).
      rewrite List.Forall_forall in Hwf.
      apply list_elem_of_In in Hin. specialize (Hwf t Hin). lia.
    + apply Forall_app. split.
      * eapply Forall_impl; [exact Hwf|]. simpl. intros; lia.
      * apply Forall_singleton. lia.
  - split.
    + now rewrite map_ids_updated.
    + apply Forall_map. eapply Forall_impl; [exact Hwf|]. simpl. intros t Ht.
      destruct (has_id k t); [|exact Ht].
      destruct (update_row_stamps d cells now t) as (-> & _). exact Ht.
  - split; [now apply NoDup_ids_filter|].
    rewrite List.Forall_forall in *. intros t Ht.
    apply list_elem_of_In, list_elem_of_filter in Ht as [_ Ht].
    apply Hwf, list_elem_of_In, Ht.
Qed.

Lemma run_stamped (d : dialect) (st : statement) (values : list value)
    (before now : Z) (db : database) :
  before <= now → stamped_by before db →
  stamped_by now (run d st values now db).2.
Proof.
  intros Hle H. unfold stamped_by in *.
  assert (H' : Forall (λ t, created_at t <= updated_at t ∧ updated_at t <= now)
                 (tasks db)).
  { eapply Forall_impl; [exact H|]. simpl. intros; lia. }
  destruct (run_rows d st values now db)
    as [-> | [(row & _ & Hc & Hu & ->) | [(cells & k & ->) | (k & ->)]]];
    cbn [tasks].
  - exact H'.
  - apply Forall_app. split; [exact H'|]. apply Forall_singleton. lia.
  - apply Forall_map. eapply Forall_impl; [exact H'|]. simpl. intros t Ht.
    destruct (has_id k t); [|exact Ht].
    destruct (update_row_stamps d cells now t) as (_ & -> & [-> | ->]); lia.
  - rewrite List.Forall_forall in *. intros t Ht.
    apply list_elem_of_In, list_elem_of_filter in Ht as [_ Ht].
    apply H', list_elem_of_In, Ht.
Qed.




Lemma run_all_sound_ids (d : dialect) (now : Z) (sts : list (statement * list value))
    (db : database) :
  sound_ids db → sound_ids (run_all d now sts db).
Proof.
  revert db. induction sts as [|[st vs] sts IH]; intros db H; [exact H|].
  apply IH, run_sound_ids, H.
Qed.

Lemma run_all_stamped (d : dialect) (before now : Z)
    (sts : list (statement * list value)) (db : database) :
  before <= now → stamped_by before db → stamped_by now (run_all d now sts db).
Proof.
  intros Hle H.
  assert (H0 : stamped_by now db).
  { eapply Forall_impl; [exact H|]. simpl. intros; lia. }
  clear H. revert db H0.
  induction sts as [|[st vs] sts IH]; intros db H; [exact H|].
  apply IH. apply (run_stamped d st vs now now db); [lia | exact H].
Qed.



(** X8: whatever calls a router answers, in whatever order and with
    whatever bodies, ids stay unique and below the counter: no route can
    store two tasks under one id. *)
Theorem replay_keeps_ids_unique (d : dialect) (cs : list (call * Z)) (p : pool) :
  sound_ids (store p) → sound_ids (store (replay d cs p)).
Proof.
  revert p. induction cs as [|[c now] cs IH]; intros p H; [exact H|].
  cbn [replay]. apply IH.
  destruct (answer_through d c now p) as [sts ->].
  apply run_all_sound_ids, H.
Qed.



(** ** Updating: refusals *)

(** X11: a PUT whose [status] is truthy and is not one of the three
    strings is answered 400 with the list of the allowed values by both
    routes, whatever the id and the other fields are, also when no task
    has that id; nothing is sent to the database. *)
Theorem put_invalid_status (id : string) (req_body : gmap string value)
    (now : Z) (p : pool) :
  truthy (req_body !! "status") = true →
  includes task_status (req_body !! "status") = false →
  MySQL.put_task id req_body now p
  = (mkResponse 400
       [("success", JBool false);
        ("error",
         JStr "Invalid status. Must be one of: pending, in_progress, completed")],
     p)
  ∧ PostgreSQL.put_task id req_body now p
    = (mkResponse 400
         [("success", JBool false);
          ("error",
           JStr "Invalid status. Must be one of: pending, in_progress, completed")],
       p).
Proof.
  intros Ht Hi. unfold MySQL.put_task, PostgreSQL.put_task, try_catch.
  change MySQL.validStatuses with task_status.
  change PostgreSQL.validStatuses with task_status.
  rewrite Ht, Hi. split; reflexivity.
Qed.

Lemma put_invalid_status_witness :
  truthy (bogus_status !! "status") = true
  ∧ includes task_status (bogus_status !! "status") = false
  ∧ statusCode (MySQL.put_task "9" bogus_status 300 sample_pool).1 = 400
  ∧ (PostgreSQL.put_task "9" bogus_status 300 sample_pool).2 = sample_pool.
Proof.
  split; [reflexivity|]. split; [reflexivity|].
  destruct (put_invalid_status "9" bogus_status 300 sample_pool eq_refl eq_refl)
    as [Hm Hp].
  rewrite Hm, Hp. split; reflexivity.
Defined.

Lemma map_update_absent (d : dialect) (cells : list (column * option string))
    (now n : Z) (l : list task) :
  (∀ t, In t l → id t ≠ n) →
  map (λ t, if has_id (Some n) t then update_row d cells now t else t) l = l.
Proof.
  intros H. rewrite <- (map_id l) at 2. apply map_ext_in. intros t Ht.
  simpl. apply H, Z.eqb_neq in Ht. now rewrite Ht.
Qed.

Lemma run_update_absent (d : dialect) (sets : list (column * nat)) (pid : nat)
    (returning : bool) (values : list value) (now : Z) (db : database) (n : Z) :
  values !! pid ≫= id_of_param d = Some (Some n) →
  (∀ t, In t (tasks db) → id t ≠ n) →
  (∃ m, run d (Update sets pid returning) values now db = (Rejected m, db))
  ∨ run d (Update sets pid returning) values now db
    = (Fulfilled (mkEffect [] 0 0), db).
Proof.
  intros Hk Hno. unfold run. rewrite Hk.
  destruct (online db) eqn:Hon; cbn [negb]; [|left; eauto].
  destruct (resolve_sets sets values) as [cells|]; [|left; eauto].
  right. rewrite (map_update_absent d cells now n _ Hno).
  destruct (filter_id_absent _ _ Hno) as [-> _].
  rewrite <- Hon, database_eta. now destruct returning.
Qed.

(** X12: a PUT with an integer id that no task has never succeeds and
    changes nothing: both routes answer 400, 404 or 500, and the table is
    as it was. *)
Theorem put_task_misses (i : string) (n : nat) (req_body : gmap string value)
    (now : Z) (p : pool) :
  integer_id i n →
  (∀ t, In t (tasks (store p)) → id t ≠ Z.of_nat n) →
  (In (statusCode (MySQL.put_task i req_body now p).1) [400; 404; 500]
   ∧ store (MySQL.put_task i req_body now p).2 = store p)
  ∧ (In (statusCode (PostgreSQL.put_task i req_body now p).1) [400; 404; 500]
     ∧ store (PostgreSQL.put_task i req_body now p).2 = store p).
Proof.
  intros Hid Hno.
  pose proof (id_of_param_integer Mysql i n Hid) as Hm.
  pose proof (id_of_param_integer Postgres i n Hid) as Hp.
  split.
  - unfold MySQL.put_task, try_catch, mbind, async_bind, MySQL.query.
    put_cases req_body; try (split; [simpl; tauto | reflexivity]).
    all: match goal with
         | |- context [run Mysql (Update ?sets ?pid ?r) ?vs ?nw ?db] =>
             destruct (run_update_absent Mysql sets pid r vs nw db _ Hm Hno)
               as [(m & ->) | ->]
         end; simpl; split; (simpl; tauto) || reflexivity.
  - unfold PostgreSQL.put_task, try_catch, mbind, async_bind, PostgreSQL.query.
    put_cases req_body; try (split; [simpl; tauto | reflexivity]).
    all: match goal with
         | |- context [run Postgres (Update ?sets ?pid ?r) ?vs ?nw ?db] =>
             destruct (run_update_absent Postgres sets pid r vs nw db _ Hp Hno)
               as [(m & ->) | ->]
         end; simpl; split; (simpl; tauto) || reflexivity.
Qed.

Lemma put_task_misses_witness :
  integer_id "9" 9
  ∧ (∀ t, In t (tasks (store sample_pool)) → id t ≠ Z.of_nat 9)
  ∧ In (statusCode (MySQL.put_task "9" complete_it 300 sample_pool).1)
       [400; 404; 500]
  ∧ store (PostgreSQL.put_task "9" complete_it 300 sample_pool).2
    = store sample_pool.
Proof.
  assert (Hno : ∀ t, In t (tasks (store sample_pool)) → id t ≠ Z.of_nat 9)
    by (intros t [<- | [<- | []]]; discriminate).
  split; [reflexivity|]. split; [exact Hno|].
  destruct (put_task_misses "9" 9 complete_it 300 sample_pool eq_refl Hno)
    as [[Hm _] [_ Hp]].
  split; [exact Hm | exact Hp].
Defined.

(** ** When the database cannot be reached *)

Lemma run_all_offline (d : dialect) (now : Z) (sts : list (statement * list value))
    (db : database) :
  online db = false → run_all d now sts db = db.
Proof.
  intros H. induction sts as [|[st vs] sts IH]; [reflexivity|].
  simpl. now rewrite (run_offline d st vs now db H).
Qed.

Lemma mysql_query_offline (sql : string) (values : list value) (now : Z) (p : pool) :
  online (store p) = false →
  ∃ m, MySQL.query sql values now p
       = (Rejected m, mkPool (store p) (issued p ++ [(sql, values)])).
Proof.
  intros H. unfold MySQL.query. destruct (MySQL.parse sql) as [st|]; [|eauto].
  rewrite (run_offline Mysql st values now _ H). eauto.
Qed.

Lemma postgres_query_offline (sql : string) (values : list value) (now : Z)
    (p : pool) :
  online (store p) = false →
  ∃ m, PostgreSQL.query sql values now p
       = (Rejected m, mkPool (store p) (issued p ++ [(sql, values)])).
Proof.
  intros H. unfold PostgreSQL.query.
  destruct (PostgreSQL.parse sql) as [st|]; [|eauto].
  rewrite (run_offline Postgres st values now _ H). eauto.
Qed.

(** X13: while the database cannot be reached no route succeeds and none
    changes the table: every call is answered with [success: false] and
    status 400 (a request refused before the pool is used) or 500, and
    reading or deleting is always answered 500. *)
Theorem offline_database_refuses (d : dialect) (c : call) (now : Z) (p : pool) :
  online (store p) = false →
  let r := (answer d c now p).1 in
  In (statusCode r) [400; 500]
  ∧ property "success" (body r) = Some (JBool false)
  ∧ store (answer d c now p).2 = store p
  ∧ match c with
    | ListTasks | GetTask _ | DeleteTask _ => statusCode r = 500
    | PostTask _ | PutTask _ _ => True
    end.
Proof.
  intros Hoff r. subst r.
  assert (Hs : store (answer d c now p).2 = store p).
  { destruct (answer_through d c now p) as [sts ->].
    now apply run_all_offline. }
  split; [|split; [|split; [exact Hs|]]]; clear Hs.
  all: destruct d, c as [|i|b|i b|i]; cbn [answer].
  all: unfold MySQL.get_tasks, MySQL.get_task, MySQL.post_task, MySQL.put_task,
         MySQL.delete_task, PostgreSQL.get_tasks, PostgreSQL.get_task,
         PostgreSQL.post_task, PostgreSQL.put_task, PostgreSQL.delete_task,
         try_catch, mbind, async_bind; cbv zeta.
  all: try (destruct (negb (truthy (b !! "title"))); [simpl; tauto|]).
  all: try (destruct (truthy (b !! "status") && negb _); [simpl; tauto|]).
  all: try (destruct (b !! "title"), (b !! "description"), (b !! "status");
            cbn [length Nat.eqb app]; try (simpl; tauto)).
  all: match goal with
       | |- context [MySQL.query ?sql ?vs ?n ?q] =>
           destruct (mysql_query_offline sql vs n q Hoff) as [m ->]
       | |- context [PostgreSQL.query ?sql ?vs ?n ?q] =>
           destruct (postgres_query_offline sql vs n q Hoff) as [m ->]
       | _ => idtac
       end; simpl; tauto.
Qed.

Lemma offline_database_refuses_witness :
  online (store offline_pool) = false
  ∧ statusCode (answer Postgres (DeleteTask "1") 300 offline_pool).1 = 500
  ∧ store (answer Postgres (DeleteTask "1") 300 offline_pool).2
    = store offline_pool.
Proof.
  split; [reflexivity|].
  destruct (offline_database_refuses Postgres (DeleteTask "1") 300 offline_pool
              eq_refl) as (_ & _ & Hs & Hc).
  split; [exact Hc | exact Hs].
Defined.

(** ** Reading *)

(** X14: the two reading routes never write: whatever the id is, and
    whether or not the database answers, the table and its counter are
    after the call what they were before, and exactly one query was
    issued. *)
Theorem reads_never_write (d : dialect) (id : string) (now : Z) (p : pool) :
  store (answer d ListTasks now p).2 = store p
  ∧ store (answer d (GetTask id) now p).2 = store p
  ∧ length (issued (answer d ListTasks now p).2) = S (length (issued p))
  ∧ length (issued (answer d (GetTask id) now p).2) = S (length (issued p)).
Proof.
  destruct d; cbn [answer];
    unfold MySQL.get_tasks, MySQL.get_task, PostgreSQL.get_tasks,
      PostgreSQL.get_task, try_catch, mbind, async_bind, mret, async_ret,
      MySQL.query, PostgreSQL.query;
    rewrite ?mysql_parse_select_all, ?mysql_parse_select_by_id,
      ?postgres_parse_select_all, ?postgres_parse_select_by_id;
    unfold run; destruct (online (store p)); cbn [negb].
  all: repeat match goal with
       | |- context [?vs !! 0%nat ≫= id_of_param ?d] =>
           destruct (vs !! 0%nat ≫= id_of_param d)
       end.
  all: repeat match goal with
       | |- context [bool_decide ?P] => destruct (bool_decide P)
       | |- context [(length ?l =? 0)%nat] => destruct (length l =? 0)%nat
       end.
  all: cbn [fst snd store issued]; rewrite ?length_app; cbn [length];
    repeat split; try reflexivity; lia.
Qed.

(** ** Updating a stored task *)

(** The two PUT routes once validation has passed and a field is supplied:
    the answer and the table, read off the UPDATE (and, on MySQL, the
    SELECT that follows it). *)
Lemma mysql_put_task_supplied (id : string) (req_body : gmap string value)
    (now : Z) (p : pool) :
  truthy (req_body !! "status")
    && negb (includes task_status (req_body !! "status")) = false →
  supplied req_body ≠ [] →
  ((MySQL.put_task id req_body now p).1, store (MySQL.put_task id req_body now p).2)
  = match run Mysql (Update (positions (supplied req_body))
                            (length (supplied req_body)) false)
                (map snd (supplied req_body) ++ [VStr id]) now (store p) with
    | (Fulfilled e, db') =>
        match affected e with
        | O => (MySQL.not_found, db')
        | S _ =>
            match run Mysql (SelectById 0) [VStr id] now db' with
            | (Fulfilled e', db'') =>
                (res_json 200
                   [("success", Some (JBool true));
                    ("data", JTask <$> head (selected e'));
                    ("message", Some (JStr "Task updated successfully"))], db'')
            | (Rejected m, db'') => (MySQL.failed "Failed to update task" m, db'')
            end
        end
    | (Rejected m, db') => (MySQL.failed "Failed to update task" m, db')
    end.
Proof.
  intros Hv Hne.
  unfold MySQL.put_task, try_catch, mbind, async_bind, MySQL.query.
  change MySQL.validStatuses with task_status. rewrite Hv.
  unfold supplied, positions in *. simpl in Hne |- *.
  destruct (req_body !! "title"), (req_body !! "description"),
    (req_body !! "status"); simpl in Hne |- *; try congruence.
  all: match goal with
       | |- context [run Mysql (Update ?sets ?pid ?r) ?vs ?n ?db] =>
           destruct (run Mysql (Update sets pid r) vs n db) as [[e|m] db'];
           simpl; [|reflexivity]
       end.
  all: destruct (affected e) as [|a];
    [rewrite bool_decide_eq_true_2 by reflexivity
    |rewrite bool_decide_eq_false_2 by (simpl; discriminate)]; simpl;
    [reflexivity|].
  all: match goal with
       | |- context [run Mysql (SelectById ?i) ?vs ?n ?db] =>
           destruct (run Mysql (SelectById i) vs n db) as [[e'|m'] db''];
           simpl; [|reflexivity]
       end.
  all: now destruct (selected e').
Qed.

Lemma postgres_put_task_supplied (id : string) (req_body : gmap string value)
    (now : Z) (p : pool) :
  truthy (req_body !! "status")
    && negb (includes task_status (req_body !! "status")) = false →
  supplied req_body ≠ [] →
  ((PostgreSQL.put_task id req_body now p).1,
   store (PostgreSQL.put_task id req_body now p).2)
  = match run Postgres (Update (positions (supplied req_body))
                               (length (supplied req_body)) true)
                (map snd (supplied req_body) ++ [VStr id]) now (store p) with
    | (Fulfilled e, db') =>
        match selected e with
        | [] => (PostgreSQL.not_found, db')
        | u :: _ =>
            (res_json 200
               [("success", Some (JBool true));
                ("data", Some (JTask u));
                ("message", Some (JStr "Task updated successfully"))], db')
        end
    | (Rejected m, db') => (PostgreSQL.failed "Failed to update task" m, db')
    end.
Proof.
  intros Hv Hne.
  unfold PostgreSQL.put_task, try_catch, mbind, async_bind, PostgreSQL.query.
  change PostgreSQL.validStatuses with task_status. rewrite Hv.
  unfold supplied, positions in *. simpl in Hne |- *.
  destruct (req_body !! "title"), (req_body !! "description"),
    (req_body !! "status"); simpl in Hne |- *; try congruence.
  all: match goal with
       | |- context [run Postgres (Update ?sets ?pid ?r) ?vs ?n ?db] =>
           destruct (run Postgres (Update sets pid r) vs n db) as [[e|m] db'];
           simpl; [|reflexivity]
       end.
  all: now destruct (selected e).
Qed.

(** A PUT that is not answered 400 passed validation and supplies a
    field. *)
Lemma put_task_validated (d : dialect) (id : string) (req_body : gmap string value)
    (now : Z) (p : pool) :
  statusCode (answer d (PutTask id req_body) now p).1 ≠ 400 →
  truthy (req_body !! "status")
    && negb (includes task_status (req_body !! "status")) = false
  ∧ supplied req_body ≠ [].
Proof.
  intros H.
  destruct (truthy (req_body !! "status")
            && negb (includes task_status (req_body !! "status"))) eqn:Hv.
  { exfalso. apply H. destruct d; cbn [answer];
      unfold MySQL.put_task, PostgreSQL.put_task, try_catch;
      change MySQL.validStatuses with task_status;
      change PostgreSQL.validStatuses with task_status;
      now rewrite Hv. }
  split; [reflexivity|]. intros Hs. apply H.
  unfold supplied in Hs. simpl in Hs.
  destruct d; cbn [answer];
    unfold MySQL.put_task, PostgreSQL.put_task, try_catch;
    change MySQL.validStatuses with task_status;
    change PostgreSQL.validStatuses with task_status;
    rewrite Hv;
    destruct (req_body !! "title"), (req_body !! "description"),
      (req_body !! "status"); simpl in Hs; try discriminate Hs; reflexivity.
Qed.

(** The cells an UPDATE of the supplied fields assigns are the stored
    forms of the supplied values, column by column. *)
Lemma resolve_positions (pre : list value) (l : list (column * value))
    (rest : list value) (cells : list (column * option string)) :
  resolve_sets (imap (λ i cv, (cv.1, (length pre + i)%nat)) l)
               (pre ++ map snd l ++ rest) = Some cells →
  Forall2 (λ cv cx, cx.1 = cv.1 ∧ store_cell cv.1 cv.2 = Some cx.2) l cells.
Proof.
  revert pre cells. induction l as [|[c v] l IH]; intros pre cells; simpl.
  - intros [= <-]. constructor.
  - rewrite Nat.add_0_r, lookup_app_r, Nat.sub_diag by lia. simpl.
    destruct (store_cell c v) as [x|] eqn:Ex; [|discriminate].
    destruct (resolve_sets _ _) as [cells'|] eqn:E; [|discriminate].
    intros [= <-]. constructor; [now split|].
    apply (IH (pre ++ [v])). rewrite <- E, <- app_assoc. simpl.
    f_equal. apply imap_ext. intros i cv _. simpl.
    rewrite length_app. simpl. f_equal. lia.
Qed.

Lemma supplied_cells (req_body : gmap string value) (id : string)
    (cells : list (column * option string)) :
  resolve_sets (positions (supplied req_body))
               (map snd (supplied req_body) ++ [VStr id]) = Some cells →
  Forall2 (λ cv cx, cx.1 = cv.1 ∧ store_cell cv.1 cv.2 = Some cx.2)
          (supplied req_body) cells.
Proof. apply (resolve_positions [] (supplied req_body) [VStr id] cells). Qed.

Lemma supplied_id (d : dialect) (l : list (column * value)) (id : string) :
  (map snd l ++ [VStr id]) !! length l ≫= id_of_param d = id_of_param d (VStr id).
Proof.
  rewrite lookup_app_r by (rewrite length_map; lia).
  now rewrite length_map, Nat.sub_diag.
Qed.



(** What an answer 200 of a PUT route tells: the engine accepted the
    supplied values as [cells], the first row under the id after the
    UPDATE is the task returned, and the table is the old one with the
    rows under the id updated. *)
Lemma put_task_succeeds (d : dialect) (id : string) (req_body : gmap string value)
    (now : Z) (p : pool) :
  statusCode (answer d (PutTask id req_body) now p).1 = 200 →
  ∃ k cells u rest,
    online (store p) = true
    ∧ id_of_param d (VStr id) = Some k
    ∧ Forall2 (λ cv cx, cx.1 = cv.1 ∧ store_cell cv.1 cv.2 = Some cx.2)
              (supplied req_body) cells
    ∧ filter (λ t, has_id k t)
        (map (λ t, if has_id k t then update_row d cells now t else t)
             (tasks (store p))) = u :: rest
    ∧ (answer d (PutTask id req_body) now p).1
      = mkResponse 200 [("success", JBool true);
                        ("data", JTask u);
                        ("message", JStr "Task updated successfully")]
    ∧ store (answer d (PutTask id req_body) now p).2
      = mkDatabase (map (λ t, if has_id k t then update_row d cells now t else t)
                        (tasks (store p)))
                   (next_id (store p)) (online (store p)).
Proof.
  intros H200.
  destruct (put_task_validated d id req_body now p) as [Hv Hne];
    [rewrite H200; discriminate|].
  destruct d; cbn [answer] in *.
  - pose proof (mysql_put_task_supplied id req_body now p Hv Hne) as E.
    destruct (MySQL.put_task id req_body now p) as [r q]. cbn [fst snd] in *.
    revert E. unfold run at 1. rewrite supplied_id.
    destruct (online (store p)) eqn:Hon; cbn [negb];
      [|intros [= -> _]; discriminate H200].
    destruct (resolve_sets _ _) as [cells|] eqn:Er;
      [|intros [= -> _]; discriminate H200].
    destruct (id_of_param Mysql (VStr id)) as [k|] eqn:Hk;
      [|intros [= -> _]; discriminate H200].
    cbn [affected].
    pose proof (filter_updated Mysql cells now k (tasks (store p))) as Hlen.
    destruct (length (filter (λ t, has_id k t) (tasks (store p)))) as [|a];
      [intros [= -> _]; discriminate H200|].
    rewrite (run_select_by_id Mysql (VStr id) k now); [|reflexivity|exact Hk].
    cbn [selected tasks].
    destruct (filter _ (map _ (tasks (store p)))) as [|u rest] eqn:Hf;
      [discriminate Hlen|].
    intros [= -> ->]. exists k, cells, u, rest.
    repeat split; try reflexivity; [|exact Hf]. now apply (supplied_cells _ id).
  - pose proof (postgres_put_task_supplied id req_body now p Hv Hne) as E.
    destruct (PostgreSQL.put_task id req_body now p) as [r q].
    cbn [fst snd] in *.
    revert E. unfold run at 1. rewrite supplied_id.
    destruct (online (store p)) eqn:Hon; cbn [negb];
      [|intros [= -> _]; discriminate H200].
    destruct (resolve_sets _ _) as [cells|] eqn:Er;
      [|intros [= -> _]; discriminate H200].
    destruct (id_of_param Postgres (VStr id)) as [k|] eqn:Hk;
      [|intros [= -> _]; discriminate H200].
    cbn [selected].
    destruct (filter _ (map _ (tasks (store p)))) as [|u rest] eqn:Hf;
      [intros [= -> _]; discriminate H200|].
    intros [= -> ->]. exists k, cells, u, rest.
    repeat split; try reflexivity; [|exact Hf]. now apply (supplied_cells _ id).
Qed.

Lemma apply_sets_other (cells : list (column * option string)) (c : column)
    (t : task) :
  ¬ In c (map fst cells) → cell c (apply_sets cells t) = cell c t.
Proof.
  unfold apply_sets. revert t.
  induction cells as [|[c' x] cells IH]; intros t H; [reflexivity|].
  simpl in *. rewrite IH by tauto.
  destruct c, c'; simpl; try reflexivity; exfalso; apply H; now left.
Qed.

Lemma apply_sets_cell (cells : list (column * option string)) (c : column)
    (x : option string) (t : task) :
  NoDup (map fst cells) → In (c, x) cells → (c = Title → is_Some x) →
  cell c (apply_sets cells t) = x.
Proof.
  unfold apply_sets. revert t.
  induction cells as [|[c' y] cells IH]; intros t Hnd Hin Htitle; [destruct Hin|].
  cbn [map fst] in Hnd. apply NoDup_cons in Hnd as [Hnot Hnd].
  destruct Hin as [[= -> ->] | Hin].
  - simpl. change (fold_left _ cells ?u) with (apply_sets cells u).
    rewrite apply_sets_other by (now rewrite <- list_elem_of_In).
    destruct c; simpl; try reflexivity.
    destruct (Htitle eq_refl) as [s ->]. reflexivity.
  - simpl. now apply IH.
Qed.

Lemma same_cells_cell (t u : task) (c : column) :
  same_cells t u = true → cell c t = cell c u.
Proof.
  unfold same_cells. rewrite !andb_true_iff. intros [[Ht Hd] Hs].
  apply String.eqb_eq in Ht.
  assert (O : ∀ a b, option_string_eqb a b = true → a = b).
  { intros [a|] [b|]; simpl; try discriminate; [|reflexivity].
    now intros ->%String.eqb_eq. }
  apply O in Hd, Hs. destruct c; simpl; congruence.
Qed.

Lemma update_row_cell (d : dialect) (cells : list (column * option string))
    (now : Z) (c : column) (x : option string) (t : task) :
  NoDup (map fst cells) → In (c, x) cells → (c = Title → is_Some x) →
  cell c (update_row d cells now t) = x.
Proof.
  intros Hnd Hin Htitle.
  pose proof (apply_sets_cell cells c x t Hnd Hin Htitle) as H.
  assert (T : cell c (touch now (apply_sets cells t)) = x)
    by (rewrite <- H; now destruct c).
  unfold update_row. destruct d; [|exact T].
  destruct (same_cells t (apply_sets cells t)) eqn:E; [|exact T].
  now rewrite (same_cells_cell _ _ c E).
Qed.








(** ** Starting the server, and errors outside the routes *)

(** X17: [startServer] listens exactly when the PostgreSQL probe
    succeeds, whatever MySQL answers and whatever the mode is; otherwise
    the process ends with code 1.  A server that listens reports itself
    healthy exactly when it runs in production or MySQL answers too. *)
Theorem server_starts_with_postgres (NODE_ENV : option string) (timestamp : string)
    (mysqlDb postgresDb : pool) :
  (Index.startServer NODE_ENV mysqlDb postgresDb = Index.Listening
   ↔ PostgreSQL.testConnection postgresDb = true)
  ∧ (Index.startServer NODE_ENV mysqlDb postgresDb ≠ Index.Listening
     ↔ Index.startServer NODE_ENV mysqlDb postgresDb = Index.Exited 1)
  ∧ (Index.startServer NODE_ENV mysqlDb postgresDb = Index.Listening →
     (statusCode (Index.get_health NODE_ENV timestamp mysqlDb postgresDb) = 200
      ↔ NODE_ENV = Some "production" ∨ MySQL.testConnection mysqlDb = true)).
Proof.
  unfold Index.startServer, Index.get_health.
  destruct (PostgreSQL.testConnection postgresDb); cbn [negb].
  - split; [tauto|]. split; [split; intros H; [now destruct H | discriminate]|].
    intros _. case_bool_decide as Hp; simpl.
    + tauto.
    + destruct (MySQL.testConnection mysqlDb); simpl;
        split; try discriminate; auto.
      intros [H|H]; [contradiction | discriminate].
  - split; [split; discriminate|]. split; [|discriminate].
    split; [reflexivity | discriminate].
Qed.

(** X18: for an error that carries no status, or an error status (400 to
    599), the global error handler answers with that status, 500 when
    there is none, and with [success: false] and the fixed text; the
    message and the stack of the error are in the body exactly when
    [NODE_ENV] is [development]: not when it is unset, although the
    health route then reports the environment as [development]. *)
Theorem error_handler_hides_diagnostics (NODE_ENV : option string)
    (err : Index.error) :
  400 <= default 500 (Index.err_status err) <= 599 →
  ∃ r,
    Index.error_handler NODE_ENV err = Some r
    ∧ statusCode r = default 500 (Index.err_status err)
    ∧ property "success" (body r) = Some (JBool false)
    ∧ property "error" (body r) = Some (JStr "Internal server error")
    ∧ (NODE_ENV = Some "development" →
       property "message" (body r) = Some (JStr (Index.err_message err))
       ∧ property "stack" (body r) = Some (JStr (Index.err_stack err)))
    ∧ (NODE_ENV ≠ Some "development" → fields r = ["success"; "error"])
    ∧ (NODE_ENV = None →
       Index.environment NODE_ENV = "development"
       ∧ fields r = ["success"; "error"]).
Proof.
  intros Hcode. unfold Index.error_handler. cbv zeta.
  assert (E : match Index.err_status err with
              | Some n => if n =? 0 then 500 else n
              | None => 500
              end = default 500 (Index.err_status err)).
  { destruct (Index.err_status err) as [n|]; [|reflexivity]. simpl in *.
    destruct (Z.eqb_spec n 0); [lia | reflexivity]. }
  rewrite E.
  replace ((400 <=? default 500 (Index.err_status err))
           && (default 500 (Index.err_status err) <=? 599)) with true
    by (symmetry; apply andb_true_iff; split; apply Z.leb_le; lia).
  eexists. split; [reflexivity|].
  case_bool_decide as Hd; simpl.
  - repeat split; intros; try reflexivity; try contradiction; subst;
      discriminate.
  - repeat split; intros; try reflexivity; try contradiction; subst;
      reflexivity.
Qed.

Lemma error_handler_hides_diagnostics_witness :
  400 <= default 500 (Index.err_status (Index.mkError (Some 404) "gone" "at app"))
      <= 599
  ∧ ∃ r,
      Index.error_handler None (Index.mkError (Some 404) "gone" "at app") = Some r
      ∧ statusCode r = 404
      ∧ fields r = ["success"; "error"].
Proof.
  assert (H : 400 <= default 500
                       (Index.err_status (Index.mkError (Some 404) "gone" "at app"))
              <= 599) by (simpl; lia).
  split; [exact H|].
  destruct (error_handler_hides_diagnostics None
              (Index.mkError (Some 404) "gone" "at app") H)
    as (r & Hr & Hc & _ & _ & _ & _ & Hn).
  exists r. split; [exact Hr|]. split; [exact Hc|]. now apply Hn.
Defined.

Lemma replay_keeps_ids_unique_witness :
  sound_ids (store sample_pool)
  ∧ sound_ids
      (store (replay Mysql [(PostTask same_title, 300); (DeleteTask "1", 400)]
                sample_pool)).
Proof.
  assert (H : sound_ids (store sample_pool))
    by (split; [exact sample_ids_distinct | exact sample_ids_fresh]).
  split; [exact H|].
  exact (replay_keeps_ids_unique Mysql
           [(PostTask same_title, 300); (DeleteTask "1", 400)] sample_pool H).
Defined.


(** ** The enumeration of the status, over every call *)

Lemma reads_keep_store (d : dialect) (c : call) (now : Z) (p : pool) :
  match c with ListTasks | GetTask _ => True | _ => False end →
  store (answer d c now p).2 = store p.
Proof.
  destruct d, c as [|i|b|i b|i]; intros []; cbn [answer];
    unfold MySQL.get_tasks, MySQL.get_task, PostgreSQL.get_tasks,
      PostgreSQL.get_task, try_catch, mbind, async_bind, mret, async_ret,
      MySQL.query, PostgreSQL.query;
    rewrite ?mysql_parse_select_all, ?mysql_parse_select_by_id,
      ?postgres_parse_select_all, ?postgres_parse_select_by_id;
    unfold run; destruct (online (store p)); cbn [negb].
  all: repeat match goal with
       | |- context [?vs !! 0%nat ≫= id_of_param ?d] =>
           destruct (vs !! 0%nat ≫= id_of_param d)
       end.
  all: repeat match goal with
       | |- context [bool_decide ?P] => destruct (bool_decide P)
       | |- context [(length ?l =? 0)%nat] => destruct (length l =? 0)%nat
       end.
  all: reflexivity.
Qed.




(** ** Requests that fail *)

Lemma run_rejected (d : dialect) (st : statement) (values : list value) (now : Z)
    (db db' : database) (m : string) :
  run d st values now db = (Rejected m, db') → db' = db.
Proof.
  unfold run. destruct (online db); cbn [negb]; [|now intros [= _ <-]].
  destruct st as [|pid|pt pd ps r|sets pid r|pid r].
  - discriminate.
  - destruct (values !! pid ≫= id_of_param d); [discriminate | now intros [= _ <-]].
  - destruct (values !! pt ≫= store_cell Title) as [[t|]|];
      [|now intros [= _ <-]..].
    destruct (values !! pd ≫= store_cell Description) as [x|];
      [|now intros [= _ <-]].
    destruct (values !! ps ≫= store_cell Status) as [y|];
      [discriminate | now intros [= _ <-]].
  - destruct (resolve_sets sets values) as [cells|]; [|now intros [= _ <-]].
    destruct (values !! pid ≫= id_of_param d) as [k|];
      [discriminate | now intros [= _ <-]].
  - destruct (values !! pid ≫= id_of_param d) as [k|];
      [discriminate | now intros [= _ <-]].
Qed.

Lemma filter_none_absent (k : option Z) (l : list task) :
  filter (λ t, has_id k t) l = [] →
  map (λ t, if has_id k t then t else t) l = l
  ∧ ∀ t, In t l → has_id k t = false.
Proof.
  intros H. split; [rewrite <- (map_id l) at 2; apply map_ext; intros t;
                    now destruct (has_id k t)|].
  intros t Ht. destruct (has_id k t) eqn:E; [|reflexivity].
  assert (Hin : t ∈ filter (λ t, has_id k t) l).
  { apply list_elem_of_filter. split; [now rewrite E | now apply list_elem_of_In]. }
  rewrite H in Hin. now apply not_elem_of_nil in Hin.
Qed.

Lemma untouched_rows (d : dialect) (cells : list (column * option string))
    (now : Z) (k : option Z) (l : list task) :
  filter (λ t, has_id k t) l = [] →
  map (λ t, if has_id k t then update_row d cells now t else t) l = l
  ∧ filter (λ t, negb (has_id k t)) l = l.
Proof.
  intros H. destruct (filter_none_absent k l H) as [_ Hno]. split.
  - rewrite <- (map_id l) at 2. apply map_ext_in. intros t Ht.
    now rewrite (Hno t Ht).
  - clear H. induction l as [|t l IH]; [reflexivity|].
    rewrite filter_cons_True
      by (simpl; rewrite (Hno t (or_introl eq_refl)); exact I).
    f_equal. apply IH. intros u Hu. apply Hno. now right.
Qed.

Lemma length_zero_nil {A : Type} (l : list A) : length l = 0%nat → l = [].
Proof. now destruct l. Qed.

(** A PUT that is not answered 200 leaves the table as it is. *)
Lemma put_task_fails (d : dialect) (i : string) (req_body : gmap string value)
    (now : Z) (p : pool) :
  statusCode (answer d (PutTask i req_body) now p).1 ≠ 200 →
  store (answer d (PutTask i req_body) now p).2 = store p.
Proof.
  intros H.
  destruct (truthy (req_body !! "status")
            && negb (includes task_status (req_body !! "status"))) eqn:Hv.
  { destruct d; cbn [answer];
      unfold MySQL.put_task, PostgreSQL.put_task, try_catch;
      change MySQL.validStatuses with task_status;
      change PostgreSQL.validStatuses with task_status;
      now rewrite Hv. }
  destruct (supplied req_body) as [|cv l] eqn:Hs.
  { unfold supplied in Hs. simpl in Hs.
    destruct d; cbn [answer];
      unfold MySQL.put_task, PostgreSQL.put_task, try_catch;
      change MySQL.validStatuses with task_status;
      change PostgreSQL.validStatuses with task_status;
      rewrite Hv;
      destruct (req_body !! "title"), (req_body !! "description"),
        (req_body !! "status"); simpl in Hs; try discriminate Hs; reflexivity. }
  assert (Hne : supplied req_body ≠ []) by (rewrite Hs; discriminate).
  clear Hs cv l.
  destruct d; cbn [answer] in *.
  - pose proof (mysql_put_task_supplied i req_body now p Hv Hne) as E.
    destruct (MySQL.put_task i req_body now p) as [r q]. cbn [fst snd] in *.
    revert E. unfold run at 1. rewrite supplied_id.
    destruct (online (store p)) eqn:Hon; cbn [negb]; [|now intros [= _ ->]].
    destruct (resolve_sets _ _) as [cells|]; [|now intros [= _ ->]].
    destruct (id_of_param Mysql (VStr i)) as [k|] eqn:Hk; [|now intros [= _ ->]].
    cbn [affected].
    destruct (length (filter (λ t, has_id k t) (tasks (store p)))) as [|a] eqn:Hl.
    + intros [= _ ->]. apply length_zero_nil in Hl.
      destruct (untouched_rows Mysql cells now k _ Hl) as [Hm _].
      transitivity (mkDatabase (tasks (store p)) (next_id (store p))
                               (online (store p)));
        [rewrite Hon; f_equal; exact Hm | apply database_eta].
    + rewrite (run_select_by_id Mysql (VStr i) k now); [|reflexivity|exact Hk].
      intros [= -> _]. exfalso. apply H.
      cbn [selected tasks]. now destruct (filter _ (map _ _)).
  - pose proof (postgres_put_task_supplied i req_body now p Hv Hne) as E.
    destruct (PostgreSQL.put_task i req_body now p) as [r q].
    cbn [fst snd] in *. revert E. unfold run at 1. rewrite supplied_id.
    destruct (online (store p)) eqn:Hon; cbn [negb]; [|now intros [= _ ->]].
    destruct (resolve_sets _ _) as [cells|]; [|now intros [= _ ->]].
    destruct (id_of_param Postgres (VStr i)) as [k|] eqn:Hk;
      [|now intros [= _ ->]].
    cbn [selected].
    destruct (filter _ (map _ _)) as [|u rest] eqn:Hf;
      [|intros [= -> _]; exfalso; apply H; reflexivity].
    intros [= _ ->].
    assert (Hl : filter (λ t, has_id k t) (tasks (store p)) = []).
    { apply length_zero_nil.
      rewrite <- (filter_updated Postgres cells now k).
      change (length (filter (λ t, has_id k t)
                (map (λ t, if has_id k t then update_row Postgres cells now t
                           else t) (tasks (store p)))) = 0%nat).
      now rewrite Hf. }
    destruct (untouched_rows Postgres cells now k _ Hl) as [Hm _].
    transitivity (mkDatabase (tasks (store p)) (next_id (store p))
                             (online (store p)));
      [rewrite Hon; f_equal; exact Hm | apply database_eta].
Qed.

(** A DELETE that is not answered 200 leaves the table as it is. *)
Lemma delete_task_fails (d : dialect) (i : string) (now : Z) (p : pool) :
  statusCode (answer d (DeleteTask i) now p).1 ≠ 200 →
  store (answer d (DeleteTask i) now p).2 = store p.
Proof.
  destruct d; cbn [answer];
    unfold MySQL.delete_task, PostgreSQL.delete_task, try_catch, mbind,
      async_bind, mret, async_ret, MySQL.query, PostgreSQL.query;
    rewrite ?mysql_parse_delete, ?postgres_parse_delete;
    unfold run; destruct (online (store p)) eqn:Hon; cbn [negb];
    try reflexivity.
  all: match goal with
       | |- context [?vs !! 0%nat ≫= id_of_param ?d] =>
           destruct (vs !! 0%nat ≫= id_of_param d) as [k|]
       end; cbn [fst snd store]; try reflexivity.
  all: destruct (filter (λ t, has_id k t) (tasks (store p))) as [|u l] eqn:Hf;
    cbn [length MySQL.shape PostgreSQL.shape].
  all: try (intros H; exfalso; apply H; simpl;
            rewrite ?bool_decide_eq_false_2 by (simpl; discriminate);
            reflexivity).
  all: intros _; simpl; destruct (untouched_rows Mysql [] now k _ Hf) as [_ Hr];
    rewrite Hr, <- Hon; apply database_eta.
Qed.

(** A POST that is not answered 201 leaves the table as it is. *)
Lemma post_task_fails (d : dialect) (req_body : gmap string value) (now : Z)
    (p : pool) :
  statusCode (answer d (PostTask req_body) now p).1 ≠ 201 →
  store (answer d (PostTask req_body) now p).2 = store p.
Proof.
  destruct d; cbn [answer].
  - unfold MySQL.post_task, try_catch, mbind, async_bind, MySQL.query.
    rewrite mysql_parse_insert, mysql_parse_select_by_id.
    cbv zeta. destruct (truthy (req_body !! "title")); simpl; [|reflexivity].
    destruct (truthy (req_body !! "status") && negb _); simpl; [reflexivity|].
    match goal with
    | |- context [run Mysql (Insert 0 1 2 false) ?vs ?n ?db] =>
        destruct (run_insert_cases Mysql false vs n db)
          as [(m & ->) | (row & Hon & _ & _ & _ & ->)]
    end; simpl; [reflexivity|].
    rewrite run_select_by_number by exact Hon. simpl.
    intros H. exfalso. apply H. reflexivity.
  - unfold PostgreSQL.post_task, try_catch, mbind, async_bind, PostgreSQL.query.
    rewrite postgres_parse_insert.
    cbv zeta. destruct (truthy (req_body !! "title")); simpl; [|reflexivity].
    destruct (truthy (req_body !! "status") && negb _); simpl; [reflexivity|].
    match goal with
    | |- context [run Postgres (Insert 0 1 2 true) ?vs ?n ?db] =>
        destruct (run_insert_cases Postgres true vs n db)
          as [(m & ->) | (row & Hon & _ & _ & _ & ->)]
    end; simpl; [reflexivity|].
    intros H. exfalso. apply H. reflexivity.
Qed.

(** X22: a call that is answered 400 or 404 has changed nothing: whatever
    the route, the id and the body are, the table and its counter are
    after the call what they were before. *)
Theorem refused_calls_change_nothing (d : dialect) (c : call) (now : Z) (p : pool) :
  In (statusCode (answer d c now p).1) [400; 404] →
  store (answer d c now p).2 = store p.
Proof.
  intros H.
  assert (H200 : statusCode (answer d c now p).1 ≠ 200)
    by (intros E; rewrite E in H; destruct H as [? | [? | []]]; discriminate).
  assert (H201 : statusCode (answer d c now p).1 ≠ 201)
    by (intros E; rewrite E in H; destruct H as [? | [? | []]]; discriminate).
  destruct c as [|i|b|i b|i].
  - exact (reads_keep_store d ListTasks now p I).
  - exact (reads_keep_store d (GetTask i) now p I).
  - now apply post_task_fails.
  - now apply put_task_fails.
  - now apply delete_task_fails.
Qed.

Lemma refused_calls_change_nothing_witness :
  In (statusCode (answer Mysql (PutTask "9" complete_it) 300 sample_pool).1)
     [400; 404]
  ∧ store (answer Mysql (PutTask "9" complete_it) 300 sample_pool).2
    = store sample_pool.
Proof.
  assert (H : In (statusCode
                    (answer Mysql (PutTask "9" complete_it) 300 sample_pool).1)
                 [400; 404]) by (right; left; reflexivity).
  split; [exact H|].
  exact (refused_calls_change_nothing Mysql (PutTask "9" complete_it) 300
           sample_pool H).
Defined.

(** ** The list after a write *)

Lemma insert_desc_map (f : task → task) (t : task) (l : list task) :
  (∀ u, created_at (f u) = created_at u) →
  insert_desc (f t) (map f l) = map f (insert_desc t l).
Proof.
  intros Hf. induction l as [|u l IH]; [reflexivity|].
  simpl. rewrite !Hf. destruct (created_at u <=? created_at t); [reflexivity|].
  simpl. now rewrite IH.
Qed.

Lemma order_by_map (f : task → task) (l : list task) :
  (∀ u, created_at (f u) = created_at u) →
  order_by_created_at_desc (map f l) = map f (order_by_created_at_desc l).
Proof.
  intros Hf. induction l as [|t l IH]; [reflexivity|].
  simpl. now rewrite IH, insert_desc_map.
Qed.

Lemma filter_insert_desc (f : task → bool) (t : task) (l : list task) :
  StronglySorted newest_first l →
  filter (λ u, f u) (insert_desc t l)
  = if f t then insert_desc t (filter (λ u, f u) l) else filter (λ u, f u) l.
Proof.
  induction 1 as [|u l Hs IH Hall]; simpl.
  - destruct (f t) eqn:E.
    + now rewrite filter_cons_True by (rewrite E; exact I).
    + now rewrite filter_cons_False by (rewrite E; intros []).
  - destruct (created_at u <=? created_at t) eqn:Hle.
    + destruct (f t) eqn:E.
      * rewrite filter_cons_True by (rewrite E; exact I).
        assert (G : ∀ s, Forall (λ w, created_at w <= created_at t) s →
                         insert_desc t (filter (λ u, f u) s)
                         = t :: filter (λ u, f u) s).
        { intros s Hsm. induction Hsm as [|w s Hw _ IHs]; [reflexivity|].
          destruct (f w) eqn:Ew.
          - rewrite filter_cons_True by (rewrite Ew; exact I). simpl.
            apply Z.leb_le in Hw. now rewrite Hw.
          - rewrite filter_cons_False by (rewrite Ew; intros []). exact IHs. }
        rewrite G; [reflexivity|].
        apply Z.leb_le in Hle. constructor; [exact Hle|].
        eapply List.Forall_impl; [|exact Hall].
        unfold newest_first. intros w Hw. lia.
      * now rewrite filter_cons_False by (rewrite E; intros []).
    + destruct (f u) eqn:Eu.
      * rewrite !filter_cons_True by (rewrite Eu; exact I). rewrite IH.
        destruct (f t); [|reflexivity]. simpl. now rewrite Hle.
      * rewrite !filter_cons_False by (rewrite Eu; intros []). exact IH.
Qed.

Lemma order_by_filter (f : task → bool) (l : list task) :
  order_by_created_at_desc (filter (λ u, f u) l)
  = filter (λ u, f u) (order_by_created_at_desc l).
Proof.
  induction l as [|t l IH]; [reflexivity|].
  simpl. rewrite filter_insert_desc by apply order_by_sorted.
  destruct (f t) eqn:E.
  - rewrite filter_cons_True by (rewrite E; exact I). simpl. now rewrite IH.
  - rewrite filter_cons_False by (rewrite E; intros []). exact IH.
Qed.

Lemma order_by_app_newest (row : task) (l : list task) :
  Forall (λ t, created_at t < created_at row) l →
  order_by_created_at_desc (l ++ [row]) = row :: order_by_created_at_desc l.
Proof.
  induction 1 as [|t l Ht _ IH]; [reflexivity|].
  simpl. rewrite IH. simpl.
  apply Z.leb_gt in Ht. now rewrite Ht.
Qed.

Lemma list_tasks_online (d : dialect) (now : Z) (p : pool) :
  online (store p) = true →
  (answer d ListTasks now p).1
  = listing (order_by_created_at_desc (tasks (store p))).
Proof.
  intros Hon. destruct d; cbn [answer];
    unfold MySQL.get_tasks, PostgreSQL.get_tasks, try_catch, mbind, async_bind,
      MySQL.query, PostgreSQL.query;
    rewrite ?mysql_parse_select_all, ?postgres_parse_select_all;
    unfold run; rewrite Hon; reflexivity.
Qed.

(** The rows of a table with unique ids after an UPDATE that returned [u]:
    the row under the id is [u], the others are as they were. *)
Lemma updated_rows_unique (f : task → task) (n : Z) (u : task)
    (rest l : list task) :
  (∀ t, id (f t) = id t) →
  NoDup (map id l) →
  filter (λ t, has_id (Some n) t)
         (map (λ t, if has_id (Some n) t then f t else t) l) = u :: rest →
  map (λ t, if has_id (Some n) t then f t else t) l
  = map (λ t, if has_id (Some n) t then u else t) l.
Proof.
  intros Hf. induction l as [|t l IH]; intros Hnd H; [reflexivity|].
  cbn [map] in *. apply NoDup_cons in Hnd as [Hnot Hnd].
  destruct (has_id (Some n) t) eqn:E.
  - rewrite filter_cons_True in H
      by (simpl; rewrite Hf; simpl in E; rewrite E; exact I).
    injection H as Hu _. rewrite Hu. f_equal.
    assert (Hno : ∀ w, In w l → id w ≠ n).
    { intros w Hw Ew. apply Hnot. simpl in E. apply Z.eqb_eq in E.
      rewrite E, <- Ew. apply list_elem_of_In, in_map, Hw. }
    apply map_ext_in. intros w Hw. simpl.
    apply Hno, Z.eqb_neq in Hw. now rewrite Hw.
  - rewrite filter_cons_False in H by (rewrite E; intros []).
    f_equal. now apply IH.
Qed.

Lemma times_injective (l : list task) (t u : task) :
  NoDup (map created_at l) → In t l → In u l →
  created_at t = created_at u → t = u.
Proof.
  induction l as [|x l IH]; intros Hnd Ht Hu E; [destruct Ht|].
  cbn [map] in Hnd. apply NoDup_cons in Hnd as [Hnot Hnd].
  destruct Ht as [-> | Ht], Hu as [-> | Hu]; [reflexivity | | |now apply IH].
  - exfalso. apply Hnot. rewrite E. apply list_elem_of_In, in_map, Hu.
  - exfalso. apply Hnot. rewrite <- E. apply list_elem_of_In, in_map, Ht.
Qed.

(** Rows with different [created_at] have one order only. *)
Lemma sorted_unique (l l' : list task) :
  NoDup (map created_at l) → Permutation l l' →
  StronglySorted newest_first l → StronglySorted newest_first l' → l = l'.
Proof.
  revert l'. induction l as [|t l IH]; intros l' Hnd P S S'.
  { apply Permutation_nil in P. now subst. }
  destruct l' as [|u l']; [apply Permutation_sym, Permutation_nil in P; discriminate|].
  assert (E : t = u).
  { apply (times_injective (t :: l)); [exact Hnd | now left | |].
    - eapply Permutation_in; [symmetry; exact P | now left].
    - apply StronglySorted_inv in S as [_ F], S' as [_ F'].
      rewrite List.Forall_forall in F, F'. unfold newest_first in F, F'.
      assert (Ht : In t (u :: l')) by (eapply Permutation_in; [exact P | now left]).
      assert (Hu : In u (t :: l))
        by (eapply Permutation_in; [symmetry; exact P | now left]).
      destruct Ht as [-> | Ht]; [reflexivity|].
      destruct Hu as [-> | Hu]; [reflexivity|].
      specialize (F _ Hu). specialize (F' _ Ht). lia. }
  subst u. f_equal. apply Permutation_cons_inv in P.
  cbn [map] in Hnd. apply NoDup_cons in Hnd as [_ Hnd].
  apply StronglySorted_inv in S as [S _], S' as [S' _]. now apply IH.
Qed.

Lemma order_by_lists (db : database) :
  lists db (order_by_created_at_desc (tasks db)).
Proof. split; [apply order_by_permutation | apply order_by_sorted]. Qed.

(** With different [created_at] on every row, the order by [created_at]
    descending is one list. *)
Lemma lists_unique (db : database) (l : list task) :
  distinct_times db → lists db l → l = order_by_created_at_desc (tasks db).
Proof.
  intros Hd [P S]. symmetry. apply sorted_unique.
  - unfold distinct_times in Hd.
    now rewrite <- (Permutation_map created_at (order_by_permutation (tasks db))).
  - etransitivity; [symmetry; apply order_by_permutation | exact P].
  - apply order_by_sorted.
  - exact S.
Qed.

Lemma NoDup_times_filter (f : task → bool) (l : list task) :
  NoDup (map created_at l) → NoDup (map created_at (filter (λ t, f t) l)).
Proof.
  induction l as [|t l IH]; intros Hnd; [constructor|].
  cbn [map] in Hnd. apply NoDup_cons in Hnd as [Hnot Hnd].
  destruct (f t) eqn:E.
  - rewrite filter_cons_True by (rewrite E; exact I). cbn [map].
    apply NoDup_cons. split; [|now apply IH].
    intros H. apply Hnot. apply list_elem_of_In, in_map_iff in H as (w & Ew & Hw).
    apply list_elem_of_In, list_elem_of_filter in Hw as [_ Hw].
    rewrite <- Ew. apply list_elem_of_In, in_map, list_elem_of_In, Hw.
  - rewrite filter_cons_False by (rewrite E; intros []). now apply IH.
Qed.

Lemma times_appended (l : list task) (row : task) :
  NoDup (map created_at l) →
  Forall (λ t, created_at t < created_at row) l →
  NoDup (map created_at (l ++ [row])).
Proof.
  intros Hnd Hold. rewrite map_app. apply NoDup_app. split; [exact Hnd|].
  split; [|apply NoDup_singleton].
  intros x Hx Hrow. apply list_elem_of_singleton in Hrow. subst x.
  apply list_elem_of_In, in_map_iff in Hx as (t & E & Ht).
  rewrite List.Forall_forall in Hold. specialize (Hold _ Ht). lia.
Qed.

Lemma times_updated (f : task → task) (l : list task) :
  (∀ t, created_at (f t) = created_at t) →
  map created_at (map f l) = map created_at l.
Proof. intros H. rewrite map_map. apply map_ext. exact H. Qed.

Lemma delete_keeps_times (d : dialect) (i : string) (now : Z) (p : pool) :
  distinct_times (store p) →
  distinct_times (store (answer d (DeleteTask i) now p).2).
Proof.
  unfold distinct_times. intros Hnd.
  destruct d; cbn [answer];
    unfold MySQL.delete_task, PostgreSQL.delete_task, try_catch, mbind,
      async_bind, mret, async_ret, MySQL.query, PostgreSQL.query;
    rewrite ?mysql_parse_delete, ?postgres_parse_delete;
    unfold run; destruct (online (store p)); cbn [negb].
  all: repeat match goal with
       | |- context [?vs !! 0%nat ≫= id_of_param ?d] =>
           destruct (vs !! 0%nat ≫= id_of_param d)
       end.
  all: repeat match goal with
       | |- context [bool_decide ?P] => destruct (bool_decide P)
       | |- context [(length ?l =? 0)%nat] => destruct (length l =? 0)%nat
       end.
  all: cbn [fst snd store tasks]; try exact Hnd.
  all: apply (NoDup_times_filter (λ t, negb (has_id _ t))), Hnd.
Qed.

(** A call at a time after every stamp of the table leaves the
    [created_at] of its rows different from one another. *)
Lemma answer_keeps_times (d : dialect) (c : call) (before now : Z) (p : pool) :
  before < now →
  well_formed (store p) → stamped_by before (store p) →
  distinct_times (store p) →
  distinct_times (store (answer d c now p).2).
Proof.
  intros Hlt Hwf Hst Hd. destruct c as [|i|b|i b|i].
  - now rewrite (reads_keep_store d ListTasks now p I).
  - now rewrite (reads_keep_store d (GetTask i) now p I).
  - destruct (answer_post_cases d b now p Hwf)
      as [[_ ->] | (row & _ & _ & Hc & _ & _ & ->)]; [exact Hd|].
    unfold distinct_times. cbn [tasks]. apply times_appended; [exact Hd|].
    eapply Forall_impl; [exact Hst|]. simpl. intros; lia.
  - destruct (decide (statusCode (answer d (PutTask i b) now p).1 = 200))
      as [H200 | H].
    + destruct (put_task_succeeds d i b now p H200)
        as (k & cells & u & rest & _ & _ & _ & _ & _ & ->).
      unfold distinct_times. cbn [tasks]. rewrite times_updated; [exact Hd|].
      intros t. destruct (has_id k t); [apply update_row_stamps | reflexivity].
    + now rewrite (put_task_fails d i b now p H).
  - now apply delete_keeps_times.
Qed.

Lemma sample_times_distinct : distinct_times (store sample_pool).
Proof.
  unfold distinct_times. simpl. apply NoDup_cons. split; [|apply NoDup_singleton].
  intros H. apply list_elem_of_singleton in H. discriminate.
Qed.

(** X23: a created task heads the list.  On a table whose rows have
    different [created_at], all before the time of the request, when POST
    is answered 201 the list route answers afterwards with the created
    task followed by the list it answered with before; before and after,
    that list is the one order by [created_at] descending of the table. *)
Theorem list_after_post (d : dialect) (req_body : gmap string value)
    (now later : Z) (p : pool) :
  well_formed (store p) →
  distinct_times (store p) →
  Forall (λ t, created_at t < now) (tasks (store p)) →
  statusCode (answer d (PostTask req_body) now p).1 = 201 →
  ∃ row listed,
    property "data" (body (answer d (PostTask req_body) now p).1)
    = Some (JTask row)
    ∧ (answer d ListTasks now p).1 = listing listed
    ∧ (answer d ListTasks later (answer d (PostTask req_body) now p).2).1
      = listing (row :: listed)
    ∧ (∀ l, lists (store p) l → l = listed)
    ∧ (∀ l, lists (store (answer d (PostTask req_body) now p).2) l →
            l = row :: listed).
Proof.
  intros Hwf Hd Hold H201.
  destruct (answer_post_cases d req_body now p Hwf)
    as [[Hin _] | (row & Hon & _ & Hc & _ & Hr & Hs)].
  { rewrite H201 in Hin. destruct Hin as [? | [? | []]]; discriminate. }
  exists row, (order_by_created_at_desc (tasks (store p))).
  rewrite Hr. split; [reflexivity|].
  split; [now apply list_tasks_online|].
  rewrite list_tasks_online by (now rewrite Hs).
  rewrite Hs. cbn [tasks].
  rewrite order_by_app_newest by (now rewrite Hc).
  split; [reflexivity|]. split; [intros l; now apply lists_unique|].
  intros l Hl. apply lists_unique in Hl.
  - cbn [tasks] in Hl. now rewrite order_by_app_newest in Hl by (now rewrite Hc).
  - unfold distinct_times. cbn [tasks].
    apply times_appended; [exact Hd | now rewrite Hc].
Qed.

Lemma list_after_post_witness :
  well_formed (store sample_pool)
  ∧ distinct_times (store sample_pool)
  ∧ Forall (λ t, created_at t < 300) (tasks (store sample_pool))
  ∧ statusCode (answer Mysql (PostTask same_title) 300 sample_pool).1 = 201
  ∧ ∃ row,
      (answer Mysql ListTasks 400
         (answer Mysql (PostTask same_title) 300 sample_pool).2).1
      = listing [row; walk_dog; buy_milk].
Proof.
  assert (Hold : Forall (λ t, created_at t < 300) (tasks (store sample_pool))).
  { constructor; [reflexivity|]. constructor; [reflexivity|]. constructor. }
  split; [exact sample_ids_fresh|]. split; [exact sample_times_distinct|].
  split; [exact Hold|]. split; [reflexivity|].
  destruct (list_after_post Mysql same_title 300 400 sample_pool
              sample_ids_fresh sample_times_distinct Hold eq_refl)
    as (row & listed & _ & Hb & Ha & _).
  exists row. rewrite Ha. f_equal. f_equal.
  assert (E : listing listed = listing [walk_dog; buy_milk])
    by (rewrite <- Hb; reflexivity).
  now injection E.
Defined.



(** X25: a deleted task leaves the list, and nothing else does.  While the
    database can be reached, on a table whose rows have different
    [created_at], after DELETE with an integer id that the integer column
    can hold the list route answers with the list it answered with
    before, in the same order, without the tasks under that id; before
    and after, that list is the one order by [created_at] descending of
    the table. *)
Theorem list_after_delete (d : dialect) (i : string) (n : nat) (now later : Z)
    (p : pool) :
  online (store p) = true →
  integer_id i n →
  fits_integer n →
  distinct_times (store p) →
  ∃ listed,
    (answer d ListTasks now p).1 = listing listed
    ∧ (answer d ListTasks later (answer d (DeleteTask i) now p).2).1
      = listing (filter (λ t, negb (id t =? Z.of_nat n)) listed)
    ∧ (∀ l, lists (store p) l → l = listed)
    ∧ (∀ l, lists (store (answer d (DeleteTask i) now p).2) l →
            l = filter (λ t, negb (id t =? Z.of_nat n)) listed).
Proof.
  intros Hon Hi _ Hd. exists (order_by_created_at_desc (tasks (store p))).
  split; [now apply list_tasks_online|].
  assert (Hs : store (answer d (DeleteTask i) now p).2
               = mkDatabase
                   (filter (λ t, negb (has_id (Some (Z.of_nat n)) t))
                           (tasks (store p)))
                   (next_id (store p)) (online (store p))).
  { destruct d; cbn [answer];
      [rewrite (mysql_delete_task_online _ _ _ _ Hon Hi)
      |rewrite (postgres_delete_task_online _ _ _ _ Hon Hi)]; reflexivity. }
  assert (E : order_by_created_at_desc
                (tasks (store (answer d (DeleteTask i) now p).2))
              = filter (λ t, negb (id t =? Z.of_nat n))
                       (order_by_created_at_desc (tasks (store p)))).
  { rewrite Hs. cbn [tasks].
    apply (order_by_filter (λ t, negb (has_id (Some (Z.of_nat n)) t))). }
  rewrite list_tasks_online by (now rewrite Hs).
  rewrite E. split; [reflexivity|]. split; [intros l; now apply lists_unique|].
  intros l Hl. rewrite <- E. apply lists_unique; [|exact Hl].
  now apply delete_keeps_times.
Qed.

Lemma list_after_delete_witness :
  online (store sample_pool) = true
  ∧ integer_id "2" 2
  ∧ fits_integer 2
  ∧ distinct_times (store sample_pool)
  ∧ (answer Mysql ListTasks 400
       (answer Mysql (DeleteTask "2") 300 sample_pool).2).1
    = listing [buy_milk].
Proof.
  assert (Hf : fits_integer 2) by (unfold fits_integer; lia).
  split; [reflexivity|]. split; [reflexivity|]. split; [exact Hf|].
  split; [exact sample_times_distinct|].
  destruct (list_after_delete Mysql "2" 2 300 400 sample_pool eq_refl eq_refl
              Hf sample_times_distinct) as (listed & Hb & Ha & _).
  rewrite Ha.
  assert (E : listing listed = listing [walk_dog; buy_milk])
    by (rewrite <- Hb; reflexivity).
  injection E as ->. reflexivity.
Defined.

(** ** Ids as text *)

Lemma read_digits_of_uint (d : Decimal.uint) (acc : nat) (seen : bool) :
  seen = true ∨ d ≠ Decimal.Nil →
  read_digits (NilEmpty.string_of_uint d) acc seen
  = Some (Nat.of_uint_acc d acc, EmptyString).
Proof.
  revert acc seen.
  induction d as [|d IH|d IH|d IH|d IH|d IH|d IH|d IH|d IH|d IH|d IH];
    intros acc seen H.
  { destruct H as [-> | H]; [reflexivity | contradiction]. }
  all: cbn [NilEmpty.string_of_uint read_digits Nat.of_uint_acc].
  all: match goal with
       | |- context [is_digit ?a] => change (is_digit a) with true
       end; cbv iota.
  all: rewrite IH by (now left); rewrite Nat.tail_mul_spec.
  all: do 2 f_equal; f_equal; vm_compute (nat_of_ascii _ - 48)%nat; lia.
Qed.

(** The decimal text of a natural number is read back as that number. *)
Lemma integer_id_of_nat (n : nat) : integer_id (string_of_nat n) n.
Proof.
  unfold integer_id, string_of_nat, NilZero.string_of_uint.
  pose proof (DecimalNat.Unsigned.of_to n) as Hn.
  destruct (Nat.to_uint n) as [|d|d|d|d|d|d|d|d|d|d] eqn:E.
  { simpl in Hn. subst n. discriminate E. }
  all: rewrite read_digits_of_uint by (right; discriminate).
  all: now rewrite <- Hn.
Qed.

(** ** The status codes of the routes *)

Lemma answer_status (d : dialect) (c : call) (now : Z) (p : pool) :
  In (statusCode (answer d c now p).1)
     match c with
     | ListTasks => [200; 500]
     | GetTask _ => [200; 404; 500]
     | PostTask _ => [201; 400; 500]
     | PutTask _ _ => [200; 400; 404; 500]
     | DeleteTask _ => [200; 404; 500]
     end.
Proof.
  destruct d, c as [|i|b|i b|i]; cbn [answer].
  all: unfold MySQL.get_tasks, MySQL.get_task, MySQL.post_task, MySQL.put_task,
         MySQL.delete_task, PostgreSQL.get_tasks, PostgreSQL.get_task,
         PostgreSQL.post_task, PostgreSQL.put_task, PostgreSQL.delete_task,
         try_catch, mbind, async_bind, mret, async_ret; cbv zeta.
  all: try (destruct (negb (truthy (b !! "title"))); [simpl; tauto|]).
  all: try (destruct (truthy (b !! "status") && negb _); [simpl; tauto|]).
  all: try (destruct (b !! "title"), (b !! "description"), (b !! "status");
            cbn [length Nat.eqb app]; try (simpl; tauto)).
  all: repeat match goal with
       | |- context [MySQL.query ?sql ?vs ?n ?q] =>
           destruct (MySQL.query sql vs n q) as [[?|?] ?]
       | |- context [PostgreSQL.query ?sql ?vs ?n ?q] =>
           destruct (PostgreSQL.query sql vs n q) as [[?|?] ?]
       | |- context [bool_decide ?P] => destruct (bool_decide P)
       | |- context [(length ?l =? 0)%nat] => destruct (length l =? 0)%nat
       end.
  all: simpl; tauto.
Qed.

Lemma list_tasks_offline (d : dialect) (now : Z) (p : pool) :
  online (store p) = false → statusCode (answer d ListTasks now p).1 = 500.
Proof.
  intros Hoff. destruct d; cbn [answer];
    unfold MySQL.get_tasks, PostgreSQL.get_tasks, try_catch, mbind, async_bind.
  - now destruct (mysql_query_offline
                    "SELECT * FROM tasks ORDER BY created_at DESC" [] now p Hoff)
      as [m ->].
  - now destruct (postgres_query_offline
                    "SELECT * FROM tasks ORDER BY created_at DESC" [] now p Hoff)
      as [m ->].
Qed.

Lemma delete_task_offline (d : dialect) (i : string) (now : Z) (p : pool) :
  online (store p) = false → statusCode (answer d (DeleteTask i) now p).1 = 500.
Proof.
  intros Hoff. destruct d; cbn [answer];
    unfold MySQL.delete_task, PostgreSQL.delete_task, try_catch, mbind,
      async_bind.
  - now destruct (mysql_query_offline
                    "DELETE FROM tasks WHERE id = ?" [VStr i] now p Hoff)
      as [m ->].
  - now destruct (postgres_query_offline
                    "DELETE FROM tasks WHERE id = $1 RETURNING *" [VStr i] now p
                    Hoff) as [m ->].
Qed.

(** ** The page and the table behind it *)

Lemma fetch_down (d : dialect) (c : call) (now : Z) (p : pool) :
  Page.fetch false d c now p = (None, p).
Proof. reflexivity. Qed.

Lemma fetch_up (d : dialect) (c : call) (now : Z) (p : pool) :
  Page.fetch true d c now p = (Some (answer d c now p).1, (answer d c now p).2).
Proof. unfold Page.fetch. now destruct (answer d c now p). Qed.

Lemma ok_codes (r : response) (codes : list Z) :
  In (statusCode r) codes →
  Forall (λ n, n = 200 ∨ n = 201 ∨ n = 400 ∨ n = 404 ∨ n = 500) codes →
  Page.ok r = true ↔ statusCode r = 200 ∨ statusCode r = 201.
Proof.
  intros Hin Hall. rewrite List.Forall_forall in Hall.
  specialize (Hall _ Hin). unfold Page.ok.
  rewrite andb_true_iff, !Z.leb_le. lia.
Qed.

Lemma path_of_natural (n : Z) :
  0 <= n → integer_id (Page.path_of_id n) (Z.to_nat n).
Proof.
  intros Hn. unfold Page.path_of_id.
  destruct (n <? 0) eqn:E; [apply Z.ltb_lt in E; lia|].
  apply integer_id_of_nat.
Qed.

Lemma findIndex_listed (n : Z) (u : task) (l : list task) :
  NoDup (map id l) →
  ∃ index,
    Page.findIndex n (map Some l) = Some index
    ∧ match index with
      | Some i => <[i := Some u]> (map Some l)
      | None => map Some l
      end
      = map Some (map (λ t, if id t =? n then u else t) l).
Proof.
  induction l as [|t l IH]; intros Hnd; [now exists None|].
  cbn [map] in Hnd. apply NoDup_cons in Hnd as [Hnot Hnd].
  cbn [map Page.findIndex]. destruct (id t =? n) eqn:E.
  - exists (Some 0%nat). split; [reflexivity|]. cbn. f_equal.
    f_equal. rewrite <- (map_id l) at 1. apply map_ext_in. intros w Hw.
    destruct (id w =? n) eqn:Ew; [|reflexivity].
    exfalso. apply Hnot. apply Z.eqb_eq in E, Ew. rewrite E, <- Ew.
    apply list_elem_of_In, in_map, Hw.
  - destruct (IH Hnd) as (index & -> & Heq). destruct index as [i|].
    + exists (Some (S i)). split; [reflexivity|].
      change (<[S i := Some u]> (Some t :: map Some l))
        with (Some t :: <[i := Some u]> (map Some l)).
      now rewrite Heq.
    + exists None. split; [reflexivity|]. now rewrite Heq.
Qed.

Lemma filter_out_listed (n : Z) (l : list task) :
  Page.filter_out n (map Some l)
  = Some (map Some (filter (λ t, negb (id t =? n)) l)).
Proof.
  induction l as [|t l IH]; [reflexivity|].
  cbn [map Page.filter_out]. rewrite IH. destruct (id t =? n) eqn:E.
  - now rewrite filter_cons_False by (rewrite E; intros H; exact H).
  - now rewrite filter_cons_True by (rewrite E; exact I).
Qed.

Lemma data_tasks_listing (l : list task) :
  Page.data_tasks (listing l) = map Some l.
Proof. reflexivity. Qed.

(** The rows of a table with unique ids, as listed after a PUT answered
    with [u]. *)
Lemma put_rows_listed (d : dialect) (cells : list (column * option string))
    (now n : Z) (u : task) (rest l : list task) :
  NoDup (map id l) →
  filter (λ t, has_id (Some n) t)
         (map (λ t, if has_id (Some n) t then update_row d cells now t else t) l)
  = u :: rest →
  order_by_created_at_desc
    (map (λ t, if has_id (Some n) t then update_row d cells now t else t) l)
  = map (λ t, if id t =? n then u else t) (order_by_created_at_desc l).
Proof.
  intros Hnd Hf.
  rewrite order_by_map
    by (intros w; destruct (has_id _ w); [apply update_row_stamps | reflexivity]).
  pose proof (updated_rows_unique (update_row d cells now) n u rest l
                (λ t, proj1 (update_row_stamps d cells now t)) Hnd Hf) as U.
  rewrite List.map_ext_in_iff in U.
  apply map_ext_in. intros w Hw. apply U.
  eapply Permutation_in; [symmetry; apply order_by_permutation | exact Hw].
Qed.

Lemma order_by_ids_unique (l : list task) :
  NoDup (map id l) → NoDup (map id (order_by_created_at_desc l)).
Proof.
  intros H.
  assert (P : Permutation (map id l) (map id (order_by_created_at_desc l)))
    by apply Permutation_map, order_by_permutation.
  now rewrite <- P.
Qed.

(** Each action leaves the page showing what the list route would answer
    with. *)
Lemma load_keeps_shows (net : bool) (d : dialect) (now : Z) (st : Page.state)
    (p : pool) :
  shows st p →
  shows (Page.loadTasks net d now (st, p)).1 (Page.loadTasks net d now (st, p)).2
  ∧ store (Page.loadTasks net d now (st, p)).2 = store p.
Proof.
  intros Hs. unfold Page.loadTasks. destruct net.
  - rewrite fetch_up. pose proof (reads_keep_store d ListTasks now p I) as Hst.
    destruct (online (store p)) eqn:Hon.
    + rewrite (list_tasks_online d now p Hon). cbn [negb Page.ok listing statusCode].
      cbn. split; [|exact Hst]. unfold shows. cbn. now rewrite Hst.
    + pose proof (list_tasks_offline d now p Hon) as H500.
      unfold Page.ok. rewrite H500. cbn. split; [|exact Hst].
      unfold shows in *. cbn. now rewrite Hst.
  - rewrite fetch_down. cbn. now split.
Qed.

Lemma create_keeps_shows (net : bool) (d : dialect) (now : Z) (st : Page.state)
    (p : pool) :
  well_formed (store p) →
  Forall (λ t, created_at t < now) (tasks (store p)) →
  shows st p →
  shows (Page.createTask net d now (st, p)).1 (Page.createTask net d now (st, p)).2.
Proof.
  intros Hwf Hold Hs. unfold Page.createTask.
  destruct (Page.blank _); [exact Hs|]. destruct net; [|exact Hs].
  rewrite fetch_up.
  set (b := Page.json_of_form (Page.newTask st)).
  destruct (answer_post_cases d b now p Hwf)
    as [[Hin Hst] | (row & Hon & _ & Hc & _ & Hr & Hst)].
  - replace (Page.ok (answer d (PostTask b) now p).1) with false.
    + cbn. unfold shows in *. cbn. now rewrite Hst.
    + unfold Page.ok. destruct Hin as [<- | [<- | []]]; reflexivity.
  - rewrite Hr. cbn. unfold shows in *. cbn. rewrite Hst, Hs. cbn [tasks].
    now rewrite order_by_app_newest by (now rewrite Hc).
Qed.

Lemma update_keeps_shows (net : bool) (d : dialect) (n now : Z) (st : Page.state)
    (p : pool) :
  0 <= n →
  NoDup (map id (tasks (store p))) →
  shows st p →
  shows (Page.updateTask net d n now (st, p)).1
        (Page.updateTask net d n now (st, p)).2.
Proof.
  intros Hn Hnd Hs. unfold Page.updateTask. destruct net; [|exact Hs].
  rewrite fetch_up.
  set (i := Page.path_of_id n). set (b := Page.json_of_edit (Page.editForm st)).
  pose proof (answer_status d (PutTask i b) now p) as Hcodes.
  destruct (Page.ok (answer d (PutTask i b) now p).1) eqn:Hok.
  - assert (H200 : statusCode (answer d (PutTask i b) now p).1 = 200).
    { apply ok_codes with (codes := [200; 400; 404; 500]) in Hok;
        [|exact Hcodes|repeat constructor; tauto].
      destruct Hok as [H | H]; [exact H|].
      rewrite H in Hcodes. simpl in Hcodes. intuition discriminate. }
    destruct (put_task_succeeds d i b now p H200)
      as (k & cells & u & rest & Hon & Hk & _ & Hf & Hr & Hst).
    rewrite (id_of_param_integer d i _ (path_of_natural n Hn)) in Hk.
    rewrite Z2Nat.id in Hk by exact Hn. injection Hk as <-.
    cbn [negb]. rewrite Hs.
    destruct (findIndex_listed n u (order_by_created_at_desc (tasks (store p)))
                (order_by_ids_unique _ Hnd)) as (index & -> & Heq).
    unfold shows. cbn. rewrite Hst. cbn [tasks].
    rewrite (put_rows_listed d cells now n u rest _ Hnd Hf).
    unfold Page.data_task. rewrite Hr. cbn. unfold shows in Hs.
    rewrite Hs. exact Heq.
  - cbn. unfold shows in *. cbn. rewrite put_task_fails; [exact Hs|].
    intros H200. unfold Page.ok in Hok. rewrite H200 in Hok. discriminate.
Qed.

Lemma delete_keeps_shows (confirmed net : bool) (d : dialect) (n now : Z)
    (st : Page.state) (p : pool) :
  0 <= n →
  shows st p →
  shows (Page.deleteTask confirmed net d n now (st, p)).1
        (Page.deleteTask confirmed net d n now (st, p)).2.
Proof.
  intros Hn Hs. unfold Page.deleteTask.
  destruct confirmed; [|exact Hs]. destruct net; [|exact Hs].
  cbn [negb]. rewrite fetch_up. set (i := Page.path_of_id n).
  destruct (Page.ok (answer d (DeleteTask i) now p).1) eqn:Hok.
  - cbn [negb]. rewrite Hs, filter_out_listed. unfold shows. cbn.
    destruct (online (store p)) eqn:Hon.
    + assert (Hst : store (answer d (DeleteTask i) now p).2
                    = mkDatabase
                        (filter (λ t, negb (has_id (Some n) t)) (tasks (store p)))
                        (next_id (store p)) (online (store p))).
      { pose proof (path_of_natural n Hn) as Hi. fold i in Hi.
        destruct d; cbn [answer];
          [rewrite (mysql_delete_task_online _ _ _ _ Hon Hi)
          |rewrite (postgres_delete_task_online _ _ _ _ Hon Hi)];
          cbn [snd store]; rewrite Z2Nat.id by exact Hn; reflexivity. }
      rewrite Hst. cbn [tasks]. f_equal. symmetry.
      apply (order_by_filter (λ t, negb (has_id (Some n) t))).
    + exfalso. unfold Page.ok in Hok.
      rewrite (delete_task_offline d i now p Hon) in Hok. discriminate.
  - cbn. unfold shows in *. cbn. rewrite delete_task_fails; [exact Hs|].
    intros H200. unfold Page.ok in Hok. rewrite H200 in Hok. discriminate.
Qed.

Lemma perform_pool (d : dialect) (a : action) (net : bool) (now : Z)
    (w : Page.state * pool) :
  (perform d a net now w).2 = w.2
  ∨ ∃ c, (perform d a net now w).2 = (answer d c now w.2).2.
Proof.
  destruct w as [st p].
  destruct a as [|f| |t|x y z| |n|n confirmed]; cbn [perform fst snd];
    try (now left).
  - unfold Page.loadTasks. destruct net; [|now left]. rewrite fetch_up.
    right. exists ListTasks. now destruct (negb _).
  - unfold Page.createTask. destruct (Page.blank _); [now left|].
    destruct net; [|now left]. rewrite fetch_up.
    right. eexists. destruct (negb _); reflexivity.
  - unfold Page.updateTask. destruct net; [|now left]. rewrite fetch_up.
    right. eexists. destruct (negb _); [reflexivity|].
    destruct (Page.findIndex _ _); reflexivity.
  - unfold Page.deleteTask. destruct confirmed; [|now left].
    destruct net; [|now left]. cbn [negb]. rewrite fetch_up.
    right. eexists. destruct (negb _); [reflexivity|].
    destruct (Page.filter_out _ _); reflexivity.
Qed.

Lemma perform_keeps_table (d : dialect) (a : action) (net : bool) (before now : Z)
    (w : Page.state * pool) :
  before <= now →
  sound_ids (store w.2) → stamped_by before (store w.2) →
  sound_ids (store (perform d a net now w).2)
  ∧ stamped_by now (store (perform d a net now w).2).
Proof.
  intros Hle Hsound Hst.
  destruct (perform_pool d a net now w) as [-> | [c ->]].
  - split; [exact Hsound|].
    eapply Forall_impl; [exact Hst|]. simpl. intros; lia.
  - destruct (answer_through d c now w.2) as [sts ->]. split.
    + now apply run_all_sound_ids.
    + now apply (run_all_stamped d before).
Qed.

Lemma perform_keeps_shows (d : dialect) (a : action) (net : bool) (before now : Z)
    (w : Page.state * pool) :
  before < now →
  match a with Save k | Remove k _ => 0 <= k | _ => True end →
  sound_ids (store w.2) → stamped_by before (store w.2) →
  shows w.1 w.2 →
  shows (perform d a net now w).1 (perform d a net now w).2.
Proof.
  intros Hlt Hk [Hnd Hwf] Hst Hs. destruct w as [st p]. cbn [fst snd] in *.
  destruct a as [|f| |t|x y z| |n|n confirmed]; cbn [perform fst snd];
    try exact Hs.
  - now apply load_keeps_shows.
  - apply create_keeps_shows; [exact Hwf| |exact Hs].
    eapply Forall_impl; [exact Hst|]. simpl. intros; lia.
  - now apply update_keeps_shows.
  - now apply delete_keeps_shows.
Qed.

Lemma perform_keeps_times (d : dialect) (a : action) (net : bool) (before now : Z)
    (w : Page.state * pool) :
  before < now →
  sound_ids (store w.2) → stamped_by before (store w.2) →
  distinct_times (store w.2) →
  distinct_times (store (perform d a net now w).2).
Proof.
  intros Hlt [_ Hwf] Hst Hd.
  destruct (perform_pool d a net now w) as [-> | [c ->]]; [exact Hd|].
  now apply (answer_keeps_times d c before).
Qed.

Lemma session_keeps_shows (d : dialect) (l : list (action * bool * Z))
    (start : Z) (st : Page.state) (p : pool) :
  paced start l →
  sound_ids (store p) →
  stamped_by start (store p) →
  distinct_times (store p) →
  shows st p →
  shows (session d l (st, p)).1 (session d l (st, p)).2
  ∧ sound_ids (store (session d l (st, p)).2)
  ∧ distinct_times (store (session d l (st, p)).2).
Proof.
  revert start st p.
  induction l as [|[[a net] now] l IH]; intros start st p Hp Hsound Hst Hd Hs;
    [split; [exact Hs | split; [exact Hsound | exact Hd]]|].
  destruct Hp as (Hlt & Hk & Hp). cbn [session].
  destruct (perform_keeps_table d a net start now (st, p)) as [Hsound' Hst'];
    [lia | exact Hsound | exact Hst |].
  pose proof (perform_keeps_times d a net start now (st, p) Hlt Hsound Hst Hd)
    as Hd'.
  assert (Hk' : match a with Save k | Remove k _ => 0 <= k | _ => True end)
    by (destruct a; try exact I; lia).
  pose proof (perform_keeps_shows d a net start now (st, p) Hlt Hk' Hsound Hst Hs)
    as Hs'.
  destruct (perform d a net now (st, p)) as [st' p']. now apply (IH now).
Qed.

(** X28: a page does not drift from the table.  Starting from a page that
    shows what the list route answers with, on a table with sound ids
    whose rows have different [created_at], in a database that can be
    reached, whatever one user does (load, fill in and submit the form,
    edit, save, cancel, delete, whether or not a request reaches the
    server), the page shows in the end what the list route would answer
    with, which is the one order by [created_at] descending of the table:
    its local updates of the list are those a reload would give.  The
    clock of the server moves on between two requests, so the rows keep
    different [created_at]. *)
Theorem page_stays_in_sync (d : dialect) (l : list (action * bool * Z))
    (start : Z) (st : Page.state) (p : pool) :
  paced start l →
  online (store p) = true →
  sound_ids (store p) →
  stamped_by start (store p) →
  distinct_times (store p) →
  shows st p →
  shows (session d l (st, p)).1 (session d l (st, p)).2
  ∧ sound_ids (store (session d l (st, p)).2)
  ∧ distinct_times (store (session d l (st, p)).2)
  ∧ (∀ listed, lists (store (session d l (st, p)).2) listed →
               Page.tasks (session d l (st, p)).1 = map Some listed).
Proof.
  intros Hp _ Hsound Hst Hd Hs.
  destruct (session_keeps_shows d l start st p Hp Hsound Hst Hd Hs)
    as (Hs' & Hsound' & Hd').
  split; [exact Hs'|]. split; [exact Hsound'|]. split; [exact Hd'|].
  intros listed Hl. rewrite (lists_unique _ _ Hd' Hl). exact Hs'.
Qed.

Lemma page_stays_in_sync_witness :
  paced 200 [(Remove 1 true, true, 300); (Create, true, 400); (Load, false, 500)]
  ∧ online (store sample_pool) = true
  ∧ sound_ids (store sample_pool)
  ∧ stamped_by 200 (store sample_pool)
  ∧ distinct_times (store sample_pool)
  ∧ shows sample_page sample_pool
  ∧ shows
      (session Mysql
         [(Remove 1 true, true, 300); (Create, true, 400); (Load, false, 500)]
         (sample_page, sample_pool)).1
      (session Mysql
         [(Remove 1 true, true, 300); (Create, true, 400); (Load, false, 500)]
         (sample_page, sample_pool)).2.
Proof.
  assert (Hp : paced 200 [(Remove 1 true, true, 300); (Create, true, 400);
                          (Load, false, 500)]) by (simpl; lia).
  assert (Hi : sound_ids (store sample_pool))
    by (split; [exact sample_ids_distinct | exact sample_ids_fresh]).
  assert (Ht : stamped_by 200 (store sample_pool)).
  { constructor; [simpl; lia|]. constructor; [simpl; lia|]. constructor. }
  assert (Hs : shows sample_page sample_pool) by reflexivity.
  split; [exact Hp|]. split; [reflexivity|]. split; [exact Hi|].
  split; [exact Ht|]. split; [exact sample_times_distinct|]. split; [exact Hs|].
  exact (proj1 (page_stays_in_sync Mysql _ 200 sample_page sample_pool
                  Hp eq_refl Hi Ht sample_times_distinct Hs)).
Defined.

(** X26: [loadTasks] never changes the table and always ends with
    [loading] off.  When the request reaches the server and the database
    answers, the page shows the list of the route and no error; when the
    request fails or the database cannot be reached, the page keeps the
    list it had and reports the failure. *)
Theorem page_load_outcome (net : bool) (d : dialect) (now : Z) (st : Page.state)
    (p : pool) :
  let w := Page.loadTasks net d now (st, p) in
  store w.2 = store p
  ∧ Page.loading w.1 = false
  ∧ (net = true → online (store p) = true →
     shows w.1 w.2 ∧ Page.error w.1 = None)
  ∧ (net = false ∨ online (store p) = false →
     Page.tasks w.1 = Page.tasks st
     ∧ Page.error w.1
       = Some "Failed to load tasks. Make sure the API server is running.").
Proof.
  cbv zeta. unfold Page.loadTasks. destruct net.
  - rewrite fetch_up. pose proof (reads_keep_store d ListTasks now p I) as Hst.
    destruct (online (store p)) eqn:Hon.
    + rewrite (list_tasks_online d now p Hon). cbn.
      split; [exact Hst|]. split; [reflexivity|]. split.
      * intros _ _. split; [|reflexivity]. unfold shows. cbn. now rewrite Hst.
      * intros [H | H]; discriminate H.
    + pose proof (list_tasks_offline d now p Hon) as H500.
      unfold Page.ok. rewrite H500. cbn.
      split; [exact Hst|]. split; [reflexivity|]. split.
      * intros _ H. discriminate H.
      * intros _. now split.
  - rewrite fetch_down. cbn. split; [reflexivity|]. split; [reflexivity|]. split.
    + intros H. discriminate H.
    + intros _. now split.
Qed.




(** ** A title the PUT routes do not check *)

(** A PUT that passes validation, supplies values the engine accepts and
    names a stored task is answered 200. *)
Lemma put_task_found (d : dialect) (i : string) (k : option Z)
    (req_body : gmap string value) (cells : list (column * option string))
    (now : Z) (p : pool) :
  online (store p) = true →
  id_of_param d (VStr i) = Some k →
  filter (λ t, has_id k t) (tasks (store p)) ≠ [] →
  truthy (req_body !! "status")
    && negb (includes task_status (req_body !! "status")) = false →
  supplied req_body ≠ [] →
  resolve_sets (positions (supplied req_body))
               (map snd (supplied req_body) ++ [VStr i]) = Some cells →
  statusCode (answer d (PutTask i req_body) now p).1 = 200.
Proof.
  intros Hon Hk Hhit Hv Hne Hr.
  pose proof (filter_updated d cells now k (tasks (store p))) as Hlen.
  destruct d; cbn [answer].
  - pose proof (mysql_put_task_supplied i req_body now p Hv Hne) as E.
    destruct (MySQL.put_task i req_body now p) as [r q]. cbn [fst snd] in *.
    revert E. unfold run at 1. rewrite supplied_id, Hon, Hr, Hk. cbn [negb affected].
    destruct (filter (λ t, has_id k t) (tasks (store p))) as [|t l] eqn:Hf;
      [contradiction|].
    cbn [length].
    rewrite (run_select_by_id Mysql (VStr i) k now); [|reflexivity|exact Hk].
    cbn [selected tasks].
    destruct (filter _ (map _ _)); [discriminate Hlen|].
    now intros [= -> _].
  - pose proof (postgres_put_task_supplied i req_body now p Hv Hne) as E.
    destruct (PostgreSQL.put_task i req_body now p) as [r q].
    cbn [fst snd] in *.
    revert E. unfold run at 1. rewrite supplied_id, Hon, Hr, Hk.
    cbn [negb selected].
    destruct (filter (λ t, has_id k t) (tasks (store p))) as [|t l] eqn:Hf;
      [contradiction|].
    destruct (filter _ (map _ _)); [discriminate Hlen|].
    now intros [= -> _].
Qed.

(** X29: PUT does not require a title as POST does.  On a reachable
    table, a PUT whose body is an empty title, for the integer id of a
    stored task, is answered 200 by either router and returns the task
    with its title emptied; the same body sent to POST is answered 400. *)
Theorem put_empties_title (d : dialect) (i : string) (n : nat) (t : task)
    (req_body : gmap string value) (now : Z) (p : pool) :
  online (store p) = true →
  integer_id i n →
  In t (tasks (store p)) →
  id t = Z.of_nat n →
  req_body !! "title" = Some (VStr EmptyString) →
  req_body !! "description" = None →
  req_body !! "status" = None →
  (∃ u, (answer d (PutTask i req_body) now p).1
        = mkResponse 200 [("success", JBool true);
                          ("data", JTask u);
                          ("message", JStr "Task updated successfully")]
        ∧ title u = EmptyString
        ∧ id u = id t)
  ∧ statusCode (answer d (PostTask req_body) now p).1 = 400.
Proof.
  intros Hon Hi Hin Hid Ht Hd Hs.
  assert (Hsup : supplied req_body = [(Title, VStr EmptyString)]).
  { unfold supplied. simpl. now rewrite Ht, Hd, Hs. }
  assert (Hv : truthy (req_body !! "status")
               && negb (includes task_status (req_body !! "status")) = false)
    by now rewrite Hs.
  assert (Hhit : filter (λ w, has_id (Some (Z.of_nat n)) w) (tasks (store p)) ≠ []).
  { intros E. destruct (filter_none_absent _ _ E) as [_ Hno].
    specialize (Hno t Hin). simpl in Hno. apply Z.eqb_neq in Hno. contradiction. }
  assert (H200 : statusCode (answer d (PutTask i req_body) now p).1 = 200).
  { apply (put_task_found d i (Some (Z.of_nat n)) req_body
             [(Title, Some EmptyString)]);
      [exact Hon | now apply id_of_param_integer | exact Hhit | exact Hv
      | rewrite Hsup; discriminate | now rewrite Hsup]. }
  split.
  - destruct (put_task_succeeds d i req_body now p H200)
      as (k & cells & u & rest & _ & Hk & Hcells & Hf & Hr & _).
    rewrite (id_of_param_integer d i n Hi) in Hk. injection Hk as <-.
    exists u. split; [exact Hr|].
    rewrite Hsup in Hcells.
    apply Forall2_cons_inv_l in Hcells as ([c x] & cells' & [Hc Hx] & Hnil & ->).
    apply Forall2_nil_inv_l in Hnil as ->. simpl in Hc, Hx.
    subst c. injection Hx as <-.
    assert (Hu : u ∈ filter (λ w, has_id (Some (Z.of_nat n)) w)
                   (map (λ w, if has_id (Some (Z.of_nat n)) w
                              then update_row d [(Title, Some EmptyString)] now w
                              else w) (tasks (store p))))
      by (rewrite Hf; left).
    apply list_elem_of_filter in Hu as [Hidu Hu].
    apply list_elem_of_In, in_map_iff in Hu as (w & <- & Hw).
    destruct (has_id (Some (Z.of_nat n)) w) eqn:E.
    + split.
      * pose proof (update_row_cell d [(Title, Some EmptyString)] now Title
                      (Some EmptyString) w) as Hcell.
        simpl in Hcell. injection Hcell as ->; [reflexivity| | |].
        -- apply NoDup_singleton.
        -- now left.
        -- intros _. now exists EmptyString.
      * destruct (update_row_stamps d [(Title, Some EmptyString)] now w)
          as (-> & _).
        simpl in E. apply Z.eqb_eq in E. congruence.
    + exfalso. rewrite E in Hidu. exact Hidu.
  - destruct d; cbn [answer]; unfold MySQL.post_task, PostgreSQL.post_task,
      try_catch; now rewrite Ht.
Qed.

Lemma put_empties_title_witness :
  online (store sample_pool) = true
  ∧ integer_id "1" 1
  ∧ In buy_milk (tasks (store sample_pool))
  ∧ id buy_milk = Z.of_nat 1
  ∧ empty_title !! "title" = Some (VStr EmptyString)
  ∧ empty_title !! "description" = None
  ∧ empty_title !! "status" = None
  ∧ statusCode (answer Mysql (PutTask "1" empty_title) 300 sample_pool).1 = 200
  ∧ statusCode (answer Mysql (PostTask empty_title) 300 sample_pool).1 = 400.
Proof.
  split; [reflexivity|]. split; [reflexivity|].
  split; [left; reflexivity|]. split; [reflexivity|].
  split; [reflexivity|]. split; [reflexivity|]. split; [reflexivity|].
  destruct (put_empties_title Mysql "1" 1 buy_milk empty_title 300 sample_pool
              eq_refl eq_refl (or_introl eq_refl) eq_refl eq_refl eq_refl eq_refl)
    as [(u & Hr & _) Hpost].
  split; [now rewrite Hr | exact Hpost].
Defined.
